(** * GirlTalkBot: meeting lifecycle, registrations and the creation dialogue

    A shallow embedding of [src/main.py] (class [GirlTalkBot]) and of the
    parts of Python's [datetime] and [sqlite3] the class relies on,
    followed by the properties of the meeting lifecycle manager, the
    registration manager and the conversation state tracker. *)

From Stdlib Require Import ZArith String Ascii List Bool Lia.
From Stdlib Require Import Sorting.Sorted Sorting.Permutation.
Import ListNotations.

Local Open Scope string_scope.
Local Open Scope Z_scope.

Infix "+:+" := String.append (at level 60, right associativity).

(* ===================================================================== *)
(** * Exceptions and results                                              *)
(* ===================================================================== *)

(** The exception classes that the code raises, catches or lets through.
    [except Exception] catches every one of them. *)
Inductive exn : Type :=
| ValueError          (* datetime.strptime on malformed input *)
| OverflowError       (* datetime + timedelta beyond datetime.max *)
| KeyError            (* d[k] on a missing key *)
| IntegrityError      (* sqlite3.IntegrityError: constraint violation *)
| OperationalError    (* sqlite3.OperationalError: store unavailable *)
| HttpError           (* googleapiclient.errors.HttpError *)
| OtherError.         (* any other Exception raised by a collaborator *)

Inductive result (A : Type) : Type :=
| Ok (a : A)
| Raise (e : exn).
Arguments Ok {A} a.
Arguments Raise {A} e.

(* ===================================================================== *)
(** * Python's naive [datetime]                                           *)
(* ===================================================================== *)

Module Datetime.

(** A naive datetime: the seven fields of [datetime.datetime]. *)
Record datetime : Type := mk_datetime {
  year : Z; month : Z; day : Z;
  hour : Z; minute : Z; second : Z; microsecond : Z
}.

Definition MINYEAR : Z := 1.
Definition MAXYEAR : Z := 9999.
Definition _MAXORDINAL : Z := 3652059.

Definition _is_leap (y : Z) : bool :=
  (y mod 4 =? 0) && (negb (y mod 100 =? 0) || (y mod 400 =? 0)).

Definition _DAYS_IN_MONTH (m : Z) : Z :=
  match m with
  | 1 => 31 | 2 => 28 | 3 => 31 | 4 => 30 | 5 => 31 | 6 => 30
  | 7 => 31 | 8 => 31 | 9 => 30 | 10 => 31 | 11 => 30 | 12 => 31
  | _ => -1
  end.

Definition _DAYS_BEFORE_MONTH (m : Z) : Z :=
  match m with
  | 1 => 0 | 2 => 31 | 3 => 59 | 4 => 90 | 5 => 120 | 6 => 151
  | 7 => 181 | 8 => 212 | 9 => 243 | 10 => 273 | 11 => 304 | 12 => 334
  | _ => -1
  end.

Definition _days_before_year (y : Z) : Z :=
  let y := y - 1 in y * 365 + y / 4 - y / 100 + y / 400.

Definition _days_in_month (y m : Z) : Z :=
  if (m =? 2) && _is_leap y then 29 else _DAYS_IN_MONTH m.

Definition _days_before_month (y m : Z) : Z :=
  _DAYS_BEFORE_MONTH m + (if (2 <? m) && _is_leap y then 1 else 0).

Definition _ymd2ord (y m d : Z) : Z :=
  _days_before_year y + _days_before_month y m + d.

Definition _DI400Y : Z := 146097.
Definition _DI100Y : Z := 36524.
Definition _DI4Y : Z := 1461.

(** [_ord2ymd]: ordinal (1 = 0001-01-01) to (year, month, day). *)
Definition _ord2ymd (n : Z) : Z * Z * Z :=
  let n := n - 1 in
  let n400 := n / _DI400Y in let n := n mod _DI400Y in
  let y := n400 * 400 + 1 in
  let n100 := n / _DI100Y in let n := n mod _DI100Y in
  let n4 := n / _DI4Y in let n := n mod _DI4Y in
  let n1 := n / 365 in let n := n mod 365 in
  let y := y + n100 * 100 + n4 * 4 + n1 in
  if (n1 =? 4) || (n100 =? 4) then (y - 1, 12, 31)
  else
    let leapyear := (n1 =? 3) && (negb (n4 =? 24) || (n100 =? 3)) in
    let m := Z.shiftr (n + 50) 5 in
    let preceding :=
      _DAYS_BEFORE_MONTH m + (if (2 <? m) && leapyear then 1 else 0) in
    let '(m, preceding) :=
      if n <? preceding
      then (m - 1,
            preceding - (_DAYS_IN_MONTH (m - 1)
                         + (if (m - 1 =? 2) && leapyear then 1 else 0)))
      else (m, preceding) in
    (y, m, n - preceding + 1).

(** The range checks of the [datetime] constructor
    ([_check_date_fields], [_check_time_fields]). *)
Definition datetime_ok (d : datetime) : bool :=
  (MINYEAR <=? year d) && (year d <=? MAXYEAR)
  && (1 <=? month d) && (month d <=? 12)
  && (1 <=? day d) && (day d <=? _days_in_month (year d) (month d))
  && (0 <=? hour d) && (hour d <=? 23)
  && (0 <=? minute d) && (minute d <=? 59)
  && (0 <=? second d) && (second d <=? 59)
  && (0 <=? microsecond d) && (microsecond d <=? 999999).

(** [datetime(...)]: the constructor raises [ValueError] on a field that
    is out of range. *)
Definition new_datetime (y m d hh mm ss us : Z) : result datetime :=
  let r := mk_datetime y m d hh mm ss us in
  if datetime_ok r then Ok r else Raise ValueError.

(** ** Comparison: the tuple comparison of [datetime._cmp] *)

Definition lex (c1 c2 : comparison) : comparison :=
  match c1 with Eq => c2 | _ => c1 end.

Definition cmp (a b : datetime) : comparison :=
  lex (year a ?= year b)
 (lex (month a ?= month b)
 (lex (day a ?= day b)
 (lex (hour a ?= hour b)
 (lex (minute a ?= minute b)
 (lex (second a ?= second b)
      (microsecond a ?= microsecond b)))))).

Definition ltb (a b : datetime) : bool :=
  match cmp a b with Lt => true | _ => false end.
Definition leb (a b : datetime) : bool :=
  match cmp a b with Gt => false | _ => true end.

(** ** [timedelta] and [datetime + timedelta] *)

Record timedelta : Type := mk_timedelta {
  td_days : Z; td_seconds : Z; td_microseconds : Z
}.

(** [timedelta(days, seconds, microseconds, minutes=, hours=)] on integer
    arguments: carries are propagated so that
    [0 <= microseconds < 10^6] and [0 <= seconds < 86400]. *)
Definition new_timedelta (days seconds microseconds minutes hours : Z)
  : timedelta :=
  let s := seconds + minutes * 60 + hours * 3600 + microseconds / 1000000 in
  {| td_days := days + s / 86400;
     td_seconds := s mod 86400;
     td_microseconds := microseconds mod 1000000 |}.

Definition timedelta_add (a b : timedelta) : timedelta :=
  new_timedelta (td_days a + td_days b) (td_seconds a + td_seconds b)
                (td_microseconds a + td_microseconds b) 0 0.

Definition toordinal (d : datetime) : Z := _ymd2ord (year d) (month d) (day d).

(** [datetime.__add__]: go through the ordinal of the date; a result
    outside [1 .. _MAXORDINAL] raises [OverflowError]. *)
Definition add (d : datetime) (other : timedelta) : result datetime :=
  let delta :=
    timedelta_add
      (new_timedelta (toordinal d) (second d) (microsecond d)
                     (minute d) (hour d))
      other in
  let hh := td_seconds delta / 3600 in
  let rem := td_seconds delta mod 3600 in
  let mm := rem / 60 in
  let ss := rem mod 60 in
  if (0 <? td_days delta) && (td_days delta <=? _MAXORDINAL) then
    let '(y, m, dd) := _ord2ymd (td_days delta) in
    Ok (mk_datetime y m dd hh mm ss (td_microseconds delta))
  else Raise OverflowError.

(** The position of a datetime on the time line: microseconds since the
    start of the day of ordinal 0. *)
Definition total_microseconds (d : datetime) : Z :=
  (((toordinal d * 24 + hour d) * 60 + minute d) * 60 + second d) * 1000000
  + microsecond d.

(** [timedelta(hours=h)] *)
Definition hours (h : Z) : timedelta := new_timedelta 0 0 0 0 h.

(** ** [isoformat] *)

Definition digit_char (d : Z) : ascii := ascii_of_N (Z.to_N (48 + d)).

(** ["%0<width>d" % n] for [0 <= n < 10^width]: exactly [width] decimal
    digits, most significant first.  Every field of a datetime is within
    the width it is printed with. *)
Fixpoint zfill (width : nat) (n : Z) : string :=
  match width with
  | O => EmptyString
  | S w => zfill w (n / 10) +:+ String (digit_char (n mod 10)) EmptyString
  end.

(** [_format_time(hh, mm, ss, us, 'auto')]: the fraction is printed only
    when [us] is not zero. *)
Definition _format_time (hh mm ss us : Z) : string :=
  zfill 2 hh +:+ ":" +:+ zfill 2 mm +:+ ":" +:+ zfill 2 ss
  +:+ (if us =? 0 then EmptyString else "." +:+ zfill 6 us).

(** [datetime.isoformat()] of a naive datetime:
    [YYYY-MM-DDTHH:MM:SS[.ffffff]]. *)
Definition isoformat (d : datetime) : string :=
  zfill 4 (year d) +:+ "-" +:+ zfill 2 (month d) +:+ "-" +:+ zfill 2 (day d)
  +:+ "T" +:+ _format_time (hour d) (minute d) (second d) (microsecond d).

End Datetime.


(* ===================================================================== *)
(** * [datetime.strptime(text, "%Y-%m-%d %H:%M")]                         *)
(* ===================================================================== *)

(** [_strptime] turns the format into the regular expression
    [(?P<Y>\d\d\d\d)-(?P<m>1[0-2]|0[1-9]|[1-9])-(?P<d>3[0-1]|[1-2]\d|0[1-9]|[1-9]| [1-9])\s+(?P<H>2[0-3]|[0-1]\d|\d):(?P<M>[0-5]\d|\d)]
    matches it at the start of the text, and raises [ValueError] when
    there is no match or when text remains after the match.  The matcher
    below is the backtracking one: a parser returns every way to match,
    in the order in which the regex engine tries them, and the match is
    the first one.  Texts are byte strings; digits and spaces are the
    ASCII ones. *)
Module Strptime.

Definition parser (A : Type) : Type := string -> list (A * string).

Definition ret {A} (a : A) : parser A := fun s => [(a, s)].

Definition bind {A B} (p : parser A) (f : A -> parser B) : parser B :=
  fun s => flat_map (fun '(a, rest) => f a rest) (p s).

(** Ordered alternation [p1|p2|...]. *)
Definition alt {A} (ps : list (parser A)) : parser A :=
  fun s => flat_map (fun p => p s) ps.

Definition code (c : ascii) : Z := Z.of_N (N_of_ascii c).

(** One character of the class [[lo-hi]], as a digit value. *)
Definition range (lo hi : ascii) : parser Z :=
  fun s =>
    match s with
    | String c rest =>
        if (code lo <=? code c) && (code c <=? code hi)
        then [(code c - 48, rest)] else []
    | EmptyString => []
    end.

Definition digit : parser Z := range "0" "9".

(** A literal character. *)
Definition lit (c : ascii) : parser Z :=
  fun s =>
    match s with
    | String c' rest => if Ascii.eqb c c' then [(0, rest)] else []
    | EmptyString => []
    end.

(** [\s]: tab, newline, vertical tab, form feed, carriage return, the
    four separators 0x1c-0x1f and the space. *)
Definition is_space (c : ascii) : bool :=
  ((9 <=? code c) && (code c <=? 13))
  || ((28 <=? code c) && (code c <=? 31))
  || (code c =? 32).

(** [\s*], greedy: the longest run first. *)
Fixpoint spaces (s : string) : list (Z * string) :=
  match s with
  | String c rest => (if is_space c then spaces rest else []) ++ [(0, s)]
  | EmptyString => [(0, s)]
  end.

(** [\s+] *)
Definition spaces1 : parser Z :=
  fun s =>
    match s with
    | String c rest => if is_space c then spaces rest else []
    | EmptyString => []
    end.

(** Two characters read as a two-digit number. *)
Definition two (p q : parser Z) : parser Z :=
  bind p (fun a => bind q (fun b => ret (10 * a + b))).

Definition group_Y : parser Z :=
  bind digit (fun a => bind digit (fun b => bind digit (fun c =>
  bind digit (fun d => ret (1000 * a + 100 * b + 10 * c + d))))).

Definition group_m : parser Z :=
  alt [two (range "1" "1") (range "0" "2");
       two (range "0" "0") (range "1" "9");
       range "1" "9"].

Definition group_d : parser Z :=
  alt [two (range "3" "3") (range "0" "1");
       two (range "1" "2") digit;
       two (range "0" "0") (range "1" "9");
       range "1" "9";
       bind (lit " ") (fun _ => range "1" "9")].

Definition group_H : parser Z :=
  alt [two (range "2" "2") (range "0" "3");
       two (range "0" "1") digit;
       digit].

Definition group_M : parser Z :=
  alt [two (range "0" "5") digit; digit].

(** The whole format: the five groups in order. *)
Definition format_regex : parser (Z * Z * Z * Z * Z) :=
  bind group_Y (fun y => bind (lit "-") (fun _ =>
  bind group_m (fun m => bind (lit "-") (fun _ =>
  bind group_d (fun d => bind spaces1 (fun _ =>
  bind group_H (fun hh => bind (lit ":") (fun _ =>
  bind group_M (fun mm => ret (y, m, d, hh, mm)))))))))).

(** [datetime.strptime(data_string, "%Y-%m-%d %H:%M")]. *)
Definition strptime (data_string : string) : result Datetime.datetime :=
  match format_regex data_string with
  | [] => Raise ValueError                       (* does not match format *)
  | ((y, m, d, hh, mm), rest) :: _ =>
      match rest with
      | EmptyString => Datetime.new_datetime y m d hh mm 0 0
      | String _ _ => Raise ValueError           (* unconverted data remains *)
      end
  end.

End Strptime.

(* ===================================================================== *)
(** * The persistence store                                               *)
(* ===================================================================== *)

Module Store.

(** Modelled from the spec: [schema.sql] is not among the sources.  The
    spec gives two tables, meetings (id, event_id, creator_id,
    creator_username, title, description, start_time, end_time,
    created_at, calendar_link) and registrations (id, meeting_id,
    user_id, username, registered_at), with a uniqueness constraint on
    (meeting_id, user_id) in registrations; ids are assigned by the store
    in sequence.  The column order is that of the comments in [main.py]
    ([meeting[1]] is the event id, [meeting[2]] the creator id).  The
    timestamps are stored as the texts the code binds:
    [datetime.isoformat()] for start and end. *)
Record meeting_row : Type := mk_meeting {
  m_id : Z;
  m_event_id : string;
  m_creator_id : Z;
  m_creator_username : string;
  m_title : string;
  m_description : string;
  m_start_time : string;
  m_end_time : string;
  m_created_at : string;
  m_calendar_link : option string
}.

Record registration_row : Type := mk_registration {
  r_id : Z;
  r_meeting_id : Z;
  r_user_id : Z;
  r_username : string;
  r_registered_at : string
}.

(** Rows are kept in insertion order. *)
Record database : Type := mk_database {
  meetings : list meeting_row;
  registrations : list registration_row
}.

(** Modelled from the spec: the declaration of the id columns is in
    [schema.sql]; ids are "locally assigned, sequential, owned by the
    store".  A new row gets one more than the largest id in use. *)
Definition next_rowid (ids : list Z) : Z := fold_right Z.max 0 ids + 1.

(** [ORDER BY key ASC] on a text column: byte-wise comparison, rows with
    equal keys stay in insertion order. *)
Fixpoint insert_by {A} (key : A -> string) (x : A) (l : list A) : list A :=
  match l with
  | [] => [x]
  | y :: l' =>
      if String.leb (key x) (key y) then x :: y :: l'
      else y :: insert_by key x l'
  end.

Definition order_by {A} (key : A -> string) (l : list A) : list A :=
  fold_right (insert_by key) [] l.

(** [INSERT INTO meetings (event_id, creator_id, creator_username, title,
    description, start_time, end_time, calendar_link) VALUES (...)];
    [created_at] takes the store's current timestamp. *)
Definition insert_meeting (store_now : string)
    (event_id : string) (creator_id : Z) (creator_username : string)
    (title description start_time end_time : string)
    (calendar_link : option string) (d : database) : result database :=
  let row :=
    mk_meeting (next_rowid (map m_id (meetings d))) event_id creator_id
               creator_username title description start_time end_time
               store_now calendar_link in
  Ok (mk_database (meetings d ++ [row]) (registrations d)).

(** A row with this (meeting_id, user_id) exists. *)
Definition is_registered (d : database) (meeting_id user_id : Z) : bool :=
  existsb (fun r => (r_meeting_id r =? meeting_id) && (r_user_id r =? user_id))
          (registrations d).

(** [INSERT INTO registrations (meeting_id, user_id, username) VALUES
    (?, ?, ?)]: the uniqueness constraint on (meeting_id, user_id) raises
    [IntegrityError].  No connection of the program turns foreign-key
    enforcement on, so the meeting id is not looked up. *)
Definition insert_registration (store_now : string)
    (meeting_id user_id : Z) (username : string) (d : database)
  : result database :=
  if is_registered d meeting_id user_id
  then Raise IntegrityError
  else
    let row :=
      mk_registration (next_rowid (map r_id (registrations d)))
                      meeting_id user_id username store_now in
    Ok (mk_database (meetings d) (registrations d ++ [row])).

(** [DELETE FROM registrations WHERE meeting_id = ?] *)
Definition delete_registrations (meeting_id : Z) (d : database) : database :=
  mk_database (meetings d)
    (filter (fun r => negb (r_meeting_id r =? meeting_id)) (registrations d)).

(** [DELETE FROM meetings WHERE id = ?] *)
Definition delete_meeting_row (meeting_id : Z) (d : database) : database :=
  mk_database (filter (fun m => negb (m_id m =? meeting_id)) (meetings d))
              (registrations d).

End Store.
Import Store.

(* ===================================================================== *)
(** * The calendar gateway and the bot                                    *)
(* ===================================================================== *)

Definition newline : string := String (ascii_of_N 10) EmptyString.

(** The event body sent to the calendar; both times carry
    [timeZone: UTC]. *)
Record calendar_event : Type := mk_calendar_event {
  summary : string;
  ev_description : string;
  start_dateTime : string;
  end_dateTime : string
}.

(** The dictionary the calendar answers with: the keys [id] and
    [htmlLink] may be missing. *)
Record created_event : Type := mk_created_event {
  ce_id : option string;
  ce_htmlLink : option string
}.

(** [self.calendar_service]: [events().insert(calendarId, body).execute()]
    and [events().delete(calendarId, eventId).execute()], each returning
    or raising. *)
Record CalendarService : Type := mk_service {
  events_insert : string -> calendar_event -> result created_event;
  events_delete : string -> string -> result unit
}.

(** The module constants [GOOGLE_CALENDAR_ON] and [CALENDAR_ID] and the
    attribute [calendar_service] ([None] when the service is not set
    up).  [main.py] sets [GOOGLE_CALENDAR_ON = True] and keeps the
    environment toggle in a comment; it is a field here so that both
    settings are covered. *)
Record GirlTalkBot : Type := mk_bot {
  GOOGLE_CALENDAR_ON : bool;
  CALENDAR_ID : string;
  calendar_service : option CalendarService
}.

(** What one call reads from its surroundings. *)
Record env : Type := mk_env {
  clock_now : Datetime.datetime;  (* datetime.now() *)
  clock_timestamp : string;       (* the text of datetime.now().timestamp() *)
  store_timestamp : string;       (* the store's CURRENT_TIMESTAMP *)
  store_fault : option exn        (* raised by the write transaction, if any *)
}.

(** Requests made to the calendar, oldest first. *)
Inductive gateway_call : Type :=
| InsertCall (calendarId : string) (body : calendar_event)
| DeleteCall (calendarId : string) (eventId : string).

(** [context.user_data] of the user at hand: the four keys the program
    uses, each absent ([None]) or holding the value the program stores
    under it. *)
Record user_data : Type := mk_user_data {
  creating_meeting : option bool;
  meeting_step : option string;
  meeting_title : option string;
  meeting_description : option string
}.

(** The messages sent with [reply_text], by kind. *)
Inductive reply : Type :=
| AskTitle
| TitleAccepted (title : string)
| DescriptionAccepted (description : string)
| FutureDateRequired
| InvalidDateFormat
| MeetingCreated (title description : string)
                 (start_time : Datetime.datetime)
                 (calendar_link : option string)
| MeetingCreationFailed.

(** The incoming update: the sender and the text of the message. *)
Record Update : Type := mk_update {
  effective_user_id : Z;
  effective_user_username : option string;
  message_text : string
}.

(** Everything a handler can change. *)
Record state : Type := mk_state {
  db : database;
  calls : list gateway_call;
  context_user_data : user_data;
  replies : list reply
}.

(** ** Computations that change the state and may raise *)

Definition M (A : Type) : Type := state -> result A * state.

Definition ret {A} (a : A) : M A := fun st => (Ok a, st).

Definition raise {A} (e : exn) : M A := fun st => (Raise e, st).

Definition bind {A B} (m : M A) (f : A -> M B) : M B :=
  fun st =>
    match m st with
    | (Ok a, st') => f a st'
    | (Raise e, st') => (Raise e, st')
    end.

Notation "x <- m ;; k" := (bind m (fun x => k))
  (at level 61, m at next level, right associativity).
Notation "m ;; k" := (bind m (fun _ => k))
  (at level 61, right associativity).

(** [try: body except Exception as e: handler e] *)
Definition try_except {A} (body : M A) (handler : exn -> M A) : M A :=
  fun st =>
    match body st with
    | (Ok a, st') => (Ok a, st')
    | (Raise e, st') => handler e st'
    end.

Definition lift {A} (r : result A) : M A := fun st => (r, st).

Definition gets {A} (f : state -> A) : M A := fun st => (Ok (f st), st).

Definition modify (f : state -> state) : M unit := fun st => (Ok tt, f st).

Definition set_db (d : database) (st : state) : state :=
  mk_state d (calls st) (context_user_data st) (replies st).

Definition add_call (c : gateway_call) (st : state) : state :=
  mk_state (db st) (calls st ++ [c]) (context_user_data st) (replies st).

Definition set_user_data (u : user_data) (st : state) : state :=
  mk_state (db st) (calls st) u (replies st).

Definition add_reply (r : reply) (st : state) : state :=
  mk_state (db st) (calls st) (context_user_data st) (replies st ++ [r]).

(** [await update.message.reply_text(...)] *)
Definition reply_text (r : reply) : M unit := modify (add_reply r).

(** One writing sqlite3 transaction, from [connect] to [commit]: it takes
    effect as a whole or, when a statement or the store raises, not at
    all (what is not committed is rolled back with the connection). *)
Definition transaction (e : env) (stmts : database -> result database)
  : M unit :=
  fun st =>
    match store_fault e with
    | Some err => (Raise err, st)
    | None =>
        match stmts (db st) with
        | Ok d => (Ok tt, set_db d st)
        | Raise err => (Raise err, st)
        end
    end.

(** A request to the calendar: it is recorded, and its answer is the
    service's. *)
Definition request {A} (c : gateway_call) (answer : result A) : M A :=
  fun st => (answer, add_call c st).

(** ** Python truth values *)

Definition truthy_str (o : option string) : bool :=
  match o with
  | Some s => negb (String.eqb s EmptyString)
  | None => false
  end.

Definition truthy_bool (o : option bool) : bool :=
  match o with Some b => b | None => false end.

(** [x or default] *)
Definition str_or (o : option string) (default : string) : string :=
  match o with
  | Some s => if String.eqb s EmptyString then default else s
  | None => default
  end.

(** [self.calendar_service] under [GOOGLE_CALENDAR_ON and ...] *)
Definition enabled_service (bot : GirlTalkBot) : option CalendarService :=
  if GOOGLE_CALENDAR_ON bot then calendar_service bot else None.

(* ===================================================================== *)
(** * The queries                                                         *)
(* ===================================================================== *)

(** The read-only queries have no handler of their own in [main.py]; they
    are the answers of an available store. *)

(** [get_upcoming_meetings]: [SELECT * FROM meetings WHERE start_time > ?
    ORDER BY start_time ASC] with [datetime.now().isoformat()]; the
    column is text and so is the bound value, so both the filter and the
    order compare byte strings. *)
Definition get_upcoming_meetings (e : env) (d : database) : list meeting_row :=
  let now := Datetime.isoformat (clock_now e) in
  order_by m_start_time
    (filter (fun m => String.ltb now (m_start_time m)) (meetings d)).

(** [get_user_meetings]: [WHERE creator_id = ? ORDER BY start_time ASC] *)
Definition get_user_meetings (d : database) (user_id : Z) : list meeting_row :=
  order_by m_start_time
    (filter (fun m => m_creator_id m =? user_id) (meetings d)).

(** [get_meeting_by_id]: [SELECT * FROM meetings WHERE id = ?], first row
    or [None]. *)
Definition get_meeting_by_id (d : database) (meeting_id : Z)
  : option meeting_row :=
  find (fun m => m_id m =? meeting_id) (meetings d).

(** [get_registration_count]: [SELECT COUNT( * ) FROM registrations WHERE
    meeting_id = ?] *)
Definition get_registration_count (d : database) (meeting_id : Z) : Z :=
  Z.of_nat
    (List.length
       (filter (fun r => r_meeting_id r =? meeting_id) (registrations d))).

(** [get_meeting_registrations]: [WHERE meeting_id = ? ORDER BY
    registered_at ASC] *)
Definition get_meeting_registrations (d : database) (meeting_id : Z)
  : list registration_row :=
  order_by r_registered_at
    (filter (fun r => r_meeting_id r =? meeting_id) (registrations d)).

(* ===================================================================== *)
(** * The operations of [GirlTalkBot]                                     *)
(* ===================================================================== *)

Definition LOCAL_PREFIX : string := "local_event_".

(** The [event] dictionary of [create_calendar_event]. *)
Definition calendar_body (title description : string)
    (start_time end_time : Datetime.datetime) (creator_username : string)
  : calendar_event :=
  mk_calendar_event title
    (description +:+ newline +:+ newline
     +:+ "Created by: @" +:+ creator_username)
    (Datetime.isoformat start_time)
    (Datetime.isoformat end_time).

(** [create_calendar_event] *)
Definition create_calendar_event (bot : GirlTalkBot) (e : env)
    (title description : string) (start_time : Datetime.datetime)
    (creator_id : Z) (creator_username : string)
  : M (bool * option string) :=
  try_except
    (end_time <- lift (Datetime.add start_time (Datetime.hours 1)) ;;
     remote <-
       match enabled_service bot with
       | Some service =>
           try_except
             (let event :=
                calendar_body title description start_time end_time
                              creator_username in
              created_event <-
                request (InsertCall (CALENDAR_ID bot) event)
                        (events_insert service (CALENDAR_ID bot) event) ;;
              match ce_id created_event with
              | Some event_id => ret (Some event_id, ce_htmlLink created_event)
              | None => raise KeyError
              end)
             (fun _ => ret (None, None))
       | None => ret (None, None)
       end ;;
     let '(remote_id, calendar_link) := remote in
     let event_id :=
       if negb (truthy_str remote_id)
       then LOCAL_PREFIX +:+ clock_timestamp e
       else str_or remote_id EmptyString  (* the remote id, not empty *) in
     transaction e
       (insert_meeting (store_timestamp e) event_id creator_id
          creator_username title description
          (Datetime.isoformat start_time) (Datetime.isoformat end_time)
          calendar_link) ;;
     ret (true, calendar_link))
    (fun _ => ret (false, None)).

(** [register_user_for_meeting]: both handlers return [False]; they
    differ in the level of the log record only. *)
Definition register_user_for_meeting (e : env)
    (meeting_id user_id : Z) (username : string) : M bool :=
  try_except
    (transaction e
       (insert_registration (store_timestamp e) meeting_id user_id username) ;;
     ret true)
    (fun err =>
       match err with
       | IntegrityError => ret false     (* logger.debug: already registered *)
       | _ => ret false                  (* logger.error *)
       end).

(** [delete_meeting] *)
Definition delete_meeting (bot : GirlTalkBot) (e : env)
    (meeting_id creator_id : Z) : M bool :=
  try_except
    (meeting <- gets (fun st => get_meeting_by_id (db st) meeting_id) ;;
     match meeting with
     | None => ret false
     | Some meeting =>
         if negb (m_creator_id meeting =? creator_id) then ret false
         else
           let event_id := m_event_id meeting in
           match enabled_service bot with
           | Some service =>
               if negb (String.prefix LOCAL_PREFIX event_id)
               then
                 try_except
                   (request (DeleteCall (CALENDAR_ID bot) event_id)
                            (events_delete service (CALENDAR_ID bot) event_id))
                   (fun _ => ret tt)
               else ret tt
           | None => ret tt
           end ;;
           transaction e
             (fun d =>
                Ok (delete_meeting_row meeting_id
                      (delete_registrations meeting_id d))) ;;
           ret true
     end)
    (fun _ => ret false).

(* ===================================================================== *)
(** * The creation dialogue                                               *)
(* ===================================================================== *)

(** [context.user_data[key] = value], [.pop(key, None)] and [[key]]. *)
Definition update_user_data (f : user_data -> user_data) : M unit :=
  modify (fun st => set_user_data (f (context_user_data st)) st).

Definition getitem (field : user_data -> option string) : M string :=
  fun st =>
    match field (context_user_data st) with
    | Some v => (Ok v, st)
    | None => (Raise KeyError, st)
    end.

Definition set_creating_meeting (b : bool) (u : user_data) : user_data :=
  mk_user_data (Some b) (meeting_step u) (meeting_title u)
               (meeting_description u).
Definition set_meeting_step (s : option string) (u : user_data) : user_data :=
  mk_user_data (creating_meeting u) s (meeting_title u)
               (meeting_description u).
Definition set_meeting_title (s : option string) (u : user_data) : user_data :=
  mk_user_data (creating_meeting u) (meeting_step u) s
               (meeting_description u).
Definition set_meeting_description (s : option string) (u : user_data)
  : user_data :=
  mk_user_data (creating_meeting u) (meeting_step u) (meeting_title u) s.

(** [step == name] for the value of [user_data.get('meeting_step')]. *)
Definition step_is (step : option string) (name : string) : bool :=
  match step with Some s => String.eqb s name | None => false end.

(** [create_meeting_command] *)
Definition create_meeting_command (update : Update) : M unit :=
  reply_text AskTitle ;;
  update_user_data (set_creating_meeting true) ;;
  update_user_data (set_meeting_step (Some "title")).

(** [handle_meeting_creation] *)
Definition handle_meeting_creation (bot : GirlTalkBot) (e : env)
    (update : Update) : M unit :=
  creating <- gets (fun st => creating_meeting (context_user_data st)) ;;
  if negb (truthy_bool creating) then ret tt
  else
    step <- gets (fun st => meeting_step (context_user_data st)) ;;
    if step_is step "title" then
      let title := message_text update in
      update_user_data (set_meeting_title (Some title)) ;;
      update_user_data (set_meeting_step (Some "description")) ;;
      reply_text (TitleAccepted title)
    else if step_is step "description" then
      let description := message_text update in
      update_user_data (set_meeting_description (Some description)) ;;
      update_user_data (set_meeting_step (Some "datetime")) ;;
      reply_text (DescriptionAccepted description)
    else if step_is step "datetime" then
      let datetime_input := message_text update in
      try_except
        (meeting_datetime <- lift (Strptime.strptime datetime_input) ;;
         if Datetime.leb meeting_datetime (clock_now e)
         then reply_text FutureDateRequired
         else
           title <- getitem meeting_title ;;
           description <- getitem meeting_description ;;
           created <-
             create_calendar_event bot e title description meeting_datetime
               (effective_user_id update)
               (str_or (effective_user_username update) "Unknown") ;;
           let '(success, calendar_link) := created in
           (if success
            then
              title <- getitem meeting_title ;;
              description <- getitem meeting_description ;;
              reply_text
                (MeetingCreated title description meeting_datetime
                   (if truthy_str calendar_link then calendar_link else None))
            else reply_text MeetingCreationFailed) ;;
           update_user_data (set_creating_meeting false) ;;
           update_user_data (set_meeting_step None) ;;
           update_user_data (set_meeting_title None) ;;
           update_user_data (set_meeting_description None))
        (fun err =>
           match err with
           | ValueError => reply_text InvalidDateFormat
           | _ => raise err
           end)
    else ret tt.

(* ===================================================================== *)
(** * Vocabulary of the statements                                        *)
(* ===================================================================== *)

(** What the attempt at the calendar leaves in [event_id] and
    [calendar_link]: the answer of the service when it is enabled, set up
    and answers with an [id]; nothing otherwise. *)
Definition remote_attempt (bot : GirlTalkBot) (event : calendar_event)
  : option string * option string :=
  match enabled_service bot with
  | Some service =>
      match events_insert service (CALENDAR_ID bot) event with
      | Ok created =>
          match ce_id created with
          | Some event_id => (Some event_id, ce_htmlLink created)
          | None => (None, None)
          end
      | Raise _ => (None, None)
      end
  | None => (None, None)
  end.

(** The calendar is switched off, not set up, or raises on the create
    call for this event. *)
Definition gateway_fails (bot : GirlTalkBot) (event : calendar_event) : Prop :=
  GOOGLE_CALENDAR_ON bot = false
  \/ calendar_service bot = None
  \/ exists service err,
       calendar_service bot = Some service
       /\ events_insert service (CALENDAR_ID bot) event = Raise err.

(** The state as the calendar attempt leaves it. *)
Definition after_attempt (bot : GirlTalkBot) (event : calendar_event)
    (st : state) : state :=
  match enabled_service bot with
  | Some _ => add_call (InsertCall (CALENDAR_ID bot) event) st
  | None => st
  end.

(** The state as the attempt to delete the remote event leaves it: the
    calendar is asked only when it is enabled and set up and the event
    id does not carry the local prefix. *)
Definition after_remote_delete (bot : GirlTalkBot) (event_id : string)
    (st : state) : state :=
  match enabled_service bot with
  | Some _ =>
      if negb (String.prefix LOCAL_PREFIX event_id)
      then add_call (DeleteCall (CALENDAR_ID bot) event_id) st
      else st
  | None => st
  end.

(** The event id stored with a meeting. *)
Definition stored_event_id (e : env) (remote_id : option string) : string :=
  if negb (truthy_str remote_id)
  then LOCAL_PREFIX +:+ clock_timestamp e
  else str_or remote_id EmptyString.

(** The id the store gives to the next meeting. *)
Definition new_meeting_id (d : database) : Z :=
  next_rowid (map m_id (meetings d)).

(** The row that [create_calendar_event] writes into the store [d]. *)
Definition written_meeting (bot : GirlTalkBot) (e : env)
    (title description : string) (start_time end_time : Datetime.datetime)
    (creator_id : Z) (creator_username : string) (d : database)
  : meeting_row :=
  let event :=
    calendar_body title description start_time end_time creator_username in
  mk_meeting (new_meeting_id d)
             (stored_event_id e (fst (remote_attempt bot event)))
             creator_id creator_username title description
             (Datetime.isoformat start_time) (Datetime.isoformat end_time)
             (store_timestamp e) (snd (remote_attempt bot event)).

(** Rows ordered by a text column. *)
Definition sorted_by {A} (key : A -> string) (l : list A) : Prop :=
  StronglySorted (fun a b => String.leb (key a) (key b) = true) l.

(** The draft of the dialogue and the cleared conversation state. *)
Definition draft (step title description : option string) : user_data :=
  mk_user_data (Some true) step title description.

Definition cleared : user_data := mk_user_data (Some false) None None None.

(** ** Sample data *)

Definition no_calendar : GirlTalkBot := mk_bot false "primary" None.

Definition broken_service : CalendarService :=
  mk_service (fun _ _ => Raise HttpError) (fun _ _ => Raise HttpError).

Definition working_service : CalendarService :=
  mk_service
    (fun _ _ => Ok (mk_created_event (Some "evt42")
                                     (Some "https://calendar.example/evt42")))
    (fun _ _ => Ok tt).

Definition broken_calendar : GirlTalkBot :=
  mk_bot true "primary" (Some broken_service).

Definition working_calendar : GirlTalkBot :=
  mk_bot true "primary" (Some working_service).

Definition noon_2026 : Datetime.datetime :=
  Datetime.mk_datetime 2026 11 4 12 0 0 0.

Definition calm : env :=
  mk_env noon_2026 "1793793600.25" "2026-11-04 12:00:00" None.

Definition calm_later : env :=
  mk_env noon_2026 "1793793601.5" "2026-11-04 12:00:01" None.

Definition store_down : env :=
  mk_env noon_2026 "1793793600.25" "2026-11-04 12:00:00" (Some OperationalError).

Definition no_user_data : user_data := mk_user_data None None None None.

Definition empty_database : database := mk_database [] [].

Definition empty_state : state := mk_state empty_database [] no_user_data [].

Definition in_database (d : database) : state := mk_state d [] no_user_data [].

Definition book_club : meeting_row :=
  mk_meeting 1 "local_event_1793793600.25" 7 "ann" "Book Club"
             "Discuss chapter 5" "2030-01-01T10:00:00" "2030-01-01T11:00:00"
             "2026-11-04 12:00:00" None.

Definition mirrored_meeting : meeting_row :=
  mk_meeting 2 "evt42" 7 "ann" "Walk" "Park" "2030-01-02T10:00:00"
             "2030-01-02T11:00:00" "2026-11-04 12:00:00"
             (Some "https://calendar.example/evt42").

Definition past_meeting : meeting_row :=
  mk_meeting 3 "local_event_1.5" 8 "bea" "Tea" "Was nice"
             "2020-05-05T17:00:00" "2020-05-05T18:00:00"
             "2020-05-01 09:00:00" None.

Definition ann_registered : registration_row :=
  mk_registration 1 1 7 "ann" "2026-11-04 12:00:00".

Definition bea_registered : registration_row :=
  mk_registration 2 1 8 "bea" "2026-11-04 12:00:05".

Definition sample_database : database :=
  mk_database [book_club; mirrored_meeting; past_meeting]
              [ann_registered; bea_registered].

Definition text_from (user_id : Z) (text : string) : Update :=
  mk_update user_id (Some "ann") text.

Definition year_end_9999 : Datetime.datetime :=
  Datetime.mk_datetime 9999 12 31 23 30 0 0.

Definition new_year_2030 : Datetime.datetime :=
  Datetime.mk_datetime 2030 1 1 10 0 0 0.

(* ===================================================================== *)
(** * Setting up the calendar                                             *)
(* ===================================================================== *)

(** What [setup_google_calendar] meets: whether
    [service-account-key.json] exists, and what
    [Credentials.from_service_account_file] and [build] return or
    raise. *)
Record calendar_setup : Type := mk_calendar_setup {
  key_file_exists : bool;
  from_service_account_file : result unit;
  build : result CalendarService
}.

(** [__init__] sets [calendar_service = None] and calls
    [setup_google_calendar], which leaves it [None] unless the switch is
    on, the key file exists and both library calls return; the method
    itself never raises.  The result is the bot with the two module
    constants. *)
Definition setup_google_calendar (on : bool) (calendar_id : string)
    (found : calendar_setup) : GirlTalkBot :=
  mk_bot on calendar_id
    (if negb on then None
     else if negb (key_file_exists found) then None
     else
       match from_service_account_file found with
       | Ok _ =>
           match build found with
           | Ok service => Some service
           | Raise _ => None
           end
       | Raise _ => None
       end).

(* ===================================================================== *)
(** * Python's [str(int)], [int(str)] and [str.split]                     *)
(* ===================================================================== *)

(** Texts are byte strings, as for [strptime]: an ASCII text is itself,
    and the digits are the ASCII ones. *)
Module Python.

(** [s.isascii()] *)
Fixpoint isascii (s : string) : bool :=
  match s with
  | String c rest => (Strptime.code c <? 128) && isascii rest
  | EmptyString => true
  end.


(** The decimal digits of [n >= 0], most significant first; [fuel]
    bounds their number. *)
Fixpoint str_digits (fuel : nat) (n : Z) : string :=
  match fuel with
  | O => EmptyString
  | S fuel' =>
      (if n <? 10 then EmptyString else str_digits fuel' (n / 10))
      +:+ String (Datetime.digit_char (n mod 10)) EmptyString
  end.

(** [str(n)], which is also [f"{n}"]: a minus sign for a negative
    number, then the digits without leading zeros.  A number has no more
    decimal digits than binary ones.  (CPython refuses to print more
    than 4300 digits; row ids are 64-bit integers.) *)
Definition str (n : Z) : string :=
  (if n <? 0 then "-" else EmptyString)
  +:+ str_digits (S (Z.to_nat (Z.log2 (Z.abs n)))) (Z.abs n).

Definition is_digit (c : ascii) : bool :=
  (48 <=? Strptime.code c) && (Strptime.code c <=? 57).

(** The digit loop of [PyLong_FromString] in base 10: digits, with
    single underscores between them; it stops at the first other
    character and returns the value, the number of digits and the rest.
    Two underscores in a row or an underscore at the end are errors. *)
Fixpoint long_from_string_base (s : string) (prev_underscore : bool)
    (acc ndigits : Z) : result (Z * Z * string) :=
  match s with
  | String c rest =>
      if is_digit c
      then long_from_string_base rest false
             (acc * 10 + (Strptime.code c - 48)) (ndigits + 1)
      else if Ascii.eqb c "_"
      then
        if prev_underscore then Raise ValueError
        else long_from_string_base rest true acc ndigits
      else if prev_underscore then Raise ValueError
      else Ok (acc, ndigits, s)
  | EmptyString =>
      if prev_underscore then Raise ValueError else Ok (acc, ndigits, s)
  end.

(** [Py_ISSPACE], the whitespace that [PyLong_FromString] skips in an
    ASCII text: tab, newline, vertical tab, form feed, carriage return
    and the space (not the separators 0x1c-0x1f, which [str.isspace]
    and the regular expressions count in). *)
Definition is_space (c : ascii) : bool :=
  ((9 <=? Strptime.code c) && (Strptime.code c <=? 13))
  || (Strptime.code c =? 32).

(** Leading whitespace removed. *)
Fixpoint lstrip (s : string) : string :=
  match s with
  | String c rest => if is_space c then lstrip rest else s
  | EmptyString => s
  end.

Definition _PY_LONG_DEFAULT_MAX_STR_DIGITS : Z := 4300.

(** [int(s)] of a text: whitespace around is skipped, one sign is
    allowed, the digits may not start with an underscore, there must be
    at least one digit and nothing but whitespace after them; anything
    else is a [ValueError], and so is a number of more than 4300
    digits. *)
Definition int (s : string) : result Z :=
  let s := lstrip s in
  let '(sign, s) :=
    match s with
    | String c rest =>
        if Ascii.eqb c "+" then (1, rest)
        else if Ascii.eqb c "-" then (-1, rest)
        else (1, s)
    | EmptyString => (1, s)
    end in
  match s with
  | String c _ =>
      if Ascii.eqb c "_" then Raise ValueError
      else
        match long_from_string_base s false 0 0 with
        | Ok (value, ndigits, rest) =>
            if ndigits =? 0 then Raise ValueError
            else if _PY_LONG_DEFAULT_MAX_STR_DIGITS <? ndigits
            then Raise ValueError
            else
              match lstrip rest with
              | EmptyString => Ok (sign * value)
              | String _ _ => Raise ValueError
              end
        | Raise err => Raise err
        end
  | EmptyString => Raise ValueError
  end.

(** [s.split(sep)] for a separator of one character: the pieces between
    the separators, never an empty list. *)
Fixpoint split (sep : ascii) (s : string) : list string :=
  match s with
  | String c rest =>
      if Ascii.eqb c sep then EmptyString :: split sep rest
      else
        match split sep rest with
        | piece :: pieces => String c piece :: pieces
        | [] => [String c EmptyString]
        end
  | EmptyString => [EmptyString]
  end.

(** [l[i]]: [IndexError] (here among the other exceptions) when the
    index is out of range. *)
Definition getitem {A} (l : list A) (i : nat) : result A :=
  match nth_error l i with
  | Some x => Ok x
  | None => Raise OtherError
  end.

End Python.

(* ===================================================================== *)
(** * The inline buttons                                                  *)
(* ===================================================================== *)

(** [callback_data] of the buttons under a meeting:
    [f"register_{meeting_id}"] and [f"stats_{meeting_id}"] in
    [upcoming_meetings_command], [f"stats_{meeting[0]}"] and
    [f"delete_{meeting[0]}"] in [my_meetings_command],
    [f"registered_{meeting_id}"] in [handle_callback_query]. *)
Definition register_data (meeting_id : Z) : string :=
  "register_" +:+ Python.str meeting_id.
Definition stats_data (meeting_id : Z) : string :=
  "stats_" +:+ Python.str meeting_id.
Definition delete_data (meeting_id : Z) : string :=
  "delete_" +:+ Python.str meeting_id.
Definition registered_data (meeting_id : Z) : string :=
  "registered_" +:+ Python.str meeting_id.

(** [int(data.split("_")[1])] *)
Definition callback_meeting_id (data : string) : result Z :=
  match Python.getitem (Python.split "_" data) 1 with
  | Ok piece => Python.int piece
  | Raise err => Raise err
  end.

(** The update of a button press: [callback_query.data] and the user. *)
Record CallbackUpdate : Type := mk_callback {
  query_data : string;
  query_user_id : Z;
  query_user_username : option string
}.

(** What a button press sends back, by kind, oldest first. *)
Inductive query_reply : Type :=
| Answered                               (* query.answer() *)
| RegisteredMarkup (registration_count : Z) (buttons : list string)
                                         (* edit_message_reply_markup *)
| YouAreRegistered (registration_count : Z)
| AlreadyRegistered
| MeetingNotFound
| MeetingStats (stats_text : string)
| MeetingDeleted                         (* edit_message_text *)
| DeleteFailed
| NotYourMeeting.

(** sqlite3 binds a Python [int] as a 64-bit integer: one that does not
    fit raises [OverflowError] when the statement is executed. *)
Definition fits_int64 (n : Z) : bool := (- 2 ^ 63 <=? n) && (n <? 2 ^ 63).

(** A reading query that binds an id, as the handlers of the buttons run
    them, outside any [try]: it raises what the store raises when it
    cannot be read, [OverflowError] when the id does not fit, and gives
    the store's answer otherwise. *)
Definition select {A} (read_fault : option exn) (bound_id : Z) (answer : A)
  : result A :=
  match read_fault with
  | Some err => Raise err
  | None => if fits_int64 bound_id then Ok answer else Raise OverflowError
  end.

Section Callbacks.

(** The text of the statistics, lines 557-580 of [main.py]: a function
    of the meeting row and of its registrations, which raises when
    [datetime.fromisoformat] does on one of the stored times. *)
Variable stats_text : meeting_row -> list registration_row -> result string.

(** [show_meeting_stats] *)
Definition show_meeting_stats (read_fault : option exn) (meeting_id : Z)
    (d : database) : result query_reply :=
  match select read_fault meeting_id (get_meeting_by_id d meeting_id) with
  | Raise err => Raise err
  | Ok None => Ok MeetingNotFound
  | Ok (Some meeting) =>
      match
        select read_fault meeting_id (get_meeting_registrations d meeting_id)
      with
      | Raise err => Raise err
      | Ok registrations =>
          match stats_text meeting registrations with
          | Ok text => Ok (MeetingStats text)
          | Raise err => Raise err
          end
      end
  end.

(** [handle_callback_query]: the outcome, what was sent to the user and
    the state it leaves.  [read_fault] is what the store raises, if
    anything, when the handler reads from it. *)
Definition handle_callback_query (bot : GirlTalkBot) (e : env)
    (read_fault : option exn) (update : CallbackUpdate) (st : state)
  : result unit * list query_reply * state :=
  let data := query_data update in
  let user_id := query_user_id update in
  let username := str_or (query_user_username update) "Unknown" in
  if String.prefix "register_" data then
    match callback_meeting_id data with
    | Raise err => (Raise err, [Answered], st)
    | Ok meeting_id =>
        match register_user_for_meeting e meeting_id user_id username st with
        | (Raise err, st1) => (Raise err, [Answered], st1)
        | (Ok success, st1) =>
            if success then
              match
                select read_fault meeting_id
                  (get_registration_count (db st1) meeting_id)
              with
              | Raise err => (Raise err, [Answered], st1)
              | Ok registration_count =>
                  (Ok tt,
                   [Answered;
                    RegisteredMarkup registration_count
                      [registered_data meeting_id; stats_data meeting_id];
                    YouAreRegistered registration_count],
                   st1)
              end
            else (Ok tt, [Answered; AlreadyRegistered], st1)
        end
    end
  else if String.prefix "stats_" data then
    match callback_meeting_id data with
    | Raise err => (Raise err, [Answered], st)
    | Ok meeting_id =>
        match show_meeting_stats read_fault meeting_id (db st) with
        | Ok sent => (Ok tt, [Answered; sent], st)
        | Raise err => (Raise err, [Answered], st)
        end
    end
  else if String.prefix "delete_" data then
    match callback_meeting_id data with
    | Raise err => (Raise err, [Answered], st)
    | Ok meeting_id =>
        match
          select read_fault meeting_id (get_meeting_by_id (db st) meeting_id)
        with
        | Raise err => (Raise err, [Answered], st)
        | Ok (Some meeting) =>
            if m_creator_id meeting =? user_id then
              match
                delete_meeting bot e meeting_id (m_creator_id meeting) st
              with
              | (Raise err, st1) => (Raise err, [Answered], st1)
              | (Ok success, st1) =>
                  if success then (Ok tt, [Answered; MeetingDeleted], st1)
                  else (Ok tt, [Answered; DeleteFailed], st1)
              end
            else (Ok tt, [Answered; NotYourMeeting], st)
        | Ok None => (Ok tt, [Answered; NotYourMeeting], st)
        end
    end
  else (Ok tt, [Answered], st).

End Callbacks.

(* ===================================================================== *)
(** * Vocabulary of the further statements                                *)
(* ===================================================================== *)

(** The conversation state holds what the next step will read: a title
    from the description step on, and a description as well at the
    datetime step. *)
Definition draft_ok (u : user_data) : bool :=
  match meeting_step u with
  | Some step =>
      (if String.eqb step "description" then
         match meeting_title u with Some _ => true | None => false end
       else true)
      && (if String.eqb step "datetime" then
            match meeting_title u, meeting_description u with
            | Some _, Some _ => true
            | _, _ => false
            end
          else true)
  | None => true
  end.

(** What reaches the two handlers of the dialogue: the command (or its
    keyboard button) and a text message, each with what it reads from its
    surroundings. *)
Inductive dialogue_event : Type :=
| CreateMeeting (update : Update)
| TextMessage (e : env) (update : Update).

Definition handle_event (bot : GirlTalkBot) (ev : dialogue_event) : M unit :=
  match ev with
  | CreateMeeting update => create_meeting_command update
  | TextMessage e update => handle_meeting_creation bot e update
  end.

(** The handlers run one after the other, as long as none raises. *)
Fixpoint run_dialogue (bot : GirlTalkBot) (events : list dialogue_event)
  : M unit :=
  match events with
  | [] => ret tt
  | ev :: events' => handle_event bot ev ;; run_dialogue bot events'
  end.

(** No two meetings share an id, no two registrations share an id, and
    no user is registered twice for a meeting. *)
Definition store_ok (d : database) : Prop :=
  NoDup (map m_id (meetings d))
  /\ NoDup (map r_id (registrations d))
  /\ NoDup (map (fun r => (r_meeting_id r, r_user_id r)) (registrations d)).

(** The rows of a meeting in the registrations table, in insertion
    order. *)
Definition registrations_of (d : database) (meeting_id : Z)
  : list registration_row :=
  filter (fun r => r_meeting_id r =? meeting_id) (registrations d).

(** A text of the form the dialogue asks for, [YYYY-MM-DD HH:MM]. *)
Definition canonical_text (t : Datetime.datetime) : string :=
  Datetime.zfill 4 (Datetime.year t) +:+ "-"
  +:+ Datetime.zfill 2 (Datetime.month t) +:+ "-"
  +:+ Datetime.zfill 2 (Datetime.day t) +:+ " "
  +:+ Datetime.zfill 2 (Datetime.hour t) +:+ ":"
  +:+ Datetime.zfill 2 (Datetime.minute t).


(** The first way in which a parser matches a text: the value and what
    is left of the text. *)
Definition first_match {A} (p : Strptime.parser A) (s : string) (a : A)
    (rest : string) : Prop :=
  exists others, p s = (a, rest) :: others.

(** Case analysis on an integer known to lie in a small range. *)
Ltac small_Z n :=
  destruct n as [|n|n]; try lia;
  repeat (destruct n as [n|n|]; try lia).

(* ===================================================================== *)
(** * The models at work                                                  *)
(* ===================================================================== *)

Example isoformat_2030 :
  Datetime.isoformat (Datetime.mk_datetime 2030 1 1 10 0 0 0)
  = "2030-01-01T10:00:00"%string.
Proof. reflexivity. Qed.

Example isoformat_micro :
  Datetime.isoformat (Datetime.mk_datetime 2026 11 4 9 5 7 1234)
  = "2026-11-04T09:05:07.001234"%string.
Proof. reflexivity. Qed.

Example add_hour_rollover :
  Datetime.add (Datetime.mk_datetime 2028 2 28 23 30 0 0) (Datetime.hours 1)
  = Ok (Datetime.mk_datetime 2028 2 29 0 30 0 0).
Proof. reflexivity. Qed.

Example add_hour_year_end :
  Datetime.add (Datetime.mk_datetime 2029 12 31 23 59 59 999999)
               (Datetime.hours 1)
  = Ok (Datetime.mk_datetime 2030 1 1 0 59 59 999999).
Proof. reflexivity. Qed.

Example add_hour_overflow :
  Datetime.add (Datetime.mk_datetime 9999 12 31 23 30 0 0) (Datetime.hours 1)
  = Raise OverflowError.
Proof. reflexivity. Qed.

Example strptime_ok :
  Strptime.strptime "2030-01-01 10:00"
  = Ok (Datetime.mk_datetime 2030 1 1 10 0 0 0).
Proof. reflexivity. Qed.
Example strptime_bad : Strptime.strptime "not-a-date" = Raise ValueError.
Proof. reflexivity. Qed.
Example strptime_short :
  Strptime.strptime "2030-1-1   7:5" = Ok (Datetime.mk_datetime 2030 1 1 7 5 0 0).
Proof. reflexivity. Qed.
Example strptime_feb30 :
  Strptime.strptime "2030-02-30 10:00" = Raise ValueError.
Proof. reflexivity. Qed.
Example strptime_trailing :
  Strptime.strptime "2030-01-01 10:75" = Raise ValueError.
Proof. reflexivity. Qed.
Example strptime_y0 :
  Strptime.strptime "0000-01-01 10:00" = Raise ValueError.
Proof. reflexivity. Qed.

Example str_zero : Python.str 0 = "0"%string.
Proof. reflexivity. Qed.

Example str_negative : Python.str (-45) = "-45"%string.
Proof. reflexivity. Qed.

Example int_spaces_underscore : Python.int " 1_000 " = Ok 1000.
Proof. reflexivity. Qed.

Example int_leading_zeros : Python.int "-007" = Ok (-7).
Proof. reflexivity. Qed.

Example int_double_underscore : Python.int "1__0" = Raise ValueError.
Proof. reflexivity. Qed.

Example int_trailing_underscore : Python.int "5_" = Raise ValueError.
Proof. reflexivity. Qed.

Example int_sign_only : Python.int "+" = Raise ValueError.
Proof. reflexivity. Qed.

Example int_space_after_sign : Python.int "- 5" = Raise ValueError.
Proof. reflexivity. Qed.

Example int_letters : Python.int "12a" = Raise ValueError.
Proof. reflexivity. Qed.

Example int_tab : Python.int (String (ascii_of_N 9) "5") = Ok 5.
Proof. reflexivity. Qed.

Example int_file_separator :
  Python.int (String (ascii_of_N 28) "5") = Raise ValueError.
Proof. reflexivity. Qed.

Example split_three :
  Python.split "_" "register_12_3" = ["register"; "12"; "3"]%string.
Proof. reflexivity. Qed.

Example split_empty : Python.split "_" "" = [""%string].
Proof. reflexivity. Qed.

Example callback_second_piece : callback_meeting_id "register_12_3" = Ok 12.
Proof. reflexivity. Qed.

(* ===================================================================== *)
(** * Byte-wise order on texts                                            *)
(* ===================================================================== *)

Section StringOrder.

Lemma ascii_compare_refl (c : ascii) : Ascii.compare c c = Eq.
Proof. unfold Ascii.compare. apply N.compare_refl. Qed.

Lemma ascii_compare_lt_trans (a b c : ascii) :
  Ascii.compare a b = Lt -> Ascii.compare b c = Lt -> Ascii.compare a c = Lt.
Proof.
  unfold Ascii.compare. rewrite !N.compare_lt_iff. apply N.lt_trans.
Qed.

Lemma string_compare_refl (s : string) : String.compare s s = Eq.
Proof.
  induction s as [|c s IH]; simpl; [reflexivity|].
  now rewrite ascii_compare_refl.
Qed.

Lemma string_compare_lt_trans (a b c : string) :
  String.compare a b = Lt -> String.compare b c = Lt -> String.compare a c = Lt.
Proof.
  revert b c.
  induction a as [|x a IH]; intros [|y b] [|z c]; simpl; try congruence.
  destruct (Ascii.compare x y) eqn:Hxy; try discriminate;
    destruct (Ascii.compare y z) eqn:Hyz; try discriminate; intros Hab Hbc.
  - apply Ascii.compare_eq_iff in Hxy, Hyz. subst.
    rewrite ascii_compare_refl. eauto.
  - apply Ascii.compare_eq_iff in Hxy. subst. now rewrite Hyz.
  - apply Ascii.compare_eq_iff in Hyz. subst. now rewrite Hxy.
  - now rewrite (ascii_compare_lt_trans x y z).
Qed.

Lemma string_leb_trans (a b c : string) :
  String.leb a b = true -> String.leb b c = true -> String.leb a c = true.
Proof.
  unfold String.leb.
  destruct (String.compare a b) eqn:Hab; try discriminate;
    destruct (String.compare b c) eqn:Hbc; try discriminate; intros _ _.
  - apply String.compare_eq_iff in Hab, Hbc. subst.
    now rewrite string_compare_refl.
  - apply String.compare_eq_iff in Hab. subst. now rewrite Hbc.
  - apply String.compare_eq_iff in Hbc. subst. now rewrite Hab.
  - now rewrite (string_compare_lt_trans a b c).
Qed.

Lemma string_leb_false (a b : string) :
  String.leb a b = false -> String.leb b a = true.
Proof.
  intros H. destruct (String.leb_total a b) as [H'|H']; congruence.
Qed.

Lemma string_length_append (a b : string) :
  String.length (a +:+ b) = (String.length a + String.length b)%nat.
Proof. induction a; simpl; congruence. Qed.

(** Comparing two concatenations whose first parts have the same length
    compares the first parts, then the rest. *)
Lemma compare_append (a a' b b' : string) :
  String.length a = String.length a' ->
  String.compare (a +:+ b) (a' +:+ b')
  = Datetime.lex (String.compare a a') (String.compare b b').
Proof.
  revert a'.
  induction a as [|c a IH]; intros [|c' a']; simpl; try discriminate.
  - reflexivity.
  - intros H. injection H as H.
    destruct (Ascii.compare c c'); auto.
Qed.

Lemma prefix_append (s t : string) : String.prefix s (s +:+ t) = true.
Proof.
  induction s as [|c s IH]; simpl; [now destruct t|].
  destruct (ascii_dec c c); [assumption | contradiction].
Qed.


Lemma compare_cons (c : ascii) (s t : string) :
  String.compare (String c s) (String c t) = String.compare s t.
Proof. simpl. now rewrite ascii_compare_refl. Qed.

End StringOrder.

(* ===================================================================== *)
(** * [isoformat] keeps the order of datetimes                            *)
(* ===================================================================== *)

Section Isoformat.
Import Datetime.

Lemma zfill_length (w : nat) (n : Z) : String.length (zfill w n) = w.
Proof.
  revert n. induction w as [|w IH]; intros n; simpl; [reflexivity|].
  rewrite string_length_append, IH. simpl. lia.
Qed.

Lemma digit_char_compare (x y : Z) :
  0 <= x < 10 -> 0 <= y < 10 ->
  Ascii.compare (digit_char x) (digit_char y) = (x ?= y).
Proof.
  intros Hx Hy. unfold Ascii.compare, digit_char.
  rewrite !N_ascii_embedding by lia.
  rewrite Z2N.inj_compare by lia.
  apply Z.add_compare_mono_l.
Qed.

Lemma compare_div10 (a b : Z) :
  lex (a / 10 ?= b / 10) (a mod 10 ?= b mod 10) = (a ?= b).
Proof.
  pose proof (Z.div_mod a 10 ltac:(lia)).
  pose proof (Z.div_mod b 10 ltac:(lia)).
  pose proof (Z.mod_pos_bound a 10 ltac:(lia)).
  pose proof (Z.mod_pos_bound b 10 ltac:(lia)).
  destruct (Z.compare_spec (a / 10) (b / 10));
    destruct (Z.compare_spec (a mod 10) (b mod 10));
    destruct (Z.compare_spec a b); simpl; try reflexivity; lia.
Qed.

Lemma zfill_compare (w : nat) (a b : Z) :
  0 <= a < 10 ^ Z.of_nat w -> 0 <= b < 10 ^ Z.of_nat w ->
  String.compare (zfill w a) (zfill w b) = (a ?= b).
Proof.
  revert a b. induction w as [|w IH]; intros a b Ha Hb.
  - simpl in *. assert (a = 0) by lia. assert (b = 0) by lia. now subst.
  - rewrite Nat2Z.inj_succ, Z.pow_succ_r in Ha, Hb by lia.
    cbn [zfill].
    rewrite compare_append by now rewrite !zfill_length.
    rewrite IH.
    + simpl String.compare.
      rewrite digit_char_compare by (apply Z.mod_pos_bound; lia).
      rewrite <- (compare_div10 a b).
      now destruct (a mod 10 ?= b mod 10).
    + split; [apply Z.div_pos; lia | apply Z.div_lt_upper_bound; lia].
    + split; [apply Z.div_pos; lia | apply Z.div_lt_upper_bound; lia].
Qed.

Lemma zfill_append_compare (w : nat) (a b : Z) (s t : string) :
  0 <= a < 10 ^ Z.of_nat w -> 0 <= b < 10 ^ Z.of_nat w ->
  String.compare (zfill w a +:+ s) (zfill w b +:+ t)
  = lex (a ?= b) (String.compare s t).
Proof.
  intros Ha Hb.
  rewrite compare_append by now rewrite !zfill_length.
  now rewrite zfill_compare.
Qed.

(** The fields of a datetime the constructor accepts fit their widths. *)
Lemma datetime_ok_bounds (d : datetime) :
  datetime_ok d = true ->
  0 <= year d < 10 ^ 4 /\ 0 <= month d < 10 ^ 2 /\ 0 <= day d < 10 ^ 2
  /\ 0 <= hour d < 10 ^ 2 /\ 0 <= minute d < 10 ^ 2
  /\ 0 <= second d < 10 ^ 2 /\ 0 <= microsecond d < 10 ^ 6.
Proof.
  unfold datetime_ok, MINYEAR, MAXYEAR. rewrite !andb_true_iff, !Z.leb_le.
  intros H.
  assert (Hdim : _days_in_month (year d) (month d) <= 31).
  { unfold _days_in_month, _DAYS_IN_MONTH.
    destruct ((month d =? 2) && _is_leap (year d)); [lia|].
    destruct (month d) as [|p|p]; try lia.
    repeat (match goal with
            | |- context [match ?q with _ => _ end] => destruct q
            end; try lia). }
  repeat split; lia.
Qed.

Lemma fraction_compare (a b : Z) :
  0 <= a < 10 ^ 6 -> 0 <= b < 10 ^ 6 ->
  String.compare (if a =? 0 then EmptyString else "." +:+ zfill 6 a)
                 (if b =? 0 then EmptyString else "." +:+ zfill 6 b)
  = (a ?= b).
Proof.
  intros Ha Hb.
  destruct (Z.eqb_spec a 0) as [->|Hna], (Z.eqb_spec b 0) as [->|Hnb].
  - reflexivity.
  - cbn [String.append String.compare]. symmetry. apply Z.compare_lt_iff. lia.
  - cbn [String.append String.compare]. symmetry. apply Z.compare_gt_iff. lia.
  - cbn [String.append]. rewrite compare_cons.
    now apply (zfill_compare 6).
Qed.

(** The texts the store compares are ordered as the datetimes are. *)
Lemma isoformat_compare (a b : datetime) :
  datetime_ok a = true -> datetime_ok b = true ->
  String.compare (isoformat a) (isoformat b) = cmp a b.
Proof.
  intros Ha Hb.
  apply datetime_ok_bounds in Ha, Hb.
  destruct Ha as (Ha1 & Ha2 & Ha3 & Ha4 & Ha5 & Ha6 & Ha7).
  destruct Hb as (Hb1 & Hb2 & Hb3 & Hb4 & Hb5 & Hb6 & Hb7).
  unfold isoformat, _format_time, cmp.
  rewrite (zfill_append_compare 4) by assumption.
  cbn [String.append]. rewrite compare_cons.
  rewrite (zfill_append_compare 2) by assumption.
  cbn [String.append]. rewrite compare_cons.
  rewrite (zfill_append_compare 2) by assumption.
  cbn [String.append]. rewrite compare_cons.
  rewrite (zfill_append_compare 2) by assumption.
  cbn [String.append]. rewrite compare_cons.
  rewrite (zfill_append_compare 2) by assumption.
  cbn [String.append]. rewrite compare_cons.
  rewrite (zfill_append_compare 2) by assumption.
  now rewrite fraction_compare.
Qed.

Lemma isoformat_ltb (a b : datetime) :
  datetime_ok a = true -> datetime_ok b = true ->
  String.ltb (isoformat a) (isoformat b) = Datetime.ltb a b.
Proof.
  intros Ha Hb. unfold String.ltb, Datetime.ltb.
  now rewrite isoformat_compare.
Qed.

Lemma isoformat_leb (a b : datetime) :
  datetime_ok a = true -> datetime_ok b = true ->
  String.leb (isoformat a) (isoformat b) = Datetime.leb a b.
Proof.
  intros Ha Hb. unfold String.leb, Datetime.leb.
  now rewrite isoformat_compare.
Qed.

Lemma lex_antisym (c1 c2 d1 d2 : comparison) :
  c1 = CompOpp d1 -> c2 = CompOpp d2 ->
  Datetime.lex c1 c2 = CompOpp (Datetime.lex d1 d2).
Proof. intros -> ->. now destruct d1. Qed.

Lemma cmp_antisym (a b : Datetime.datetime) :
  Datetime.cmp a b = CompOpp (Datetime.cmp b a).
Proof.
  unfold Datetime.cmp.
  repeat (apply lex_antisym; [apply Z.compare_antisym|]).
  apply Z.compare_antisym.
Qed.

Lemma ltb_not_leb (a b : Datetime.datetime) :
  Datetime.ltb a b = true -> Datetime.leb b a = false.
Proof.
  unfold Datetime.ltb, Datetime.leb. rewrite (cmp_antisym b a).
  now destruct (Datetime.cmp a b).
Qed.

End Isoformat.

(* ===================================================================== *)
(** * Ordinals and the arithmetic of datetimes                            *)
(* ===================================================================== *)

Section Ordinals.
Import Datetime.

Lemma days_before_year_split (q400 q100 q4 q1 : Z) :
  0 <= q100 <= 3 -> 0 <= q4 <= 24 -> 0 <= q1 <= 3 ->
  _days_before_year (q400 * 400 + 1 + q100 * 100 + q4 * 4 + q1)
  = 146097 * q400 + 36524 * q100 + 1461 * q4 + 365 * q1.
Proof.
  intros H100 H4 H1. unfold _days_before_year. cbv zeta.
  Z.div_mod_to_equations. lia.
Qed.

Lemma is_leap_split (q400 q100 q4 q1 : Z) :
  0 <= q100 <= 3 -> 0 <= q4 <= 24 -> 0 <= q1 <= 3 ->
  _is_leap (q400 * 400 + 1 + q100 * 100 + q4 * 4 + q1)
  = (q1 =? 3) && (negb (q4 =? 24) || (q100 =? 3)).
Proof.
  intros H100 H4 H1. unfold _is_leap.
  repeat match goal with
         | |- context [?a =? ?b] => destruct (Z.eqb_spec a b)
         end; cbn; try reflexivity; exfalso;
    Z.div_mod_to_equations; lia.
Qed.

Lemma days_before_month_prev (m : Z) :
  2 <= m <= 12 ->
  _DAYS_BEFORE_MONTH m - _DAYS_IN_MONTH (m - 1) = _DAYS_BEFORE_MONTH (m - 1).
Proof.
  intros Hm.
  assert (Hcases : m = 2 \/ m = 3 \/ m = 4 \/ m = 5 \/ m = 6 \/ m = 7
                   \/ m = 8 \/ m = 9 \/ m = 10 \/ m = 11 \/ m = 12) by lia.
  repeat (destruct Hcases as [->|Hcases]); try subst m; reflexivity.
Qed.

(** [date.fromordinal] followed by [toordinal] gives the ordinal back. *)
Lemma ymd2ord_ord2ymd (n : Z) :
  1 <= n -> let '(y, m, d) := _ord2ymd n in _ymd2ord y m d = n.
Proof.
  intros Hn. unfold _ord2ymd, _DI400Y, _DI100Y, _DI4Y. cbv zeta.
  set (n0 := n - 1).
  set (q400 := n0 / 146097). set (r400 := n0 mod 146097).
  set (q100 := r400 / 36524). set (r100 := r400 mod 36524).
  set (q4 := r100 / 1461). set (r4 := r100 mod 1461).
  set (q1 := r4 / 365). set (r1 := r4 mod 365).
  assert (H400 : n0 = 146097 * q400 + r400 /\ 0 <= r400 < 146097)
    by (subst q400 r400; Z.div_mod_to_equations; lia).
  assert (H100 : r400 = 36524 * q100 + r100 /\ 0 <= r100 < 36524)
    by (subst q100 r100; Z.div_mod_to_equations; lia).
  assert (H4 : r100 = 1461 * q4 + r4 /\ 0 <= r4 < 1461)
    by (subst q4 r4; Z.div_mod_to_equations; lia).
  assert (H1 : r4 = 365 * q1 + r1 /\ 0 <= r1 < 365)
    by (subst q1 r1; Z.div_mod_to_equations; lia).
  clearbody q400 r400 q100 r100 q4 r4 q1 r1.
  assert (Hq : 0 <= q100 <= 4 /\ 0 <= q4 <= 24 /\ 0 <= q1 <= 4) by lia.
  destruct (Z.eqb_spec q1 4) as [E1|E1]; cbn [orb].
  - (* the last day of a 4-year cycle *)
    unfold _ymd2ord, _days_before_month.
    replace (q400 * 400 + 1 + q100 * 100 + q4 * 4 + q1 - 1)
      with (q400 * 400 + 1 + q100 * 100 + q4 * 4 + 3) by lia.
    rewrite days_before_year_split, is_leap_split by lia.
    change (_DAYS_BEFORE_MONTH 12) with 334. change (2 <? 12) with true.
    rewrite Z.eqb_refl. cbn [andb].
    destruct (Z.eqb_spec q4 24); [lia|]. cbn [negb orb]. lia.
  - destruct (Z.eqb_spec q100 4) as [E100|E100].
    + (* the last day of a 400-year cycle *)
      unfold _ymd2ord, _days_before_month.
      replace (q400 * 400 + 1 + q100 * 100 + q4 * 4 + q1 - 1)
        with (q400 * 400 + 1 + 3 * 100 + 24 * 4 + 3) by lia.
      rewrite days_before_year_split, is_leap_split by lia.
      change (_DAYS_BEFORE_MONTH 12) with 334. change (2 <? 12) with true.
      change ((3 =? 3) && (negb (24 =? 24) || (3 =? 3))) with true.
      cbn [andb]. lia.
    + set (leapyear := (q1 =? 3) && (negb (q4 =? 24) || (q100 =? 3))).
      rewrite Z.shiftr_div_pow2 by lia.
      set (m0 := (r1 + 50) / 2 ^ 5).
      assert (Hm0 : 1 <= m0 <= 12)
        by (subst m0; change (2 ^ 5) with 32; Z.div_mod_to_equations; lia).
      clearbody m0.
      assert (Hleap : _is_leap (q400 * 400 + 1 + q100 * 100 + q4 * 4 + q1)
                      = leapyear) by (apply is_leap_split; lia).
      assert (Hdby : _days_before_year
                       (q400 * 400 + 1 + q100 * 100 + q4 * 4 + q1)
                     = 146097 * q400 + 36524 * q100 + 1461 * q4 + 365 * q1)
        by (apply days_before_year_split; lia).
      clearbody leapyear.
      cbn [orb].
      set (P := _DAYS_BEFORE_MONTH m0
                + (if (2 <? m0) && leapyear then 1 else 0)).
      destruct (Z.ltb_spec r1 P) as [Hlt|Hge]; cbv beta iota;
        unfold _ymd2ord, _days_before_month; rewrite Hleap, Hdby.
      * assert (Hm2 : 2 <= m0).
        { destruct (Z.eq_dec m0 1) as [->|]; [|lia]. subst P.
          change (_DAYS_BEFORE_MONTH 1) with 0 in Hlt.
          change (2 <? 1) with false in Hlt. cbn [andb] in Hlt. lia. }
        pose proof (days_before_month_prev m0 ltac:(lia)) as Hprev.
        subst P.
        destruct leapyear, (Z.ltb_spec 2 m0), (Z.eqb_spec (m0 - 1) 2),
          (Z.ltb_spec 2 (m0 - 1)); cbn [andb]; lia.
      * subst P. lia.
Qed.

End Ordinals.

Section OneHour.
Import Datetime.

Lemma datetime_ok_time (d : datetime) :
  datetime_ok d = true ->
  0 <= hour d <= 23 /\ 0 <= minute d <= 59 /\ 0 <= second d <= 59
  /\ 0 <= microsecond d <= 999999.
Proof.
  unfold datetime_ok. rewrite !andb_true_iff, !Z.leb_le. lia.
Qed.

(** Adding [timedelta(hours=h)] moves a datetime by exactly [h] hours on
    the time line, whenever the sum exists. *)
Lemma add_hours_exact (d d' : datetime) (h : Z) :
  datetime_ok d = true ->
  add d (hours h) = Ok d' ->
  total_microseconds d' = total_microseconds d + h * 3600000000.
Proof.
  intros Hok Hadd. apply datetime_ok_time in Hok.
  unfold add, timedelta_add, hours, new_timedelta in Hadd.
  cbn [td_days td_seconds td_microseconds] in Hadd.
  cbv zeta in Hadd.
  match type of Hadd with
  | (if (0 <? ?days) && _ then _ else _) = _ => set (D := days) in *
  end.
  destruct (Z.ltb_spec 0 D) as [HD|HD]; cbn [andb] in Hadd; [|discriminate].
  destruct (D <=? _MAXORDINAL); [|discriminate].
  pose proof (ymd2ord_ord2ymd D ltac:(lia)) as Hround.
  destruct (_ord2ymd D) as [[y m] dd].
  injection Hadd as <-.
  unfold total_microseconds. unfold toordinal at 1.
  cbn [year month day hour minute second microsecond].
  rewrite Hround. subst D.
  generalize (toordinal d). intros o.
  Z.div_mod_to_equations. lia.
Qed.

End OneHour.

(* ===================================================================== *)
(** * The store                                                           *)
(* ===================================================================== *)

Section StoreFacts.

Lemma next_rowid_above (ids : list Z) (i : Z) :
  In i ids -> i < next_rowid ids.
Proof.
  unfold next_rowid. induction ids as [|j ids IH]; simpl; [tauto|].
  intros [->|H]; [lia|]. specialize (IH H). lia.
Qed.

Lemma find_fresh_id (rows : list meeting_row) (i : Z) :
  (forall m, In m rows -> m_id m <> i) ->
  find (fun m => m_id m =? i) rows = None.
Proof.
  induction rows as [|m rows IH]; simpl; intros H; [reflexivity|].
  destruct (Z.eqb_spec (m_id m) i) as [Heq|_].
  - exfalso. apply (H m); auto.
  - apply IH. intros m' Hm'. apply H. auto.
Qed.

Lemma new_meeting_id_fresh (d : database) :
  get_meeting_by_id d (new_meeting_id d) = None.
Proof.
  unfold get_meeting_by_id, new_meeting_id. apply find_fresh_id.
  intros m Hm.
  pose proof (next_rowid_above (map m_id (meetings d)) (m_id m)
                (in_map m_id _ _ Hm)).
  lia.
Qed.

Lemma find_app_fresh (rows : list meeting_row) (row : meeting_row) (i : Z) :
  find (fun m => m_id m =? i) rows = None -> m_id row = i ->
  find (fun m => m_id m =? i) (rows ++ [row]) = Some row.
Proof.
  induction rows as [|m rows IH]; simpl; intros Hnone Hid.
  - now rewrite Hid, Z.eqb_refl.
  - destruct (m_id m =? i); [discriminate|]. now apply IH.
Qed.

Lemma insert_by_perm {A} (key : A -> string) (x : A) (l : list A) :
  Permutation (insert_by key x l) (x :: l).
Proof.
  induction l as [|y l IH]; simpl; [reflexivity|].
  destruct (String.leb (key x) (key y)); [reflexivity|].
  rewrite IH. apply perm_swap.
Qed.

Lemma order_by_perm {A} (key : A -> string) (l : list A) :
  Permutation (order_by key l) l.
Proof.
  induction l as [|x l IH]; simpl; [reflexivity|].
  rewrite insert_by_perm. now constructor.
Qed.

Lemma insert_by_sorted {A} (key : A -> string) (x : A) (l : list A) :
  sorted_by key l -> sorted_by key (insert_by key x l).
Proof.
  unfold sorted_by.
  induction l as [|y l IH]; simpl; intros Hs.
  - constructor; constructor.
  - inversion Hs as [|? ? Hl Hy]; subst.
    destruct (String.leb (key x) (key y)) eqn:Hxy.
    + constructor; [assumption|].
      constructor; [assumption|].
      eapply Forall_impl; [|exact Hy].
      intros z Hz. simpl in Hz. now apply (string_leb_trans _ (key y)).
    + constructor; [now apply IH|].
      apply (Permutation_Forall (Permutation_sym (insert_by_perm key x l))).
      constructor; [now apply string_leb_false | assumption].
Qed.

Lemma order_by_sorted {A} (key : A -> string) (l : list A) :
  sorted_by key (order_by key l).
Proof.
  induction l as [|x l IH]; simpl.
  - constructor.
  - now apply insert_by_sorted.
Qed.

(** In a sorted list a row that comes earlier has the smaller key. *)
Lemma sorted_by_earlier {A} (key : A -> string) (l1 l2 l3 : list A) (a b : A) :
  sorted_by key (l1 ++ a :: l2 ++ b :: l3) ->
  String.leb (key a) (key b) = true.
Proof.
  unfold sorted_by. induction l1 as [|x l1 IH]; simpl; intros Hs.
  - inversion Hs as [|? ? _ Ha]; subst.
    rewrite Forall_forall in Ha. apply Ha.
    apply in_or_app. right. now left.
  - inversion Hs; subst. now apply IH.
Qed.

Lemma filter_none {A} (f : A -> bool) (l : list A) :
  filter f (filter (fun x => negb (f x)) l) = [].
Proof.
  induction l as [|x l IH]; simpl; [reflexivity|].
  destruct (f x) eqn:Hx; simpl; [assumption|]. now rewrite Hx.
Qed.

Lemma find_filter_none (rows : list meeting_row) (i : Z) :
  find (fun m => m_id m =? i)
       (filter (fun m => negb (m_id m =? i)) rows) = None.
Proof.
  induction rows as [|m rows IH]; simpl; [reflexivity|].
  destruct (m_id m =? i) eqn:Hm; simpl; [assumption|]. now rewrite Hm.
Qed.

Lemma filter_length_app {A} (f : A -> bool) (l : list A) (x : A) :
  List.length (filter f (l ++ [x]))
  = (List.length (filter f l) + (if f x then 1 else 0))%nat.
Proof.
  rewrite filter_app, length_app. simpl. now destruct (f x).
Qed.

End StoreFacts.

(* ===================================================================== *)
(** * Creating a meeting                                                  *)
(* ===================================================================== *)

Section Creation.

Variables (bot : GirlTalkBot) (e : env).
Variables (title description : string) (start_time : Datetime.datetime).
Variables (creator_id : Z) (creator_username : string).

(** When the end time exists, the call is the attempt at the calendar
    followed by one write. *)
Lemma create_calendar_event_run (end_time : Datetime.datetime) (st : state) :
  Datetime.add start_time (Datetime.hours 1) = Ok end_time ->
  let event :=
    calendar_body title description start_time end_time creator_username in
  let st1 := after_attempt bot event st in
  create_calendar_event bot e title description start_time creator_id
                        creator_username st
  = match store_fault e with
    | Some _ => (Ok (false, None), st1)
    | None =>
        (Ok (true, snd (remote_attempt bot event)),
         set_db (mk_database
                   (meetings (db st)
                    ++ [written_meeting bot e title description start_time
                          end_time creator_id creator_username (db st)])
                   (registrations (db st))) st1)
    end.
Proof.
  intros Hadd.
  unfold written_meeting, create_calendar_event, try_except, bind, lift, request, ret, raise,
    transaction, insert_meeting, remote_attempt, after_attempt,
    stored_event_id, new_meeting_id.
  cbn beta zeta. rewrite Hadd.
  destruct (enabled_service bot) as [service|]; cbn.
  - destruct (events_insert service _ _) as [created|err]; cbn.
    + destruct (ce_id created) as [event_id|]; cbn;
        destruct (store_fault e); reflexivity.
    + destruct (store_fault e); reflexivity.
  - destruct (store_fault e); reflexivity.
Qed.

(** When the end time cannot be represented, nothing happens at all. *)
Lemma create_calendar_event_overflow (err : exn) (st : state) :
  Datetime.add start_time (Datetime.hours 1) = Raise err ->
  create_calendar_event bot e title description start_time creator_id
                        creator_username st
  = (Ok (false, None), st).
Proof.
  intros Hadd.
  unfold create_calendar_event, try_except, bind, lift, ret.
  now rewrite Hadd.
Qed.

(** The call never raises, and leaves the dialogue alone. *)
Lemma create_calendar_event_returns (st : state) :
  exists success link st',
    create_calendar_event bot e title description start_time creator_id
                          creator_username st
    = (Ok (success, link), st')
    /\ context_user_data st' = context_user_data st
    /\ replies st' = replies st.
Proof.
  destruct (Datetime.add start_time (Datetime.hours 1)) as [end_time|err] eqn:Hadd.
  - rewrite (create_calendar_event_run end_time st Hadd).
    unfold after_attempt.
    destruct (store_fault e); destruct (enabled_service bot);
      do 3 eexists; (split; [reflexivity|]); split; reflexivity.
  - rewrite (create_calendar_event_overflow err st Hadd).
    do 3 eexists. split; [reflexivity|]. split; reflexivity.
Qed.

Lemma gateway_fails_no_remote (event : calendar_event) :
  gateway_fails bot event -> remote_attempt bot event = (None, None).
Proof.
  unfold gateway_fails, remote_attempt, enabled_service.
  intros [Hoff|[Hnone|(service & err & Hsvc & Hraise)]].
  - now rewrite Hoff.
  - rewrite Hnone. now destruct (GOOGLE_CALENDAR_ON bot).
  - rewrite Hsvc. destruct (GOOGLE_CALENDAR_ON bot); [|reflexivity].
    now rewrite Hraise.
Qed.

Lemma db_after_attempt (event : calendar_event) (st : state) :
  db (after_attempt bot event st) = db st.
Proof. unfold after_attempt. now destruct (enabled_service bot). Qed.

End Creation.

(* ===================================================================== *)
(** * Properties of the meeting lifecycle manager                         *)
(* ===================================================================== *)

(** C1, as stated, fails: a meeting that starts at 9999-12-31 23:30 is a
    future start time, the store is available and the calendar is
    switched off, and yet the creation fails, because the end time one
    hour later is beyond the last datetime. *)
Lemma create_calendar_event_fails_without_store_fault :
  Datetime.datetime_ok year_end_9999 = true
  /\ Datetime.ltb (clock_now calm) year_end_9999 = true
  /\ store_fault calm = None
  /\ create_calendar_event no_calendar calm "Party" "Last one" year_end_9999
                           7 "ann" empty_state
     = (Ok (false, None), empty_state).
Proof. repeat split; reflexivity. Qed.

(** C1, amended: when the end time [start_time + 1h] can be represented,
    [create_calendar_event] returns, and it reports failure exactly when
    the store raises during the write (then with no link and an unchanged
    store); when the calendar is switched off, not set up or raises on
    the create call, and the store is available, it reports success with
    no calendar link and the stored event id is ["local_event_"] followed
    by the timestamp. *)
Theorem create_calendar_event_fails_only_on_store_fault
    (bot : GirlTalkBot) (e : env) (title description : string)
    (start_time end_time : Datetime.datetime)
    (creator_id : Z) (creator_username : string) (st : state) :
  Datetime.add start_time (Datetime.hours 1) = Ok end_time ->
  exists success link st',
    create_calendar_event bot e title description start_time creator_id
                          creator_username st
    = (Ok (success, link), st')
    /\ (success = false <-> store_fault e <> None)
    /\ (success = false -> link = None /\ db st' = db st)
    /\ (gateway_fails bot (calendar_body title description start_time
                                          end_time creator_username) ->
        store_fault e = None ->
        success = true /\ link = None
        /\ exists row,
             meetings (db st') = (meetings (db st) ++ [row])%list
             /\ m_event_id row = LOCAL_PREFIX +:+ clock_timestamp e
             /\ String.prefix LOCAL_PREFIX (m_event_id row) = true
             /\ m_calendar_link row = None).
Proof.
  intros Hadd.
  rewrite (create_calendar_event_run bot e title description start_time
             creator_id creator_username end_time st Hadd).
  unfold written_meeting. cbv zeta.
  set (event := calendar_body title description start_time end_time
                              creator_username).
  destruct (store_fault e) as [err|] eqn:Hfault.
  - exists false, None, (after_attempt bot event st).
    split; [reflexivity|]. split; [|split].
    + split; [discriminate | reflexivity].
    + intros _. split; [reflexivity | apply db_after_attempt].
    + discriminate.
  - eexists true, _, _. split; [reflexivity|]. split; [|split].
    + split; [discriminate | congruence].
    + discriminate.
    + intros Hdown _.
      rewrite (gateway_fails_no_remote bot event Hdown). cbn [fst snd].
      split; [reflexivity|]. split; [reflexivity|].
      eexists. split; [reflexivity|].
      unfold stored_event_id. cbn [fst truthy_str negb m_event_id
                                    m_calendar_link snd].
      repeat split. apply prefix_append.
Qed.

Lemma create_calendar_event_fails_only_on_store_fault_witness :
  Datetime.add new_year_2030 (Datetime.hours 1)
  = Ok (Datetime.mk_datetime 2030 1 1 11 0 0 0)
  /\ exists success link st',
       create_calendar_event broken_calendar calm "Book Club"
         "Discuss chapter 5" new_year_2030 7 "ann" empty_state
       = (Ok (success, link), st')
       /\ (success = false <-> store_fault calm <> None)
       /\ (success = false -> link = None /\ db st' = db empty_state)
       /\ (gateway_fails broken_calendar
             (calendar_body "Book Club" "Discuss chapter 5" new_year_2030
                (Datetime.mk_datetime 2030 1 1 11 0 0 0) "ann") ->
           store_fault calm = None ->
           success = true /\ link = None
           /\ exists row,
                meetings (db st') = (meetings (db empty_state) ++ [row])%list
                /\ m_event_id row = LOCAL_PREFIX +:+ clock_timestamp calm
                /\ String.prefix LOCAL_PREFIX (m_event_id row) = true
                /\ m_calendar_link row = None).
Proof.
  split; [reflexivity|].
  apply (create_calendar_event_fails_only_on_store_fault broken_calendar calm
           "Book Club" "Discuss chapter 5" new_year_2030
           (Datetime.mk_datetime 2030 1 1 11 0 0 0) 7 "ann" empty_state).
  reflexivity.
Defined.

(** C2, as stated, fails: the start 9999-12-31 23:30 is a valid
    datetime after the clock and the store is available, yet
    [start_time + timedelta(hours=1)] raises [OverflowError], the call
    returns [(False, None)], and no meeting is stored under the id that
    the new meeting would have received. *)
Lemma no_meeting_after_create_at_year_end :
  Datetime.datetime_ok year_end_9999 = true
  /\ Datetime.ltb (clock_now calm) year_end_9999 = true
  /\ store_fault calm = None
  /\ Datetime.add year_end_9999 (Datetime.hours 1) = Raise OverflowError
  /\ fst (create_calendar_event working_calendar calm "Party" "Last one"
             year_end_9999 7 "ann" (in_database sample_database))
     = Ok (false, None)
  /\ get_meeting_by_id
       (db (snd (create_calendar_event working_calendar calm "Party"
                   "Last one" year_end_9999 7 "ann"
                   (in_database sample_database))))
       (new_meeting_id sample_database)
     = None.
Proof. repeat split; reflexivity. Qed.

(** C2, amended: for every start time that the [datetime] constructor
    accepts and whose end [start_time + timedelta(hours=1)] can be
    represented, and with the store available, [create_calendar_event]
    returns success, the id the store assigns to the new meeting was
    free before, and [get_meeting_by_id] on it afterwards returns the
    meeting with the given title, description and creator, whose
    [start_time] is the ISO text of the start and whose [end_time] is
    the ISO text of the end; that end is 3 600 000 000 microseconds
    after the start on the time line. *)
Theorem create_then_get_meeting_by_id
    (bot : GirlTalkBot) (e : env) (title description : string)
    (start_time end_time : Datetime.datetime) (creator_id : Z)
    (creator_username : string) (st : state) :
  Datetime.datetime_ok start_time = true ->
  Datetime.add start_time (Datetime.hours 1) = Ok end_time ->
  store_fault e = None ->
  get_meeting_by_id (db st) (new_meeting_id (db st)) = None
  /\ Datetime.total_microseconds end_time
     = Datetime.total_microseconds start_time + 3600000000
  /\ exists link st' row,
       create_calendar_event bot e title description start_time creator_id
                             creator_username st
       = (Ok (true, link), st')
       /\ get_meeting_by_id (db st') (new_meeting_id (db st)) = Some row
       /\ m_start_time row = Datetime.isoformat start_time
       /\ m_end_time row = Datetime.isoformat end_time
       /\ m_title row = title
       /\ m_description row = description
       /\ m_creator_id row = creator_id.
Proof.
  intros Hok Hadd Hstore.
  split; [apply new_meeting_id_fresh|].
  split; [apply (add_hours_exact start_time end_time 1 Hok Hadd)|].
  pose proof (create_calendar_event_run bot e title description start_time
                creator_id creator_username end_time st Hadd) as Hrun.
  cbv zeta in Hrun. rewrite Hstore in Hrun.
  eexists. eexists. eexists. split; [exact Hrun|].
  split.
  - unfold get_meeting_by_id. cbn [db set_db meetings].
    apply find_app_fresh; [apply new_meeting_id_fresh | reflexivity].
  - repeat split.
Qed.

Lemma create_then_get_meeting_by_id_witness :
  exists link st' row,
    create_calendar_event working_calendar calm "Walk" "Park"
      (Datetime.mk_datetime 2029 12 31 23 30 0 0) 7 "ann"
      (in_database sample_database)
    = (Ok (true, link), st')
    /\ get_meeting_by_id (db st') 4 = Some row
    /\ m_start_time row = "2029-12-31T23:30:00"
    /\ m_end_time row = "2030-01-01T00:30:00".
Proof.
  destruct (create_then_get_meeting_by_id working_calendar calm "Walk" "Park"
              (Datetime.mk_datetime 2029 12 31 23 30 0 0)
              (Datetime.mk_datetime 2030 1 1 0 30 0 0) 7 "ann"
              (in_database sample_database) eq_refl eq_refl eq_refl)
    as (_ & _ & link & st' & row & Hrun & Hget & Hstart & Hend & _).
  exists link, st', row.
  split; [exact Hrun|]. split; [exact Hget|].
  split; [exact Hstart|exact Hend].
Defined.




(* ===================================================================== *)
(** * Properties of the registration manager                              *)
(* ===================================================================== *)

Lemma register_user_for_meeting_run
    (e : env) (meeting_id user_id : Z) (username : string) (st : state) :
  register_user_for_meeting e meeting_id user_id username st
  = match store_fault e with
    | Some _ => (Ok false, st)
    | None =>
        if is_registered (db st) meeting_id user_id then (Ok false, st)
        else
          (Ok true,
           set_db
             (mk_database (meetings (db st))
                (registrations (db st)
                 ++ [mk_registration
                       (next_rowid (map r_id (registrations (db st))))
                       meeting_id user_id username (store_timestamp e)]))
             st)
    end.
Proof.
  unfold register_user_for_meeting, try_except, bind, transaction, ret,
    insert_registration.
  destruct (store_fault e) as [[]|]; try reflexivity.
  destruct (is_registered (db st) meeting_id user_id); reflexivity.
Qed.

Lemma is_registered_after_insert (d : database) (row : registration_row) :
  is_registered (mk_database (meetings d) (registrations d ++ [row]))
                (r_meeting_id row) (r_user_id row) = true.
Proof.
  unfold is_registered. cbn [registrations].
  rewrite existsb_app. cbn. rewrite !Z.eqb_refl. cbn.
  now rewrite orb_true_r.
Qed.

Lemma count_after_insert (d : database) (row : registration_row) :
  get_registration_count
    (mk_database (meetings d) (registrations d ++ [row])) (r_meeting_id row)
  = get_registration_count d (r_meeting_id row) + 1.
Proof.
  unfold get_registration_count. cbn [registrations].
  rewrite filter_length_app, Z.eqb_refl. lia.
Qed.






(* ===================================================================== *)
(** * Deleting a meeting                                                  *)
(* ===================================================================== *)

Lemma delete_meeting_run
    (bot : GirlTalkBot) (e : env) (meeting_id creator_id : Z) (st : state) :
  delete_meeting bot e meeting_id creator_id st
  = match get_meeting_by_id (db st) meeting_id with
    | None => (Ok false, st)
    | Some meeting =>
        if negb (m_creator_id meeting =? creator_id) then (Ok false, st)
        else
          let st1 := after_remote_delete bot (m_event_id meeting) st in
          match store_fault e with
          | Some _ => (Ok false, st1)
          | None =>
              (Ok true,
               set_db (delete_meeting_row meeting_id
                         (delete_registrations meeting_id (db st))) st1)
          end
    end.
Proof.
  unfold delete_meeting, try_except, bind, gets, ret, request, transaction,
    after_remote_delete.
  destruct (get_meeting_by_id (db st) meeting_id) as [meeting|];
    [|reflexivity].
  destruct (m_creator_id meeting =? creator_id); cbn [negb]; [|reflexivity].
  destruct (enabled_service bot) as [service|].
  - destruct (String.prefix LOCAL_PREFIX (m_event_id meeting)); cbn [negb].
    + destruct (store_fault e); reflexivity.
    + destruct (events_delete service _ _);
        destruct (store_fault e); reflexivity.
  - destruct (store_fault e); reflexivity.
Qed.

(** C4: when no meeting is stored under [meeting_id], or the stored
    meeting's creator id is not the requester's, [delete_meeting] returns
    [False] and changes nothing: the state, and so every answer of
    [get_meeting_by_id] and [get_registration_count], is as before, and
    the calendar is not asked to delete anything. *)
Theorem delete_meeting_unauthorized
    (bot : GirlTalkBot) (e : env) (meeting_id requester_id : Z) (st : state) :
  (get_meeting_by_id (db st) meeting_id = None
   \/ exists meeting,
        get_meeting_by_id (db st) meeting_id = Some meeting
        /\ m_creator_id meeting <> requester_id) ->
  exists st',
    delete_meeting bot e meeting_id requester_id st = (Ok false, st')
    /\ st' = st
    /\ get_meeting_by_id (db st') meeting_id
       = get_meeting_by_id (db st) meeting_id
    /\ get_registration_count (db st') meeting_id
       = get_registration_count (db st) meeting_id.
Proof.
  intros H. exists st. rewrite delete_meeting_run.
  destruct H as [->|(meeting & -> & Hcreator)].
  - repeat split.
  - destruct (Z.eqb_spec (m_creator_id meeting) requester_id);
      [contradiction|].
    repeat split.
Qed.

Lemma delete_meeting_unauthorized_witness :
  (exists meeting,
     get_meeting_by_id (db (in_database sample_database)) 1 = Some meeting
     /\ m_creator_id meeting <> 8)
  /\ exists st',
       delete_meeting working_calendar calm 1 8 (in_database sample_database)
       = (Ok false, st')
       /\ st' = in_database sample_database
       /\ get_meeting_by_id (db st') 1 = Some book_club
       /\ get_registration_count (db st') 1 = 2.
Proof.
  assert (H : exists meeting,
             get_meeting_by_id (db (in_database sample_database)) 1
             = Some meeting
             /\ m_creator_id meeting <> 8).
  { exists book_club. split; [reflexivity | discriminate]. }
  split; [exact H|].
  destruct (delete_meeting_unauthorized working_calendar calm 1 8
              (in_database sample_database) (or_intror H))
    as (st' & Hrun & Hst & Hget & Hcount).
  exists st'. split; [exact Hrun|]. split; [exact Hst|].
  split; [rewrite Hget | rewrite Hcount]; reflexivity.
Defined.

(** C5: when the requester is the creator of the stored meeting and the
    store is available, [delete_meeting] returns [True] whatever the
    calendar does, and afterwards [get_meeting_by_id] finds no meeting
    under the id, [get_meeting_registrations] is empty and the count is
    0; the other meetings are still there. *)
Theorem delete_meeting_by_creator
    (bot : GirlTalkBot) (e : env) (meeting_id requester_id : Z)
    (meeting : meeting_row) (st : state) :
  get_meeting_by_id (db st) meeting_id = Some meeting ->
  m_creator_id meeting = requester_id ->
  store_fault e = None ->
  exists st',
    delete_meeting bot e meeting_id requester_id st = (Ok true, st')
    /\ get_meeting_by_id (db st') meeting_id = None
    /\ get_meeting_registrations (db st') meeting_id = []
    /\ get_registration_count (db st') meeting_id = 0
    /\ (forall other, other <> meeting_id ->
        get_meeting_by_id (db st') other = get_meeting_by_id (db st) other).
Proof.
  intros Hget Hcreator Hok.
  rewrite delete_meeting_run, Hget, Hcreator, Z.eqb_refl, Hok.
  cbn [negb]. cbv zeta.
  eexists. split; [reflexivity|].
  cbn [db set_db].
  unfold get_meeting_by_id, get_meeting_registrations, get_registration_count,
    delete_meeting_row, delete_registrations.
  cbn [meetings registrations].
  split; [apply find_filter_none|].
  rewrite (filter_none (fun r => r_meeting_id r =? meeting_id)).
  split; [reflexivity|]. split; [reflexivity|].
  intros other Hother.
  induction (meetings (db st)) as [|m rows IH]; [reflexivity|].
  cbn [filter find].
  destruct (Z.eqb_spec (m_id m) meeting_id) as [Hm|Hm]; cbn [negb find].
  - rewrite IH. destruct (Z.eqb_spec (m_id m) other); [lia | reflexivity].
  - now rewrite IH.
Qed.

Lemma delete_meeting_by_creator_witness :
  get_meeting_by_id (db (in_database sample_database)) 1 = Some book_club
  /\ m_creator_id book_club = 7
  /\ store_fault calm = None
  /\ exists st',
       delete_meeting broken_calendar calm 1 7 (in_database sample_database)
       = (Ok true, st')
       /\ get_meeting_by_id (db st') 1 = None
       /\ get_meeting_registrations (db st') 1 = []
       /\ get_registration_count (db st') 1 = 0
       /\ get_meeting_by_id (db st') 2 = Some mirrored_meeting.
Proof.
  split; [reflexivity|]. split; [reflexivity|]. split; [reflexivity|].
  destruct (delete_meeting_by_creator broken_calendar calm 1 7 book_club
              (in_database sample_database) eq_refl eq_refl eq_refl)
    as (st' & Hrun & Hget & Hregs & Hcount & Hothers).
  exists st'. repeat (split; [assumption|]).
  rewrite Hothers; [reflexivity | discriminate].
Defined.

(* ===================================================================== *)
(** * Listing the upcoming meetings                                       *)
(* ===================================================================== *)

(** C6: [get_upcoming_meetings] returns, each once, the stored meetings
    whose [start_time] text is after the ISO text of the current time,
    in ascending order of that text; for a stored start time that is the
    ISO text of a datetime [t], being after the text of the current time
    is [now < t], and of two returned meetings the earlier one in the
    list does not start later. *)
Theorem get_upcoming_meetings_spec (e : env) (d : database) :
  Datetime.datetime_ok (clock_now e) = true ->
  Permutation (get_upcoming_meetings e d)
    (filter (fun m => String.ltb (Datetime.isoformat (clock_now e))
                                 (m_start_time m))
            (meetings d))
  /\ sorted_by m_start_time (get_upcoming_meetings e d)
  /\ (forall m t,
        Datetime.datetime_ok t = true ->
        m_start_time m = Datetime.isoformat t ->
        (In m (get_upcoming_meetings e d)
         <-> In m (meetings d) /\ Datetime.ltb (clock_now e) t = true))
  /\ (forall l1 l2 l3 a b ta tb,
        get_upcoming_meetings e d = (l1 ++ a :: l2 ++ b :: l3)%list ->
        Datetime.datetime_ok ta = true -> Datetime.datetime_ok tb = true ->
        m_start_time a = Datetime.isoformat ta ->
        m_start_time b = Datetime.isoformat tb ->
        Datetime.leb ta tb = true).
Proof.
  intros Hnow. unfold get_upcoming_meetings.
  split; [apply order_by_perm|].
  split; [apply order_by_sorted|].
  split.
  - intros m t Ht Hstart.
    rewrite (Permutation_in' (eq_refl m) (order_by_perm m_start_time _)).
    rewrite filter_In, Hstart, isoformat_ltb by assumption.
    reflexivity.
  - intros l1 l2 l3 a b ta tb Hres Hta Htb Ha Hb.
    pose proof (order_by_sorted m_start_time
                  (filter (fun m => String.ltb
                                      (Datetime.isoformat (clock_now e))
                                      (m_start_time m)) (meetings d)))
      as Hsorted.
    rewrite Hres in Hsorted.
    apply sorted_by_earlier in Hsorted.
    rewrite Ha, Hb, isoformat_leb in Hsorted; assumption.
Qed.

Lemma get_upcoming_meetings_spec_witness :
  Datetime.datetime_ok (clock_now calm) = true
  /\ get_upcoming_meetings calm
       (mk_database [mirrored_meeting; past_meeting; book_club] [])
     = [book_club; mirrored_meeting]
  /\ sorted_by m_start_time
       (get_upcoming_meetings calm
          (mk_database [mirrored_meeting; past_meeting; book_club] [])).
Proof.
  split; [reflexivity|]. split; [reflexivity|].
  destruct (get_upcoming_meetings_spec calm
              (mk_database [mirrored_meeting; past_meeting; book_club] [])
              eq_refl) as (_ & Hsorted & _).
  exact Hsorted.
Defined.

(* ===================================================================== *)
(** * The creation dialogue                                               *)
(* ===================================================================== *)

Section Dialogue.

Variables (bot : GirlTalkBot) (e : env) (update : Update).


(** No active flow: the input is ignored. *)
Lemma handle_ignored (st : state) :
  truthy_bool (creating_meeting (context_user_data st)) = false ->
  handle_meeting_creation bot e update st = (Ok tt, st).
Proof.
  intros H. unfold handle_meeting_creation, bind, gets. now rewrite H.
Qed.

(** Step [title]: the text is stored as it is. *)
Lemma handle_title (st : state) :
  truthy_bool (creating_meeting (context_user_data st)) = true ->
  meeting_step (context_user_data st) = Some "title" ->
  handle_meeting_creation bot e update st
  = (Ok tt,
     add_reply (TitleAccepted (message_text update))
       (set_user_data
          (set_meeting_step (Some "description")
             (set_meeting_title (Some (message_text update))
                (context_user_data st))) st)).
Proof.
  intros Hflow Hstep.
  unfold handle_meeting_creation, bind, gets. cbv beta iota.
  rewrite Hflow. cbv beta iota. cbn [negb]. rewrite Hstep.
  reflexivity.
Qed.

(** Step [description]: the text is stored as it is. *)
Lemma handle_description (st : state) :
  truthy_bool (creating_meeting (context_user_data st)) = true ->
  meeting_step (context_user_data st) = Some "description" ->
  handle_meeting_creation bot e update st
  = (Ok tt,
     add_reply (DescriptionAccepted (message_text update))
       (set_user_data
          (set_meeting_step (Some "datetime")
             (set_meeting_description (Some (message_text update))
                (context_user_data st))) st)).
Proof.
  intros Hflow Hstep.
  unfold handle_meeting_creation, bind, gets. cbv beta iota.
  rewrite Hflow. cbv beta iota. cbn [negb]. rewrite Hstep.
  reflexivity.
Qed.

(** Step [datetime], text that does not parse: only the error message. *)
Lemma handle_datetime_invalid (st : state) :
  truthy_bool (creating_meeting (context_user_data st)) = true ->
  meeting_step (context_user_data st) = Some "datetime" ->
  Strptime.strptime (message_text update) = Raise ValueError ->
  handle_meeting_creation bot e update st
  = (Ok tt, add_reply InvalidDateFormat st).
Proof.
  intros Hflow Hstep Hparse.
  unfold handle_meeting_creation, bind, gets. cbv beta iota.
  rewrite Hflow. cbv beta iota. cbn [negb]. rewrite Hstep.
  cbn [negb step_is String.eqb Ascii.eqb Bool.eqb].
  unfold try_except, lift. rewrite Hparse. reflexivity.
Qed.

(** Step [datetime], a time that is not in the future: only the error
    message. *)
Lemma handle_datetime_past (st : state) (t : Datetime.datetime) :
  truthy_bool (creating_meeting (context_user_data st)) = true ->
  meeting_step (context_user_data st) = Some "datetime" ->
  Strptime.strptime (message_text update) = Ok t ->
  Datetime.leb t (clock_now e) = true ->
  handle_meeting_creation bot e update st
  = (Ok tt, add_reply FutureDateRequired st).
Proof.
  intros Hflow Hstep Hparse Hpast.
  unfold handle_meeting_creation, bind, gets. cbv beta iota.
  rewrite Hflow. cbv beta iota. cbn [negb]. rewrite Hstep.
  cbn [negb step_is String.eqb Ascii.eqb Bool.eqb].
  unfold try_except, lift. rewrite Hparse, Hpast. reflexivity.
Qed.

(** Step [datetime], a future time: the draft goes to
    [create_calendar_event] and the conversation state is cleared,
    whether or not the creation succeeded. *)
Lemma handle_datetime_future
    (st stc : state) (t : Datetime.datetime) (title description : string)
    (success : bool) (link : option string) :
  truthy_bool (creating_meeting (context_user_data st)) = true ->
  meeting_step (context_user_data st) = Some "datetime" ->
  meeting_title (context_user_data st) = Some title ->
  meeting_description (context_user_data st) = Some description ->
  Strptime.strptime (message_text update) = Ok t ->
  Datetime.leb t (clock_now e) = false ->
  create_calendar_event bot e title description t (effective_user_id update)
    (str_or (effective_user_username update) "Unknown") st
  = (Ok (success, link), stc) ->
  context_user_data stc = context_user_data st ->
  handle_meeting_creation bot e update st
  = (Ok tt,
     mk_state (db stc) (calls stc) cleared
       (replies stc
        ++ [if success
            then MeetingCreated title description t
                   (if truthy_str link then link else None)
            else MeetingCreationFailed])).
Proof.
  intros Hflow Hstep Htitle Hdescr Hparse Hfuture Hcreate Hsame.
  unfold handle_meeting_creation, bind, gets. cbv beta iota.
  rewrite Hflow. cbv beta iota. cbn [negb]. rewrite Hstep.
  cbn [negb step_is String.eqb Ascii.eqb Bool.eqb].
  unfold try_except, lift, getitem. rewrite Hparse. cbv beta iota.
  rewrite Hfuture. cbv beta iota. rewrite Htitle. cbv beta iota.
  rewrite Hdescr. cbv beta iota. rewrite Hcreate. cbv beta iota.
  destruct success.
  - rewrite Hsame, Htitle. cbv beta iota. rewrite Hsame, Hdescr. reflexivity.
  - reflexivity.
Qed.

End Dialogue.

(** C8: when the user has no active creation flow (the flag is absent or
    false), [handle_meeting_creation] returns without raising and leaves
    the whole state as it was: no change to the conversation state, no
    message sent, nothing written or requested. *)
Theorem handle_meeting_creation_without_flow
    (bot : GirlTalkBot) (e : env) (update : Update) (st : state) :
  truthy_bool (creating_meeting (context_user_data st)) = false ->
  exists st',
    handle_meeting_creation bot e update st = (Ok tt, st')
    /\ st' = st
    /\ context_user_data st' = context_user_data st
    /\ replies st' = replies st.
Proof.
  intros H. exists st. rewrite (handle_ignored bot e update st H).
  repeat split.
Qed.

Lemma handle_meeting_creation_without_flow_witness :
  truthy_bool (creating_meeting (context_user_data
                                   (in_database sample_database))) = false
  /\ exists st',
       handle_meeting_creation working_calendar calm
         (text_from 7 "2030-01-01 10:00") (in_database sample_database)
       = (Ok tt, st')
       /\ st' = in_database sample_database
       /\ context_user_data st'
          = context_user_data (in_database sample_database)
       /\ replies st' = replies (in_database sample_database).
Proof.
  split; [reflexivity|].
  apply (handle_meeting_creation_without_flow working_calendar calm
           (text_from 7 "2030-01-01 10:00") (in_database sample_database)).
  reflexivity.
Defined.

(** C7: after [create_meeting_command], the texts "Book Club" and
    "Discuss chapter 5" are stored as title and description; "not-a-date"
    at the datetime step only sends the format error, the step and the
    draft staying as they were; then, the clock being before 2030-01-01
    10:00, "2030-01-01 10:00" hands the draft (Book Club, Discuss
    chapter 5, 2030-01-01T10:00) to [create_calendar_event] and clears
    the conversation state whether or not the creation succeeds. *)
Theorem creation_dialogue_scenario
    (bot : GirlTalkBot) (e1 e2 e3 e4 : env)
    (user_id : Z) (username : option string) (st0 : state) :
  Datetime.ltb (clock_now e4) new_year_2030 = true ->
  exists st1 st2 st3 st4 st5 stc success link,
    create_meeting_command (mk_update user_id username "/create_meeting") st0
    = (Ok tt, st1)
    /\ handle_meeting_creation bot e1
         (mk_update user_id username "Book Club") st1 = (Ok tt, st2)
    /\ handle_meeting_creation bot e2
         (mk_update user_id username "Discuss chapter 5") st2 = (Ok tt, st3)
    /\ context_user_data st3
       = draft (Some "datetime") (Some "Book Club") (Some "Discuss chapter 5")
    /\ handle_meeting_creation bot e3
         (mk_update user_id username "not-a-date") st3 = (Ok tt, st4)
    /\ st4 = add_reply InvalidDateFormat st3
    /\ context_user_data st4 = context_user_data st3
    /\ create_calendar_event bot e4 "Book Club" "Discuss chapter 5"
         new_year_2030 user_id (str_or username "Unknown") st4
       = (Ok (success, link), stc)
    /\ handle_meeting_creation bot e4
         (mk_update user_id username "2030-01-01 10:00") st4 = (Ok tt, st5)
    /\ db st5 = db stc
    /\ calls st5 = calls stc
    /\ context_user_data st5 = cleared
    /\ replies st5
       = (replies st4
          ++ [if success
              then MeetingCreated "Book Club" "Discuss chapter 5"
                     new_year_2030 (if truthy_str link then link else None)
              else MeetingCreationFailed])%list.
Proof.
  intros Hfuture. apply ltb_not_leb in Hfuture.
  destruct st0 as [d c [flag step title description] r].
  set (st1 := mk_state d c
                (mk_user_data (Some true) (Some "title") title description)
                (r ++ [AskTitle])%list).
  set (st2 := mk_state d c
                (mk_user_data (Some true) (Some "description")
                              (Some "Book Club") description)
                (replies st1 ++ [TitleAccepted "Book Club"])%list).
  set (st3 := mk_state d c
                (draft (Some "datetime") (Some "Book Club")
                       (Some "Discuss chapter 5"))
                (replies st2 ++ [DescriptionAccepted "Discuss chapter 5"])%list).
  set (st4 := add_reply InvalidDateFormat st3).
  destruct (create_calendar_event_returns bot e4 "Book Club"
              "Discuss chapter 5" new_year_2030 user_id
              (str_or username "Unknown") st4)
    as (success & link & stc & Hcreate & Hsame & Hreplies).
  exists st1, st2, st3, st4.
  eexists. exists stc, success, link.
  split; [reflexivity|].
  split; [apply handle_title; reflexivity|].
  split; [apply handle_description; reflexivity|].
  split; [reflexivity|].
  split; [apply handle_datetime_invalid; reflexivity|].
  split; [reflexivity|].
  split; [reflexivity|].
  split; [exact Hcreate|].
  split.
  { apply (handle_datetime_future bot e4 _ st4 stc new_year_2030
             "Book Club" "Discuss chapter 5" success link);
      try reflexivity; assumption. }
  cbn [db calls context_user_data replies].
  rewrite Hreplies. repeat split.
Qed.

Lemma creation_dialogue_scenario_witness :
  Datetime.ltb (clock_now calm_later) new_year_2030 = true
  /\ exists st5,
       handle_meeting_creation broken_calendar calm_later
         (mk_update 7 (Some "ann") "2030-01-01 10:00")
         (mk_state empty_database []
            (draft (Some "datetime") (Some "Book Club")
                   (Some "Discuss chapter 5"))
            [AskTitle; TitleAccepted "Book Club";
             DescriptionAccepted "Discuss chapter 5"; InvalidDateFormat])
       = (Ok tt, st5)
       /\ context_user_data st5 = cleared.
Proof.
  split; [reflexivity|].
  destruct (creation_dialogue_scenario broken_calendar calm calm calm
              calm_later 7 (Some "ann") empty_state eq_refl)
    as (st1 & st2 & st3 & st4 & st5 & stc & success & link
        & H1 & H2 & H3 & _ & H4 & _ & _ & _ & H5 & _ & _ & Hclear & _).
  exists st5. split; [|exact Hclear].
  cbn in H1. injection H1 as <-.
  cbn in H2. injection H2 as <-.
  cbn in H3. injection H3 as <-.
  cbn in H4. injection H4 as <-.
  exact H5.
Defined.

(* ===================================================================== *)
(** * Further facts about the store                                       *)
(* ===================================================================== *)

Section MoreStoreFacts.

Lemma find_app_some (rows : list meeting_row) (row meeting : meeting_row)
    (i : Z) :
  find (fun m => m_id m =? i) rows = Some meeting ->
  find (fun m => m_id m =? i) (rows ++ [row]) = Some meeting.
Proof.
  induction rows as [|m rows IH]; simpl; [discriminate|].
  destruct (m_id m =? i); [trivial|exact IH].
Qed.

Lemma find_filter_other (rows : list meeting_row) (i j : Z) :
  i <> j ->
  find (fun m => m_id m =? i) (filter (fun m => negb (m_id m =? j)) rows)
  = find (fun m => m_id m =? i) rows.
Proof.
  intros Hij. induction rows as [|m rows IH]; simpl; [reflexivity|].
  destruct (Z.eqb_spec (m_id m) j) as [Hj|Hj]; simpl.
  - destruct (Z.eqb_spec (m_id m) i) as [Hi|Hi]; [lia|exact IH].
  - destruct (m_id m =? i); [reflexivity|exact IH].
Qed.

Lemma filter_filter_other (rows : list registration_row) (i j : Z) :
  i <> j ->
  filter (fun r => r_meeting_id r =? i)
         (filter (fun r => negb (r_meeting_id r =? j)) rows)
  = filter (fun r => r_meeting_id r =? i) rows.
Proof.
  intros Hij. induction rows as [|r rows IH]; simpl; [reflexivity|].
  destruct (Z.eqb_spec (r_meeting_id r) j) as [Hj|Hj]; simpl.
  - destruct (Z.eqb_spec (r_meeting_id r) i) as [Hi|Hi]; [lia|exact IH].
  - destruct (r_meeting_id r =? i); [now rewrite IH|exact IH].
Qed.

Lemma filter_all {A} (f : A -> bool) (l : list A) :
  (forall x, In x l -> f x = true) -> filter f l = l.
Proof.
  induction l as [|x l IH]; simpl; intros H; [reflexivity|].
  rewrite (H x) by now left. f_equal. apply IH. intros y Hy. apply H. now right.
Qed.

(** Deleting the row that was appended last gives the table back. *)
Lemma filter_fresh_app (rows : list meeting_row) (row : meeting_row) :
  m_id row = next_rowid (map m_id rows) ->
  filter (fun m => negb (m_id m =? m_id row)) (rows ++ [row]) = rows.
Proof.
  intros Hid. rewrite filter_app. simpl. rewrite Z.eqb_refl. simpl.
  rewrite app_nil_r. apply filter_all. intros m Hm.
  pose proof (next_rowid_above (map m_id rows) (m_id m) (in_map m_id _ _ Hm)).
  apply negb_true_iff, Z.eqb_neq. lia.
Qed.

Lemma db_after_remote_delete (bot : GirlTalkBot) (event_id : string)
    (st : state) :
  db (after_remote_delete bot event_id st) = db st.
Proof.
  unfold after_remote_delete.
  destruct (enabled_service bot); [|reflexivity].
  now destruct (negb _).
Qed.

Lemma NoDup_map_filter {A B} (g : A -> B) (f : A -> bool) (l : list A) :
  NoDup (map g l) -> NoDup (map g (filter f l)).
Proof.
  induction l as [|x l IH]; simpl; [trivial|].
  intros Hnd. inversion Hnd as [|? ? Hx Hl]; subst.
  destruct (f x); [|now apply IH].
  simpl. constructor; [|now apply IH].
  intros Hin. apply Hx. apply in_map_iff in Hin.
  destruct Hin as (y & Hy & Hin). apply filter_In in Hin.
  apply in_map_iff. exists y. tauto.
Qed.

Lemma NoDup_snoc {A} (l : list A) (x : A) :
  NoDup l -> ~ In x l -> NoDup (l ++ [x]).
Proof.
  intros Hl Hx. apply NoDup_app; [exact Hl|repeat constructor; simpl; tauto|].
  intros y Hy [<-|[]]. contradiction.
Qed.

Lemma next_rowid_not_in (ids : list Z) : ~ In (next_rowid ids) ids.
Proof. intros H. apply next_rowid_above in H. lia. Qed.

Lemma is_registered_false (d : database) (meeting_id user_id : Z) :
  is_registered d meeting_id user_id = false ->
  ~ In (meeting_id, user_id)
       (map (fun r => (r_meeting_id r, r_user_id r)) (registrations d)).
Proof.
  unfold is_registered. intros Hnone Hin.
  apply in_map_iff in Hin. destruct Hin as (r & Hr & Hin).
  injection Hr as H1 H2.
  assert (Hex : existsb
            (fun r => (r_meeting_id r =? meeting_id) && (r_user_id r =? user_id))
            (registrations d) = true).
  { apply existsb_exists. exists r. split; [exact Hin|].
    now rewrite H1, H2, !Z.eqb_refl. }
  congruence.
Qed.

End MoreStoreFacts.

(* ===================================================================== *)
(** * More about creating a meeting                                       *)
(* ===================================================================== *)

(** X1: when the calendar is switched on and set up and answers the
    create call with a non-empty id, and the store is available,
    [create_calendar_event] makes exactly that one request, returns
    [(True, htmlLink)], and the row it stores carries the calendar's id
    as [event_id] and the returned link as [calendar_link]. *)
Theorem create_calendar_event_mirrors_remote
    (bot : GirlTalkBot) (e : env) (title description : string)
    (start_time end_time : Datetime.datetime)
    (creator_id : Z) (creator_username : string)
    (service : CalendarService) (event_id : string) (link : option string)
    (st : state) :
  Datetime.add start_time (Datetime.hours 1) = Ok end_time ->
  GOOGLE_CALENDAR_ON bot = true ->
  calendar_service bot = Some service ->
  events_insert service (CALENDAR_ID bot)
    (calendar_body title description start_time end_time creator_username)
  = Ok (mk_created_event (Some event_id) link) ->
  event_id <> EmptyString ->
  store_fault e = None ->
  exists st' row,
    create_calendar_event bot e title description start_time creator_id
                          creator_username st
    = (Ok (true, link), st')
    /\ calls st'
       = (calls st
          ++ [InsertCall (CALENDAR_ID bot)
                (calendar_body title description start_time end_time
                               creator_username)])%list
    /\ get_meeting_by_id (db st') (new_meeting_id (db st)) = Some row
    /\ m_event_id row = event_id
    /\ m_calendar_link row = link
    /\ m_start_time row = Datetime.isoformat start_time
    /\ m_end_time row = Datetime.isoformat end_time.
Proof.
  intros Hadd Hon Hsvc Hinsert Hid Hstore.
  pose proof (create_calendar_event_run bot e title description start_time
                creator_id creator_username end_time st Hadd) as Hrun.
  cbv zeta in Hrun. rewrite Hstore in Hrun.
  assert (Hremote :
            remote_attempt bot
              (calendar_body title description start_time end_time
                             creator_username)
            = (Some event_id, link)).
  { unfold remote_attempt, enabled_service. now rewrite Hon, Hsvc, Hinsert. }
  assert (Hafter :
            after_attempt bot
              (calendar_body title description start_time end_time
                             creator_username) st
            = add_call
                (InsertCall (CALENDAR_ID bot)
                   (calendar_body title description start_time end_time
                                  creator_username)) st).
  { unfold after_attempt, enabled_service. now rewrite Hon, Hsvc. }
  rewrite Hafter in Hrun. unfold written_meeting in Hrun.
  rewrite Hremote in Hrun. cbn [fst snd] in Hrun.
  eexists. eexists. split; [exact Hrun|].
  split; [reflexivity|].
  split.
  { unfold get_meeting_by_id. cbn [db set_db meetings].
    apply find_app_fresh; [apply new_meeting_id_fresh|reflexivity]. }
  cbn [m_event_id m_calendar_link m_start_time m_end_time].
  split; [|repeat split].
  unfold stored_event_id, truthy_str, str_or.
  destruct (String.eqb_spec event_id EmptyString) as [Heq|_]; [contradiction|].
  reflexivity.
Qed.

Lemma create_calendar_event_mirrors_remote_witness :
  exists st' row,
    create_calendar_event working_calendar calm "Walk" "Park" new_year_2030 7
                          "ann" empty_state
    = (Ok (true, Some "https://calendar.example/evt42"), st')
    /\ get_meeting_by_id (db st') 1 = Some row
    /\ m_event_id row = "evt42".
Proof.
  destruct (create_calendar_event_mirrors_remote working_calendar calm "Walk"
              "Park" new_year_2030 (Datetime.mk_datetime 2030 1 1 11 0 0 0)
              7 "ann" working_service "evt42"
              (Some "https://calendar.example/evt42") empty_state
              eq_refl eq_refl eq_refl eq_refl
              ltac:(discriminate) eq_refl)
    as (st' & row & Hrun & _ & Hget & Hid & _).
  exists st', row. repeat split; assumption.
Defined.

(** X2: when the write to the store fails, [create_calendar_event]
    returns [(False, None)] and stores nothing, but a calendar that is
    switched on and set up has already been asked to create the event:
    the request is not taken back, and the caller gets no link to
    it. *)
Theorem create_calendar_event_store_fault_after_request
    (bot : GirlTalkBot) (e : env) (title description : string)
    (start_time end_time : Datetime.datetime)
    (creator_id : Z) (creator_username : string)
    (service : CalendarService) (err : exn) (st : state) :
  Datetime.add start_time (Datetime.hours 1) = Ok end_time ->
  GOOGLE_CALENDAR_ON bot = true ->
  calendar_service bot = Some service ->
  store_fault e = Some err ->
  exists st',
    create_calendar_event bot e title description start_time creator_id
                          creator_username st
    = (Ok (false, None), st')
    /\ db st' = db st
    /\ calls st'
       = (calls st
          ++ [InsertCall (CALENDAR_ID bot)
                (calendar_body title description start_time end_time
                               creator_username)])%list.
Proof.
  intros Hadd Hon Hsvc Hstore.
  pose proof (create_calendar_event_run bot e title description start_time
                creator_id creator_username end_time st Hadd) as Hrun.
  cbv zeta in Hrun. rewrite Hstore in Hrun.
  unfold after_attempt, enabled_service in Hrun. rewrite Hon, Hsvc in Hrun.
  eexists. split; [exact Hrun|]. split; reflexivity.
Qed.

Lemma create_calendar_event_store_fault_after_request_witness :
  exists st',
    create_calendar_event working_calendar store_down "Walk" "Park"
                          new_year_2030 7 "ann" empty_state
    = (Ok (false, None), st')
    /\ db st' = db empty_state
    /\ calls st'
       = [InsertCall "primary"
            (calendar_body "Walk" "Park" new_year_2030
               (Datetime.mk_datetime 2030 1 1 11 0 0 0) "ann")].
Proof.
  apply (create_calendar_event_store_fault_after_request working_calendar
           store_down "Walk" "Park" new_year_2030
           (Datetime.mk_datetime 2030 1 1 11 0 0 0) 7 "ann" working_service
           OperationalError empty_state); reflexivity.
Defined.

(** X3: whatever the calendar and the store do, [create_calendar_event]
    leaves the registrations, the conversation state and the replies as
    they were, and every meeting that could be looked up before is still
    found, unchanged, under the same id. *)
Theorem create_calendar_event_keeps_existing_rows
    (bot : GirlTalkBot) (e : env) (title description : string)
    (start_time : Datetime.datetime)
    (creator_id : Z) (creator_username : string) (st : state) :
  let st' :=
    snd (create_calendar_event bot e title description start_time creator_id
                               creator_username st) in
  registrations (db st') = registrations (db st)
  /\ context_user_data st' = context_user_data st
  /\ replies st' = replies st
  /\ forall meeting_id meeting,
       get_meeting_by_id (db st) meeting_id = Some meeting ->
       get_meeting_by_id (db st') meeting_id = Some meeting.
Proof.
  cbv zeta.
  destruct (Datetime.add start_time (Datetime.hours 1))
    as [end_time|err] eqn:Hadd.
  - rewrite (create_calendar_event_run bot e title description start_time
               creator_id creator_username end_time st Hadd).
    cbv zeta. unfold after_attempt.
    destruct (store_fault e); destruct (enabled_service bot);
      cbn [snd db set_db add_call registrations context_user_data replies];
      repeat split; try (intros meeting_id meeting H; exact H);
      intros meeting_id meeting H; unfold get_meeting_by_id in *;
      cbn [meetings]; now apply find_app_some.
  - rewrite (create_calendar_event_overflow bot e title description start_time
               creator_id creator_username err st Hadd).
    cbn [snd]. repeat split. intros meeting_id meeting H. exact H.
Qed.

(* ===================================================================== *)
(** * More about deleting a meeting                                       *)
(* ===================================================================== *)

(** X4: a meeting whose event id carries the local prefix is deleted
    without any request to the calendar, even when the calendar is
    switched on and working: whoever asks and whatever the store does,
    [delete_meeting] leaves the list of calendar requests as it was. *)
Theorem delete_meeting_local_event_no_request
    (bot : GirlTalkBot) (e : env) (meeting_id creator_id : Z)
    (meeting : meeting_row) (st : state) :
  get_meeting_by_id (db st) meeting_id = Some meeting ->
  String.prefix LOCAL_PREFIX (m_event_id meeting) = true ->
  calls (snd (delete_meeting bot e meeting_id creator_id st)) = calls st.
Proof.
  intros Hget Hlocal. rewrite delete_meeting_run, Hget.
  destruct (negb (m_creator_id meeting =? creator_id)); [reflexivity|].
  cbv zeta. unfold after_remote_delete. rewrite Hlocal.
  destruct (enabled_service bot); destruct (store_fault e); reflexivity.
Qed.

Lemma delete_meeting_local_event_no_request_witness :
  calls (snd (delete_meeting working_calendar calm 1 7
                (in_database sample_database))) = [].
Proof.
  apply (delete_meeting_local_event_no_request working_calendar calm 1 7
           book_club (in_database sample_database)); reflexivity.
Defined.

(** X5: when the creator deletes a meeting that is mirrored in the
    calendar (switched on, set up, event id without the local prefix)
    and the write to the store fails, [delete_meeting] returns [False]
    and the meeting and its registrations stay in the store, although
    the calendar has been asked to delete the event. *)
Theorem delete_meeting_store_fault_after_request
    (bot : GirlTalkBot) (e : env) (meeting_id creator_id : Z)
    (meeting : meeting_row) (service : CalendarService) (err : exn)
    (st : state) :
  get_meeting_by_id (db st) meeting_id = Some meeting ->
  m_creator_id meeting = creator_id ->
  GOOGLE_CALENDAR_ON bot = true ->
  calendar_service bot = Some service ->
  String.prefix LOCAL_PREFIX (m_event_id meeting) = false ->
  store_fault e = Some err ->
  exists st',
    delete_meeting bot e meeting_id creator_id st = (Ok false, st')
    /\ db st' = db st
    /\ calls st'
       = (calls st
          ++ [DeleteCall (CALENDAR_ID bot) (m_event_id meeting)])%list.
Proof.
  intros Hget Hcreator Hon Hsvc Hremote Hstore.
  rewrite delete_meeting_run, Hget, Hcreator, Z.eqb_refl. cbn [negb].
  cbv zeta. rewrite Hstore.
  unfold after_remote_delete, enabled_service. rewrite Hon, Hsvc, Hremote.
  cbn [negb]. eexists. split; [reflexivity|]. split; reflexivity.
Qed.

Lemma delete_meeting_store_fault_after_request_witness :
  exists st',
    delete_meeting working_calendar store_down 2 7
                   (in_database sample_database)
    = (Ok false, st')
    /\ db st' = sample_database
    /\ calls st' = [DeleteCall "primary" "evt42"].
Proof.
  apply (delete_meeting_store_fault_after_request working_calendar store_down
           2 7 mirrored_meeting working_service OperationalError
           (in_database sample_database)); reflexivity.
Defined.

(** X6: [delete_meeting] touches one meeting only: whatever the outcome,
    every other meeting is found as before, with the same registrations
    and the same count; the conversation state and the replies are left
    alone. *)
Theorem delete_meeting_keeps_other_meetings
    (bot : GirlTalkBot) (e : env) (meeting_id creator_id : Z) (st : state) :
  let st' := snd (delete_meeting bot e meeting_id creator_id st) in
  context_user_data st' = context_user_data st
  /\ replies st' = replies st
  /\ forall other,
       other <> meeting_id ->
       get_meeting_by_id (db st') other = get_meeting_by_id (db st) other
       /\ get_meeting_registrations (db st') other
          = get_meeting_registrations (db st) other
       /\ get_registration_count (db st') other
          = get_registration_count (db st) other.
Proof.
  cbv zeta. rewrite delete_meeting_run.
  destruct (get_meeting_by_id (db st) meeting_id) as [meeting|];
    [|cbn [snd]; repeat split].
  destruct (negb (m_creator_id meeting =? creator_id));
    [cbn [snd]; repeat split|].
  cbv zeta.
  assert (Hframe :
            context_user_data (after_remote_delete bot (m_event_id meeting) st)
            = context_user_data st
            /\ replies (after_remote_delete bot (m_event_id meeting) st)
               = replies st).
  { unfold after_remote_delete.
    destruct (enabled_service bot); [|now split].
    destruct (negb _); now split. }
  destruct Hframe as [Hdata Hreplies].
  destruct (store_fault e); cbn [snd].
  - rewrite db_after_remote_delete. repeat split; assumption.
  - cbn [context_user_data replies set_db db].
    split; [exact Hdata|]. split; [exact Hreplies|].
    intros other Hother.
    unfold get_meeting_by_id, get_meeting_registrations,
      get_registration_count, delete_meeting_row, delete_registrations.
    cbn [meetings registrations].
    rewrite find_filter_other by exact Hother.
    rewrite filter_filter_other by exact Hother.
    repeat split.
Qed.

(** X7: creating a meeting and then deleting it (by its creator, the
    store being available both times) gives the table of meetings back
    as it was; of the registrations, only those that had been made under
    the id the new meeting received are gone. *)
Theorem create_then_delete_restores_meetings
    (bot : GirlTalkBot) (e e' : env) (title description : string)
    (start_time end_time : Datetime.datetime)
    (creator_id : Z) (creator_username : string) (st : state) :
  Datetime.add start_time (Datetime.hours 1) = Ok end_time ->
  store_fault e = None ->
  store_fault e' = None ->
  exists link st1 st2,
    create_calendar_event bot e title description start_time creator_id
                          creator_username st
    = (Ok (true, link), st1)
    /\ delete_meeting bot e' (new_meeting_id (db st)) creator_id st1
       = (Ok true, st2)
    /\ meetings (db st2) = meetings (db st)
    /\ registrations (db st2)
       = filter (fun r => negb (r_meeting_id r =? new_meeting_id (db st)))
                (registrations (db st)).
Proof.
  intros Hadd Hstore Hstore'.
  pose proof (create_calendar_event_run bot e title description start_time
                creator_id creator_username end_time st Hadd) as Hrun.
  cbv zeta in Hrun. rewrite Hstore in Hrun.
  eexists. eexists. eexists. split; [exact Hrun|].
  rewrite delete_meeting_run.
  cbn [db set_db].
  set (row := written_meeting bot e title description start_time end_time
                creator_id creator_username (db st)).
  assert (Hget :
            get_meeting_by_id
              (mk_database (meetings (db st) ++ [row]) (registrations (db st)))
              (new_meeting_id (db st)) = Some row).
  { unfold get_meeting_by_id. cbn [meetings].
    apply find_app_fresh; [apply new_meeting_id_fresh|reflexivity]. }
  rewrite Hget.
  change (m_creator_id row) with creator_id. rewrite Z.eqb_refl. cbn [negb].
  cbv zeta. rewrite Hstore'.
  split; [reflexivity|].
  cbn [db set_db delete_meeting_row delete_registrations meetings
       registrations].
  split; [|reflexivity].
  apply (filter_fresh_app (meetings (db st)) row). reflexivity.
Qed.

Lemma create_then_delete_restores_meetings_witness :
  exists link st1 st2,
    create_calendar_event working_calendar calm "Walk" "Park" new_year_2030 7
                          "ann" (in_database sample_database)
    = (Ok (true, link), st1)
    /\ delete_meeting working_calendar calm_later
         (new_meeting_id (db (in_database sample_database))) 7 st1
       = (Ok true, st2)
    /\ meetings (db st2) = meetings sample_database.
Proof.
  destruct (create_then_delete_restores_meetings working_calendar calm
              calm_later "Walk" "Park" new_year_2030
              (Datetime.mk_datetime 2030 1 1 11 0 0 0) 7 "ann"
              (in_database sample_database) eq_refl eq_refl eq_refl)
    as (link & st1 & st2 & Hcreate & Hdelete & Hmeetings & _).
  exists link, st1, st2. repeat split; assumption.
Defined.

(** X8: a meeting mirrored in the calendar is deleted there under the id
    the calendar gave it.  After a creation that the calendar answered
    with a non-empty id without the local prefix, the creator's
    [delete_meeting], the store being available, returns [True] and
    asks the same calendar to delete exactly that event: the requests
    made are the insert followed by the delete, whatever the calendar
    answers to the delete. *)
Theorem create_then_delete_remote_event
    (bot : GirlTalkBot) (e e' : env) (title description : string)
    (start_time end_time : Datetime.datetime)
    (creator_id : Z) (creator_username : string)
    (service : CalendarService) (event_id : string) (link : option string)
    (st : state) :
  Datetime.add start_time (Datetime.hours 1) = Ok end_time ->
  GOOGLE_CALENDAR_ON bot = true ->
  calendar_service bot = Some service ->
  events_insert service (CALENDAR_ID bot)
    (calendar_body title description start_time end_time creator_username)
  = Ok (mk_created_event (Some event_id) link) ->
  event_id <> EmptyString ->
  String.prefix LOCAL_PREFIX event_id = false ->
  store_fault e = None ->
  store_fault e' = None ->
  exists st1 st2,
    create_calendar_event bot e title description start_time creator_id
                          creator_username st
    = (Ok (true, link), st1)
    /\ delete_meeting bot e' (new_meeting_id (db st)) creator_id st1
       = (Ok true, st2)
    /\ calls st2
       = (calls st
          ++ [InsertCall (CALENDAR_ID bot)
                (calendar_body title description start_time end_time
                               creator_username);
              DeleteCall (CALENDAR_ID bot) event_id])%list
    /\ get_meeting_by_id (db st2) (new_meeting_id (db st)) = None.
Proof.
  intros Hadd Hon Hsvc Hinsert Hid Hremote Hstore Hstore'.
  pose proof (create_calendar_event_run bot e title description start_time
                creator_id creator_username end_time st Hadd) as Hrun.
  cbv zeta in Hrun. rewrite Hstore in Hrun.
  assert (Hattempt :
            remote_attempt bot
              (calendar_body title description start_time end_time
                             creator_username)
            = (Some event_id, link)).
  { unfold remote_attempt, enabled_service. now rewrite Hon, Hsvc, Hinsert. }
  unfold written_meeting in Hrun. rewrite Hattempt in Hrun.
  cbn [fst snd] in Hrun.
  assert (Hstored : stored_event_id e (Some event_id) = event_id).
  { unfold stored_event_id, truthy_str, str_or.
    destruct (String.eqb_spec event_id EmptyString); [contradiction|].
    reflexivity. }
  rewrite Hstored in Hrun.
  unfold after_attempt, enabled_service in Hrun. rewrite Hon, Hsvc in Hrun.
  eexists. eexists. split; [exact Hrun|].
  rewrite delete_meeting_run. cbn [db set_db add_call].
  match goal with
  | |- context [mk_database (_ ++ [?r]) _] =>
      assert (Hget :
                get_meeting_by_id
                  (mk_database (meetings (db st) ++ [r])
                               (registrations (db st)))
                  (new_meeting_id (db st)) = Some r)
        by (unfold get_meeting_by_id; cbn [meetings];
            apply find_app_fresh;
            [apply new_meeting_id_fresh|reflexivity])
  end.
  rewrite Hget. cbn [m_creator_id m_event_id].
  rewrite Z.eqb_refl. cbn [negb]. cbv zeta.
  unfold after_remote_delete, enabled_service.
  rewrite Hon, Hsvc, Hremote, Hstore'. cbn [negb].
  split; [reflexivity|].
  cbn [calls add_call set_db db]. split; [now rewrite <- app_assoc|].
  unfold get_meeting_by_id, delete_meeting_row. cbn [meetings].
  apply find_filter_none.
Qed.

Lemma create_then_delete_remote_event_witness :
  exists st1 st2,
    create_calendar_event working_calendar calm "Walk" "Park" new_year_2030 7
                          "ann" empty_state
    = (Ok (true, Some "https://calendar.example/evt42"), st1)
    /\ delete_meeting working_calendar calm_later 1 7 st1 = (Ok true, st2)
    /\ calls st2
       = [InsertCall "primary"
            (calendar_body "Walk" "Park" new_year_2030
               (Datetime.mk_datetime 2030 1 1 11 0 0 0) "ann");
          DeleteCall "primary" "evt42"]
    /\ get_meeting_by_id (db st2) 1 = None.
Proof.
  apply (create_then_delete_remote_event working_calendar calm calm_later
           "Walk" "Park" new_year_2030
           (Datetime.mk_datetime 2030 1 1 11 0 0 0) 7 "ann" working_service
           "evt42" (Some "https://calendar.example/evt42") empty_state);
    try reflexivity.
  discriminate.
Defined.

(* ===================================================================== *)
(** * More about registrations                                            *)
(* ===================================================================== *)

(** X9: [register_user_for_meeting] only ever adds one row: whatever
    the outcome, the meetings, the calendar requests, the conversation
    state and the replies are as before, every registration that was
    stored is still there, and the registrations and the count of every
    other meeting are unchanged. *)
Theorem register_user_for_meeting_keeps_other_rows
    (e : env) (meeting_id user_id : Z) (username : string) (st : state) :
  let st' := snd (register_user_for_meeting e meeting_id user_id username st) in
  meetings (db st') = meetings (db st)
  /\ calls st' = calls st
  /\ context_user_data st' = context_user_data st
  /\ replies st' = replies st
  /\ (forall row, In row (registrations (db st)) ->
                  In row (registrations (db st')))
  /\ forall other,
       other <> meeting_id ->
       get_meeting_registrations (db st') other
       = get_meeting_registrations (db st) other
       /\ get_registration_count (db st') other
          = get_registration_count (db st) other.
Proof.
  cbv zeta. rewrite register_user_for_meeting_run.
  destruct (store_fault e); [cbn [snd]; repeat split; trivial|].
  destruct (is_registered (db st) meeting_id user_id);
    [cbn [snd]; repeat split; trivial|].
  cbn [snd db set_db meetings registrations calls context_user_data replies].
  repeat split; trivial.
  - intros row Hrow. apply in_or_app. now left.
  - unfold get_meeting_registrations. cbn [registrations].
    rewrite filter_app. cbn [filter r_meeting_id].
    destruct (Z.eqb_spec meeting_id other) as [Heq|_]; [congruence|].
    now rewrite app_nil_r.
  - unfold get_registration_count. cbn [registrations].
    rewrite filter_app. cbn [filter r_meeting_id].
    destruct (Z.eqb_spec meeting_id other) as [Heq|_]; [congruence|].
    now rewrite app_nil_r.
Qed.

(** X10: a registration that succeeded can be read back: the list of
    the meeting's registrations then holds a row with the user's id, the
    username that was passed and the store's timestamp, and
    [is_registered] holds for the pair. *)
Theorem register_then_get_meeting_registrations
    (e : env) (meeting_id user_id : Z) (username : string) (st st' : state) :
  register_user_for_meeting e meeting_id user_id username st = (Ok true, st') ->
  is_registered (db st') meeting_id user_id = true
  /\ exists row,
       In row (get_meeting_registrations (db st') meeting_id)
       /\ r_meeting_id row = meeting_id
       /\ r_user_id row = user_id
       /\ r_username row = username
       /\ r_registered_at row = store_timestamp e
       /\ ~ In (r_id row) (map r_id (registrations (db st))).
Proof.
  rewrite register_user_for_meeting_run.
  destruct (store_fault e); [discriminate|].
  destruct (is_registered (db st) meeting_id user_id); [discriminate|].
  intros Hrun. injection Hrun as <-.
  cbn [db set_db].
  set (row := mk_registration (next_rowid (map r_id (registrations (db st))))
                meeting_id user_id username (store_timestamp e)).
  split; [apply (is_registered_after_insert (db st) row)|].
  exists row. split.
  - unfold get_meeting_registrations.
    apply (Permutation_in _ (Permutation_sym (order_by_perm _ _))).
    apply filter_In. cbn [registrations]. split.
    + apply in_or_app. right. now left.
    + apply Z.eqb_refl.
  - repeat split. apply next_rowid_not_in.
Qed.

Lemma register_then_get_meeting_registrations_witness :
  is_registered
    (db (snd (register_user_for_meeting calm 2 8 "bea"
                (in_database sample_database)))) 2 8 = true.
Proof.
  destruct (register_then_get_meeting_registrations calm 2 8 "bea"
              (in_database sample_database)
              (snd (register_user_for_meeting calm 2 8 "bea"
                      (in_database sample_database))) eq_refl)
    as [Hreg _].
  exact Hreg.
Defined.

(** X11: the two ways in which the program counts the registrations of
    a meeting agree: [get_registration_count], shown by the lists and the
    buttons, is the length of [get_meeting_registrations], shown by the
    statistics; that list holds exactly the registrations of the meeting,
    ordered by the time of registration. *)
Theorem get_meeting_registrations_spec (d : database) (meeting_id : Z) :
  Permutation (get_meeting_registrations d meeting_id)
              (registrations_of d meeting_id)
  /\ sorted_by r_registered_at (get_meeting_registrations d meeting_id)
  /\ (forall row,
        In row (get_meeting_registrations d meeting_id)
        <-> In row (registrations d) /\ r_meeting_id row = meeting_id)
  /\ get_registration_count d meeting_id
     = Z.of_nat (List.length (get_meeting_registrations d meeting_id)).
Proof.
  unfold get_meeting_registrations, registrations_of, get_registration_count.
  split; [apply order_by_perm|].
  split; [apply order_by_sorted|].
  split.
  - intros row. split.
    + intros Hin. apply (Permutation_in _ (order_by_perm _ _)) in Hin.
      apply filter_In in Hin. destruct Hin as [Hin Hid].
      split; [exact Hin|now apply Z.eqb_eq].
    + intros [Hin Hid].
      apply (Permutation_in _ (Permutation_sym (order_by_perm _ _))).
      apply filter_In. split; [exact Hin|now apply Z.eqb_eq].
  - f_equal. symmetry. apply Permutation_length, order_by_perm.
Qed.

(** X12: [get_user_meetings] returns exactly the meetings whose creator
    is the user, past ones included, ordered by start time (compared
    as text). *)
Theorem get_user_meetings_spec (d : database) (user_id : Z) :
  Permutation (get_user_meetings d user_id)
              (filter (fun m => m_creator_id m =? user_id) (meetings d))
  /\ sorted_by m_start_time (get_user_meetings d user_id)
  /\ forall m,
       In m (get_user_meetings d user_id)
       <-> In m (meetings d) /\ m_creator_id m = user_id.
Proof.
  unfold get_user_meetings.
  split; [apply order_by_perm|].
  split; [apply order_by_sorted|].
  intros m. split.
  - intros Hin. apply (Permutation_in _ (order_by_perm _ _)) in Hin.
    apply filter_In in Hin. destruct Hin as [Hin Hid].
    split; [exact Hin|now apply Z.eqb_eq].
  - intros [Hin Hid].
    apply (Permutation_in _ (Permutation_sym (order_by_perm _ _))).
    apply filter_In. split; [exact Hin|now apply Z.eqb_eq].
Qed.

(** X13: for a meeting whose stored start is the ISO text of a valid
    datetime, and a valid clock reading, [get_upcoming_meetings] lists
    the meeting exactly when it starts strictly after now: a meeting
    that starts at this very moment is not upcoming. *)
Theorem get_upcoming_meetings_strictly_later
    (e : env) (d : database) (m : meeting_row) (t : Datetime.datetime) :
  Datetime.datetime_ok (clock_now e) = true ->
  Datetime.datetime_ok t = true ->
  m_start_time m = Datetime.isoformat t ->
  (In m (get_upcoming_meetings e d)
   <-> In m (meetings d) /\ Datetime.ltb (clock_now e) t = true)
  /\ (t = clock_now e -> ~ In m (get_upcoming_meetings e d)).
Proof.
  intros Hnow Ht Hstart.
  assert (Hiff : In m (get_upcoming_meetings e d)
                 <-> In m (meetings d) /\ Datetime.ltb (clock_now e) t = true).
  { unfold get_upcoming_meetings. split.
    - intros Hin. apply (Permutation_in _ (order_by_perm _ _)) in Hin.
      apply filter_In in Hin. destruct Hin as [Hin Hlater].
      split; [exact Hin|].
      rewrite Hstart in Hlater. now rewrite isoformat_ltb in Hlater.
    - intros [Hin Hlater].
      apply (Permutation_in _ (Permutation_sym (order_by_perm _ _))).
      apply filter_In. split; [exact Hin|].
      rewrite Hstart. now rewrite isoformat_ltb. }
  split; [exact Hiff|].
  intros -> Hin. apply Hiff in Hin. destruct Hin as [_ Hlt].
  apply ltb_not_leb in Hlt.
  unfold Datetime.leb, Datetime.cmp in Hlt.
  rewrite !Z.compare_refl in Hlt. discriminate.
Qed.

Lemma get_upcoming_meetings_strictly_later_witness :
  In book_club (get_upcoming_meetings calm sample_database)
  <-> In book_club (meetings sample_database)
      /\ Datetime.ltb (clock_now calm) new_year_2030 = true.
Proof.
  destruct (get_upcoming_meetings_strictly_later calm sample_database
              book_club new_year_2030 eq_refl eq_refl eq_refl) as [Hiff _].
  exact Hiff.
Defined.

(* ===================================================================== *)
(** * What the store always satisfies                                     *)
(* ===================================================================== *)

Section StoreInvariant.

Lemma store_ok_insert_meeting (d : database) (row : meeting_row) :
  m_id row = new_meeting_id d ->
  store_ok d ->
  store_ok (mk_database (meetings d ++ [row]) (registrations d)).
Proof.
  intros Hid (Hm & Hr & Hp). unfold store_ok. cbn [meetings registrations].
  split; [|now split].
  rewrite map_app. cbn [map]. apply NoDup_snoc; [exact Hm|].
  rewrite Hid. apply next_rowid_not_in.
Qed.

Lemma store_ok_insert_registration (d : database) (row : registration_row) :
  r_id row = next_rowid (map r_id (registrations d)) ->
  is_registered d (r_meeting_id row) (r_user_id row) = false ->
  store_ok d ->
  store_ok (mk_database (meetings d) (registrations d ++ [row])).
Proof.
  intros Hid Hnew (Hm & Hr & Hp). unfold store_ok.
  cbn [meetings registrations].
  split; [exact Hm|]. rewrite !map_app. cbn [map]. split.
  - apply NoDup_snoc; [exact Hr|]. rewrite Hid. apply next_rowid_not_in.
  - apply NoDup_snoc; [exact Hp|]. now apply is_registered_false.
Qed.

Lemma store_ok_delete (d : database) (meeting_id : Z) :
  store_ok d ->
  store_ok (delete_meeting_row meeting_id (delete_registrations meeting_id d)).
Proof.
  intros (Hm & Hr & Hp).
  unfold store_ok, delete_meeting_row, delete_registrations.
  cbn [meetings registrations].
  split; [now apply NoDup_map_filter|].
  split; now apply NoDup_map_filter.
Qed.

End StoreInvariant.

(** X14: the three operations that write to the store keep it
    consistent: if no two meetings share an id, no two registrations
    share an id and no user is registered twice for a meeting, the same
    holds after [create_calendar_event], after
    [register_user_for_meeting] and after [delete_meeting], whatever
    their arguments and outcome. *)
Theorem store_ok_preserved
    (bot : GirlTalkBot) (e : env) (title description : string)
    (start_time : Datetime.datetime) (creator_id : Z)
    (creator_username username : string) (meeting_id user_id : Z)
    (st : state) :
  store_ok (db st) ->
  store_ok (db (snd (create_calendar_event bot e title description start_time
                       creator_id creator_username st)))
  /\ store_ok (db (snd (register_user_for_meeting e meeting_id user_id
                          username st)))
  /\ store_ok (db (snd (delete_meeting bot e meeting_id creator_id st))).
Proof.
  intros Hok. split; [|split].
  - destruct (Datetime.add start_time (Datetime.hours 1))
      as [end_time|err] eqn:Hadd.
    + rewrite (create_calendar_event_run bot e title description start_time
                 creator_id creator_username end_time st Hadd).
      cbv zeta. destruct (store_fault e); cbn [snd].
      * now rewrite db_after_attempt.
      * cbn [db set_db]. now apply store_ok_insert_meeting.
    + now rewrite (create_calendar_event_overflow bot e title description
                     start_time creator_id creator_username err st Hadd).
  - rewrite register_user_for_meeting_run.
    destruct (store_fault e); [exact Hok|].
    destruct (is_registered (db st) meeting_id user_id) eqn:Hreg;
      [exact Hok|].
    cbn [snd db set_db]. now apply store_ok_insert_registration.
  - rewrite delete_meeting_run.
    destruct (get_meeting_by_id (db st) meeting_id) as [meeting|];
      [|exact Hok].
    destruct (negb (m_creator_id meeting =? creator_id)); [exact Hok|].
    cbv zeta. destruct (store_fault e); cbn [snd].
    + now rewrite db_after_remote_delete.
    + cbn [db set_db]. now apply store_ok_delete.
Qed.

Lemma sample_database_ok : store_ok sample_database.
Proof.
  unfold store_ok. cbn.
  repeat split;
    repeat (constructor; [cbn; intuition (try discriminate; try lia;
                                          try congruence)|]);
    constructor.
Qed.

Lemma store_ok_preserved_witness :
  store_ok (db (snd (register_user_for_meeting calm 2 8 "bea"
                       (in_database sample_database)))).
Proof.
  destruct (store_ok_preserved working_calendar calm "Walk" "Park"
              new_year_2030 7 "ann" "bea" 2 8 (in_database sample_database)
              sample_database_ok) as (_ & Hreg & _).
  exact Hreg.
Defined.

(* ===================================================================== *)
(** * More about the creation dialogue                                    *)
(* ===================================================================== *)

Section MoreDialogue.

Variables (bot : GirlTalkBot) (e : env) (update : Update).

(** A step that is none of the three: the input is ignored. *)
Lemma handle_other_step (st : state) :
  truthy_bool (creating_meeting (context_user_data st)) = true ->
  step_is (meeting_step (context_user_data st)) "title" = false ->
  step_is (meeting_step (context_user_data st)) "description" = false ->
  step_is (meeting_step (context_user_data st)) "datetime" = false ->
  handle_meeting_creation bot e update st = (Ok tt, st).
Proof.
  intros Hflow H1 H2 H3.
  unfold handle_meeting_creation, bind, gets. cbv beta iota.
  rewrite Hflow. cbv beta iota. cbn [negb].
  now rewrite H1, H2, H3.
Qed.

End MoreDialogue.

Lemma strptime_raises_value_error (s : string) (err : exn) :
  Strptime.strptime s = Raise err -> err = ValueError.
Proof.
  unfold Strptime.strptime, Datetime.new_datetime.
  destruct (Strptime.format_regex s) as [|[[[[[y m] d] hh] mm] rest] l];
    [congruence|].
  destruct rest; [|congruence].
  destruct (Datetime.datetime_ok _); congruence.
Qed.

(** What [strptime] returns is a datetime the constructor accepts, on a
    whole minute. *)
Lemma strptime_whole_minute (s : string) (t : Datetime.datetime) :
  Strptime.strptime s = Ok t ->
  Datetime.datetime_ok t = true
  /\ Datetime.second t = 0 /\ Datetime.microsecond t = 0.
Proof.
  unfold Strptime.strptime, Datetime.new_datetime.
  destruct (Strptime.format_regex s) as [|[[[[[y m] d] hh] mm] rest] l];
    [discriminate|].
  destruct rest; [|discriminate].
  destruct (Datetime.datetime_ok _) eqn:Hok; [|discriminate].
  intros H. injection H as <-. repeat split. exact Hok.
Qed.

Lemma leb_false_ltb (a b : Datetime.datetime) :
  Datetime.leb a b = false -> Datetime.ltb b a = true.
Proof.
  unfold Datetime.ltb, Datetime.leb. rewrite (cmp_antisym b a).
  now destruct (Datetime.cmp a b).
Qed.

Lemma step_is_true (step : option string) (name : string) :
  step_is step name = true -> step = Some name.
Proof.
  destruct step as [s|]; [|discriminate]. cbn.
  intros H. apply String.eqb_eq in H. now subst.
Qed.

Lemma draft_ok_datetime (u : user_data) :
  draft_ok u = true ->
  meeting_step u = Some "datetime" ->
  exists title description,
    meeting_title u = Some title /\ meeting_description u = Some description.
Proof.
  unfold draft_ok. intros Hok Hstep. rewrite Hstep in Hok.
  cbn in Hok.
  destruct (meeting_title u) as [title|]; [|discriminate].
  destruct (meeting_description u) as [description|]; [|discriminate].
  eauto.
Qed.

Lemma draft_ok_description (u : user_data) :
  draft_ok u = true ->
  meeting_step u = Some "description" ->
  exists title, meeting_title u = Some title.
Proof.
  unfold draft_ok. intros Hok Hstep. rewrite Hstep in Hok.
  cbn in Hok.
  destruct (meeting_title u) as [title|]; [|discriminate].
  eauto.
Qed.

(** One text message, from a conversation state that is in order. *)
Lemma handle_meeting_creation_draft_ok
    (bot : GirlTalkBot) (e : env) (update : Update) (st : state) :
  draft_ok (context_user_data st) = true ->
  exists st',
    handle_meeting_creation bot e update st = (Ok tt, st')
    /\ draft_ok (context_user_data st') = true.
Proof.
  intros Hok.
  destruct (truthy_bool (creating_meeting (context_user_data st))) eqn:Hflow.
  2:{ rewrite handle_ignored by exact Hflow. eauto. }
  destruct (step_is (meeting_step (context_user_data st)) "title") eqn:H1.
  { apply step_is_true in H1.
    rewrite handle_title by assumption. eexists. split; [reflexivity|].
    reflexivity. }
  destruct (step_is (meeting_step (context_user_data st)) "description")
    eqn:H2.
  { apply step_is_true in H2.
    destruct (draft_ok_description _ Hok H2) as (title & Htitle).
    rewrite handle_description by assumption.
    eexists. split; [reflexivity|].
    unfold draft_ok.
    cbn [context_user_data add_reply set_user_data set_meeting_step
         set_meeting_description meeting_step meeting_title
         meeting_description].
    rewrite Htitle. reflexivity. }
  destruct (step_is (meeting_step (context_user_data st)) "datetime") eqn:H3.
  2:{ rewrite handle_other_step by assumption. eauto. }
  apply step_is_true in H3.
  destruct (Strptime.strptime (message_text update)) as [t|err] eqn:Hparse.
  2:{ pose proof (strptime_raises_value_error _ _ Hparse) as ->.
      rewrite handle_datetime_invalid by assumption. eauto. }
  destruct (Datetime.leb t (clock_now e)) eqn:Hcmp.
  { rewrite (handle_datetime_past bot e update st t) by assumption. eauto. }
  destruct (draft_ok_datetime _ Hok H3)
    as (title & description & Htitle & Hdescr).
  destruct (create_calendar_event_returns bot e title description t
              (effective_user_id update)
              (str_or (effective_user_username update) "Unknown") st)
    as (success & link & stc & Hcreate & Hsame & _).
  rewrite (handle_datetime_future bot e update st stc t title description
             success link) by assumption.
  eexists. split; reflexivity.
Qed.

Lemma run_dialogue_draft_ok
    (bot : GirlTalkBot) (events : list dialogue_event) (st : state) :
  draft_ok (context_user_data st) = true ->
  exists st',
    run_dialogue bot events st = (Ok tt, st')
    /\ draft_ok (context_user_data st') = true.
Proof.
  revert st. induction events as [|ev events IH]; intros st Hok.
  - exists st. split; [reflexivity|exact Hok].
  - cbn [run_dialogue]. unfold bind.
    destruct ev as [update|e update]; cbn [handle_event].
    + unfold create_meeting_command, bind, reply_text, update_user_data,
        modify. cbv beta iota.
      apply IH. reflexivity.
    + destruct (handle_meeting_creation_draft_ok bot e update st Hok)
        as (st1 & Hrun & Hok1).
      rewrite Hrun. now apply IH.
Qed.

(** X15: the creation dialogue never misses its own keys.  Starting
    from a conversation state in which the draft holds what the current
    step needs (as the empty state does), no sequence of
    [/create_meeting] commands and text messages ends in the [KeyError]
    of [context.user_data['meeting_title']] or
    [context.user_data['meeting_description']], whatever the texts, the
    clock, the calendar and the store do, and the conversation state it
    leaves holds again what its step needs. *)
Theorem run_dialogue_no_key_error
    (bot : GirlTalkBot) (events : list dialogue_event) (st : state) :
  draft_ok (context_user_data st) = true ->
  fst (run_dialogue bot events st) <> Raise KeyError
  /\ draft_ok (context_user_data (snd (run_dialogue bot events st))) = true.
Proof.
  intros Hok.
  destruct (run_dialogue_draft_ok bot events st Hok) as (st' & Hrun & Hok').
  rewrite Hrun. split; [discriminate|exact Hok'].
Qed.

Lemma run_dialogue_no_key_error_witness :
  fst (run_dialogue broken_calendar
         [TextMessage calm (text_from 7 "hello");
          CreateMeeting (text_from 7 "/create_meeting");
          TextMessage calm (text_from 7 "Book Club");
          CreateMeeting (text_from 7 "/create_meeting");
          TextMessage calm (text_from 7 "Book Club");
          TextMessage calm (text_from 7 "Discuss chapter 5");
          TextMessage calm (text_from 7 "tomorrow");
          TextMessage store_down (text_from 7 "2030-01-01 10:00");
          TextMessage calm (text_from 7 "2030-01-01 10:00")]
         empty_state)
  <> Raise KeyError.
Proof.
  destruct (run_dialogue_no_key_error broken_calendar
              [TextMessage calm (text_from 7 "hello");
               CreateMeeting (text_from 7 "/create_meeting");
               TextMessage calm (text_from 7 "Book Club");
               CreateMeeting (text_from 7 "/create_meeting");
               TextMessage calm (text_from 7 "Book Club");
               TextMessage calm (text_from 7 "Discuss chapter 5");
               TextMessage calm (text_from 7 "tomorrow");
               TextMessage store_down (text_from 7 "2030-01-01 10:00");
               TextMessage calm (text_from 7 "2030-01-01 10:00")]
              empty_state eq_refl) as [Hrun _].
  exact Hrun.
Defined.

(** X16: an ASCII text reaches the store and the calendar only as a
    date that lies ahead: unless the user is in the creation flow at the
    step [datetime] and the text parses to a time strictly after the
    clock, [handle_meeting_creation] leaves the store and the list of
    calendar requests as they were. *)
Theorem handle_meeting_creation_writes_only_future
    (bot : GirlTalkBot) (e : env) (update : Update) (st : state) :
  Python.isascii (message_text update) = true ->
  let st' := snd (handle_meeting_creation bot e update st) in
  (db st' = db st /\ calls st' = calls st)
  \/ exists t,
       truthy_bool (creating_meeting (context_user_data st)) = true
       /\ meeting_step (context_user_data st) = Some "datetime"
       /\ Strptime.strptime (message_text update) = Ok t
       /\ Datetime.ltb (clock_now e) t = true.
Proof.
  intros _. cbv zeta.
  destruct (truthy_bool (creating_meeting (context_user_data st))) eqn:Hflow.
  2:{ rewrite handle_ignored by exact Hflow. left. now split. }
  destruct (step_is (meeting_step (context_user_data st)) "title") eqn:H1.
  { apply step_is_true in H1.
    rewrite handle_title by assumption. left. now split. }
  destruct (step_is (meeting_step (context_user_data st)) "description")
    eqn:H2.
  { apply step_is_true in H2.
    rewrite handle_description by assumption. left. now split. }
  destruct (step_is (meeting_step (context_user_data st)) "datetime") eqn:H3.
  2:{ rewrite handle_other_step by assumption. left. now split. }
  apply step_is_true in H3.
  destruct (Strptime.strptime (message_text update)) as [t|err] eqn:Hparse.
  2:{ pose proof (strptime_raises_value_error _ _ Hparse) as ->.
      rewrite handle_datetime_invalid by assumption. left. now split. }
  destruct (Datetime.leb t (clock_now e)) eqn:Hcmp.
  { rewrite (handle_datetime_past bot e update st t) by assumption.
    left. now split. }
  right. exists t. repeat split; try assumption. now apply leb_false_ltb.
Qed.

Lemma handle_meeting_creation_writes_only_future_witness :
  db (snd (handle_meeting_creation working_calendar calm
             (text_from 7 "2020-01-01 10:00")
             (mk_state sample_database []
                (draft (Some "datetime") (Some "Book Club")
                       (Some "Discuss chapter 5")) [])))
  = sample_database.
Proof.
  destruct (handle_meeting_creation_writes_only_future working_calendar calm
              (text_from 7 "2020-01-01 10:00")
              (mk_state sample_database []
                 (draft (Some "datetime") (Some "Book Club")
                        (Some "Discuss chapter 5")) [])
              eq_refl)
    as [[Hdb _]|(t & _ & _ & Hparse & Hlater)].
  - exact Hdb.
  - reflexivity.
Defined.

(** X17: a meeting created through the dialogue is stored and listed at
    once.  When the text at the step [datetime] parses to a time after
    a valid clock reading, the end time exists and the store is
    available, the store that [handle_meeting_creation] leaves holds the
    new meeting, and [get_upcoming_meetings], read at the same clock,
    lists it: a row with the draft's title and description, the sender
    as creator, the ISO text of the parsed time, a whole minute, as
    start, and the ISO text of the time one hour later as end. *)
Theorem created_meeting_is_upcoming
    (bot : GirlTalkBot) (e : env) (update : Update) (st : state)
    (title description : string) (t end_time : Datetime.datetime) :
  truthy_bool (creating_meeting (context_user_data st)) = true ->
  meeting_step (context_user_data st) = Some "datetime" ->
  meeting_title (context_user_data st) = Some title ->
  meeting_description (context_user_data st) = Some description ->
  Strptime.strptime (message_text update) = Ok t ->
  Datetime.leb t (clock_now e) = false ->
  Datetime.datetime_ok (clock_now e) = true ->
  Datetime.add t (Datetime.hours 1) = Ok end_time ->
  store_fault e = None ->
  exists row,
    In row
       (get_upcoming_meetings e
          (db (snd (handle_meeting_creation bot e update st))))
    /\ get_meeting_by_id
         (db (snd (handle_meeting_creation bot e update st)))
         (new_meeting_id (db st))
       = Some row
    /\ m_creator_id row = effective_user_id update
    /\ m_title row = title
    /\ m_description row = description
    /\ m_start_time row = Datetime.isoformat t
    /\ m_end_time row = Datetime.isoformat end_time
    /\ Datetime.second t = 0 /\ Datetime.microsecond t = 0.
Proof.
  intros Hflow Hstep Htitle Hdescr Hparse Hfuture Hnow Hadd Hstore.
  destruct (strptime_whole_minute _ _ Hparse) as (Hvalid & Hsec & Hmicro).
  pose proof (create_calendar_event_run bot e title description t
                (effective_user_id update)
                (str_or (effective_user_username update) "Unknown")
                end_time st Hadd) as Hrun.
  cbv zeta in Hrun. rewrite Hstore in Hrun.
  assert (Hsame :
            context_user_data
              (after_attempt bot
                 (calendar_body title description t end_time
                    (str_or (effective_user_username update) "Unknown")) st)
            = context_user_data st).
  { unfold after_attempt. now destruct (enabled_service bot). }
  rewrite (handle_datetime_future bot e update st _ t title description
             true _ Hflow Hstep Htitle Hdescr Hparse Hfuture Hrun Hsame).
  cbn [snd db set_db].
  eexists. split.
  { unfold get_upcoming_meetings.
    apply (Permutation_in _ (Permutation_sym (order_by_perm _ _))).
    apply filter_In. cbn [meetings]. split.
    - apply in_or_app. right. left. reflexivity.
    - unfold written_meeting. cbn [m_start_time].
      rewrite isoformat_ltb by assumption. now apply leb_false_ltb. }
  split.
  { unfold get_meeting_by_id. cbn [meetings].
    apply find_app_fresh; [apply new_meeting_id_fresh|reflexivity]. }
  repeat split; assumption.
Qed.

Lemma created_meeting_is_upcoming_witness :
  exists row,
    In row
       (get_upcoming_meetings calm
          (db (snd (handle_meeting_creation broken_calendar calm
                      (text_from 7 "2030-01-01 10:00")
                      (mk_state sample_database []
                         (draft (Some "datetime") (Some "Book Club")
                                (Some "Discuss chapter 5")) [])))))
    /\ m_title row = "Book Club"
    /\ m_start_time row = "2030-01-01T10:00:00".
Proof.
  destruct (created_meeting_is_upcoming broken_calendar calm
              (text_from 7 "2030-01-01 10:00")
              (mk_state sample_database []
                 (draft (Some "datetime") (Some "Book Club")
                        (Some "Discuss chapter 5")) [])
              "Book Club" "Discuss chapter 5" new_year_2030
              (Datetime.mk_datetime 2030 1 1 11 0 0 0)
              eq_refl eq_refl eq_refl eq_refl eq_refl eq_refl eq_refl eq_refl
              eq_refl)
    as (row & Hin & _ & _ & Htitle & _ & Hstart & _).
  exists row. split; [exact Hin|]. split; [exact Htitle|exact Hstart].
Defined.

(* ===================================================================== *)
(** * Texts that [strptime] accepts                                       *)
(* ===================================================================== *)

Section Canonical.
Import Strptime.

Lemma first_match_bind {A B} (p : parser A) (f : A -> parser B)
    (s : string) (a : A) (r : string) (b : B) (r' : string) :
  first_match p s a r -> first_match (f a) r b r' ->
  first_match (bind p f) s b r'.
Proof.
  intros [o1 H1] [o2 H2]. unfold first_match, bind. rewrite H1.
  cbn [flat_map]. rewrite H2. cbn [app]. eexists. reflexivity.
Qed.

Lemma first_match_ret {A} (a : A) (s : string) : first_match (ret a) s a s.
Proof. exists []. reflexivity. Qed.

Lemma first_match_lit (c : ascii) (s : string) :
  first_match (lit c) (String c s) 0 s.
Proof. exists []. cbn. now rewrite Ascii.eqb_refl. Qed.

Lemma zfill_2 (n : Z) (s : string) :
  Datetime.zfill 2 n +:+ s
  = String (Datetime.digit_char (n / 10 mod 10))
      (String (Datetime.digit_char (n mod 10)) s).
Proof. reflexivity. Qed.

Lemma zfill_4 (n : Z) (s : string) :
  Datetime.zfill 4 n +:+ s
  = String (Datetime.digit_char (n / 10 / 10 / 10 mod 10))
      (String (Datetime.digit_char (n / 10 / 10 mod 10))
         (String (Datetime.digit_char (n / 10 mod 10))
            (String (Datetime.digit_char (n mod 10)) s))).
Proof. reflexivity. Qed.

Lemma first_match_digit (a : Z) (s : string) :
  0 <= a <= 9 ->
  first_match digit (String (Datetime.digit_char a) s) a s.
Proof.
  intros Ha. exists []. small_Z a; reflexivity.
Qed.

Lemma first_match_Y (y : Z) (s : string) :
  0 <= y <= 9999 ->
  first_match group_Y (Datetime.zfill 4 y +:+ s) y s.
Proof.
  intros Hy. rewrite zfill_4. unfold group_Y.
  eapply first_match_bind;
    [apply first_match_digit; Z.div_mod_to_equations; lia|].
  eapply first_match_bind;
    [apply first_match_digit; Z.div_mod_to_equations; lia|].
  eapply first_match_bind;
    [apply first_match_digit; Z.div_mod_to_equations; lia|].
  eapply first_match_bind;
    [apply first_match_digit; Z.div_mod_to_equations; lia|].
  replace y with
    (1000 * (y / 10 / 10 / 10 mod 10) + 100 * (y / 10 / 10 mod 10)
     + 10 * (y / 10 mod 10) + y mod 10) at 5
    by (Z.div_mod_to_equations; lia).
  apply first_match_ret.
Qed.

Lemma first_match_m (m : Z) (s : string) :
  1 <= m <= 12 ->
  first_match group_m (Datetime.zfill 2 m +:+ s) m s.
Proof.
  intros Hm. small_Z m; eexists; reflexivity.
Qed.

Lemma first_match_d (d : Z) (s : string) :
  1 <= d <= 31 ->
  first_match group_d (Datetime.zfill 2 d +:+ s) d s.
Proof.
  intros Hd. small_Z d; eexists; reflexivity.
Qed.

Lemma first_match_H (hh : Z) (s : string) :
  0 <= hh <= 23 ->
  first_match group_H (Datetime.zfill 2 hh +:+ s) hh s.
Proof.
  intros Hh. small_Z hh; eexists; reflexivity.
Qed.

Lemma first_match_M (mm : Z) (s : string) :
  0 <= mm <= 59 ->
  first_match group_M (Datetime.zfill 2 mm +:+ s) mm s.
Proof.
  intros Hm. small_Z mm; eexists; reflexivity.
Qed.

Lemma first_match_spaces1 (c : ascii) (s : string) :
  is_space c = false ->
  first_match spaces1 (String " " (String c s)) 0 (String c s).
Proof.
  intros Hc. exists []. cbn [spaces1 spaces].
  change (is_space " ") with true. cbv beta iota. now rewrite Hc.
Qed.

Lemma digit_char_not_space (a : Z) :
  0 <= a <= 9 -> is_space (Datetime.digit_char a) = false.
Proof. intros Ha. small_Z a; reflexivity. Qed.

Lemma days_in_month_le_31 (y m : Z) : Datetime._days_in_month y m <= 31.
Proof.
  unfold Datetime._days_in_month, Datetime._DAYS_IN_MONTH.
  destruct ((m =? 2) && Datetime._is_leap y); [lia|].
  destruct m as [|p|p]; try lia.
  repeat (match goal with
          | |- context [match ?q with _ => _ end] => destruct q
          end; try lia).
Qed.

Lemma format_regex_canonical (t : Datetime.datetime) :
  Datetime.datetime_ok t = true ->
  first_match format_regex (canonical_text t)
    (Datetime.year t, Datetime.month t, Datetime.day t, Datetime.hour t,
     Datetime.minute t) EmptyString.
Proof.
  intros Hok.
  pose proof (days_in_month_le_31 (Datetime.year t) (Datetime.month t)) as Hb.
  unfold Datetime.datetime_ok, Datetime.MINYEAR, Datetime.MAXYEAR in Hok.
  rewrite !andb_true_iff, !Z.leb_le in Hok.
  unfold canonical_text, format_regex.
  eapply first_match_bind; [apply first_match_Y; lia|].
  cbn [String.append].
  eapply first_match_bind; [apply first_match_lit|].
  eapply first_match_bind; [apply first_match_m; lia|].
  cbn [String.append].
  eapply first_match_bind; [apply first_match_lit|].
  eapply first_match_bind; [apply first_match_d; lia|].
  cbn [String.append].
  rewrite zfill_2.
  eapply first_match_bind;
    [apply first_match_spaces1, digit_char_not_space;
     Z.div_mod_to_equations; lia|].
  rewrite <- zfill_2.
  eapply first_match_bind; [apply first_match_H; lia|].
  cbn [String.append].
  eapply first_match_bind; [apply first_match_lit|].
  change (Datetime.zfill 2 (Datetime.minute t))
    with (Datetime.zfill 2 (Datetime.minute t) +:+ EmptyString).
  eapply first_match_bind; [apply first_match_M; lia|].
  apply first_match_ret.
Qed.

End Canonical.

(** X18: the dialogue accepts every moment it can store.  For every
    datetime that the constructor accepts and that lies on a whole
    minute, the text [YYYY-MM-DD HH:MM] with zero-padded fields, the
    format the dialogue asks for, is parsed by [strptime] back to that
    very datetime. *)
Theorem strptime_canonical_text (t : Datetime.datetime) :
  Datetime.datetime_ok t = true ->
  Datetime.second t = 0 ->
  Datetime.microsecond t = 0 ->
  Strptime.strptime (canonical_text t) = Ok t.
Proof.
  intros Hok Hsec Hmicro.
  destruct (format_regex_canonical t Hok) as [others Hmatch].
  unfold Strptime.strptime. rewrite Hmatch.
  unfold Datetime.new_datetime.
  destruct t as [y m d hh mm ss us].
  cbn [Datetime.year Datetime.month Datetime.day Datetime.hour
       Datetime.minute Datetime.second Datetime.microsecond] in *.
  subst ss us. now rewrite Hok.
Qed.

Lemma strptime_canonical_text_witness :
  Strptime.strptime (canonical_text new_year_2030) = Ok new_year_2030.
Proof.
  apply (strptime_canonical_text new_year_2030); reflexivity.
Defined.

(* ===================================================================== *)
(** * Numbers as texts                                                    *)
(* ===================================================================== *)

Section Numbers.
Import Python.

Lemma append_assoc (a b c : string) : (a +:+ b) +:+ c = a +:+ (b +:+ c).
Proof. induction a as [|x a IH]; cbn; [reflexivity|now rewrite IH]. Qed.

Lemma append_nil_r (a : string) : a +:+ EmptyString = a.
Proof. induction a as [|x a IH]; cbn; [reflexivity|now rewrite IH]. Qed.

(** One digit more in front of the rest. *)
Lemma scan_digit (d : Z) (rest : string) (b : bool) (acc cnt : Z) :
  0 <= d <= 9 ->
  long_from_string_base (String (Datetime.digit_char d) rest) b acc cnt
  = long_from_string_base rest false (acc * 10 + d) (cnt + 1).
Proof. intros Hd. small_Z d; reflexivity. Qed.

(** Reading the digits that [str_digits] wrote gives the number back. *)
Lemma scan_str_digits (fuel : nat) :
  forall m : Z,
    0 <= m < 2 ^ Z.of_nat (S fuel) ->
    exists k,
      1 <= k <= Z.of_nat (S fuel)
      /\ forall rest b acc cnt,
           long_from_string_base (str_digits (S fuel) m +:+ rest) b acc cnt
           = long_from_string_base rest false (acc * 10 ^ k + m) (cnt + k).
Proof.
  induction fuel as [|fuel IH]; intros m Hm.
  - exists 1. split; [lia|]. intros rest b acc cnt.
    change (2 ^ Z.of_nat 1) with 2 in Hm.
    cbn [str_digits]. destruct (Z.ltb_spec m 10) as [_|Hlarge]; [|lia].
    cbn [String.append].
    rewrite scan_digit by (Z.div_mod_to_equations; lia).
    rewrite Z.mod_small by lia. f_equal; lia.
  - remember (S fuel) as fuel' eqn:Hfuel. cbn [str_digits].
    assert (Hdigit : 0 <= m mod 10 <= 9) by (Z.div_mod_to_equations; lia).
    destruct (Z.ltb_spec m 10) as [Hsmall|Hlarge].
    + exists 1. split; [lia|]. intros rest b acc cnt.
      cbn [String.append]. rewrite scan_digit by exact Hdigit.
      rewrite Z.mod_small by lia. f_equal; lia.
    + assert (Hdiv : 0 <= m / 10 < 2 ^ Z.of_nat fuel').
      { rewrite Nat2Z.inj_succ, Z.pow_succ_r in Hm by lia.
        Z.div_mod_to_equations. lia. }
      subst fuel'.
      destruct (IH (m / 10) Hdiv) as (k & Hk & Hscan).
      exists (k + 1). split; [lia|]. intros rest b acc cnt.
      rewrite append_assoc. cbn [String.append].
      rewrite Hscan, scan_digit by exact Hdigit.
      f_equal; [|lia].
      rewrite Z.pow_add_r by lia. Z.div_mod_to_equations. lia.
Qed.

(** The digits start with a digit. *)
Lemma str_digits_head (fuel : nat) :
  forall (m : Z) (rest : string),
    0 <= m ->
    exists d s,
      0 <= d <= 9
      /\ str_digits (S fuel) m +:+ rest = String (Datetime.digit_char d) s.
Proof.
  induction fuel as [|fuel IH]; intros m rest Hm.
  - exists (m mod 10). cbn [str_digits].
    destruct (m <? 10); eexists;
      (split; [Z.div_mod_to_equations; lia|reflexivity]).
  - remember (S fuel) as fuel' eqn:Hfuel. cbn [str_digits].
    destruct (m <? 10).
    + exists (m mod 10). eexists.
      split; [Z.div_mod_to_equations; lia|reflexivity].
    + rewrite append_assoc. subst fuel'.
      apply IH. Z.div_mod_to_equations. lia.
Qed.

(** The digits hold no underscore: [split] passes them through. *)
Lemma split_str_digits (fuel : nat) :
  forall (m : Z) (rest piece : string) (pieces : list string),
    0 <= m ->
    split "_" rest = piece :: pieces ->
    split "_" (str_digits fuel m +:+ rest)
    = (str_digits fuel m +:+ piece) :: pieces.
Proof.
  induction fuel as [|fuel IH]; intros m rest piece pieces Hm Hsplit.
  - exact Hsplit.
  - cbn [str_digits].
    assert (Hdigit : 0 <= m mod 10 <= 9) by (Z.div_mod_to_equations; lia).
    assert (Hlast :
              split "_" (String (Datetime.digit_char (m mod 10)) rest)
              = String (Datetime.digit_char (m mod 10)) piece :: pieces).
    { cbn [split]. rewrite Hsplit.
      remember (m mod 10) as d eqn:Hd. clear Hd.
      small_Z d; reflexivity. }
    destruct (m <? 10).
    + cbn [String.append]. exact Hlast.
    + rewrite !append_assoc. cbn [String.append].
      apply IH; [Z.div_mod_to_equations; lia|exact Hlast].
Qed.

Lemma abs_below_pow2 (n : Z) :
  0 <= Z.abs n < 2 ^ Z.of_nat (S (Z.to_nat (Z.log2 (Z.abs n)))).
Proof.
  split; [lia|].
  rewrite Nat2Z.inj_succ, Z2Nat.id by apply Z.log2_nonneg.
  destruct (Z.eq_dec (Z.abs n) 0) as [->|Hpos].
  - reflexivity.
  - apply Z.log2_spec. lia.
Qed.

Lemma digit_char_plain (d : Z) :
  0 <= d <= 9 ->
  is_space (Datetime.digit_char d) = false
  /\ Ascii.eqb (Datetime.digit_char d) "+" = false
  /\ Ascii.eqb (Datetime.digit_char d) "-" = false
  /\ Ascii.eqb (Datetime.digit_char d) "_" = false.
Proof. intros Hd. small_Z d; repeat split. Qed.

(** [int] reads the digits of a number of at most 4300 binary digits. *)
Lemma int_str_digits (m : Z) :
  0 <= m ->
  Z.log2 m < 4300 ->
  int (str_digits (S (Z.to_nat (Z.log2 m))) m) = Ok m.
Proof.
  intros Hm Hlog.
  assert (Hfuel : 0 <= m < 2 ^ Z.of_nat (S (Z.to_nat (Z.log2 m)))).
  { pose proof (abs_below_pow2 m) as H. now rewrite Z.abs_eq in H by lia. }
  destruct (scan_str_digits (Z.to_nat (Z.log2 m)) m Hfuel)
    as (k & Hk & Hscan).
  set (fuel := S (Z.to_nat (Z.log2 m))) in *.
  destruct (str_digits_head (Z.to_nat (Z.log2 m)) m EmptyString Hm)
    as (d & s & Hd & Hhead).
  fold fuel in Hhead. rewrite append_nil_r in Hhead.
  destruct (digit_char_plain d Hd) as (Hspace & Hplus & Hminus & Hunder).
  specialize (Hscan EmptyString false 0 0).
  rewrite append_nil_r in Hscan.
  unfold int. rewrite Hhead. cbn [lstrip]. rewrite Hspace, Hplus, Hminus.
  rewrite Hunder. rewrite <- Hhead, Hscan. cbn [long_from_string_base].
  destruct (Z.eqb_spec (0 + k) 0) as [|_]; [lia|].
  assert (Hk' : Z.of_nat fuel <= 4300).
  { unfold fuel. rewrite Nat2Z.inj_succ, Z2Nat.id by apply Z.log2_nonneg.
    lia. }
  destruct (Z.ltb_spec _PY_LONG_DEFAULT_MAX_STR_DIGITS (0 + k)) as [Hbig|_].
  { unfold _PY_LONG_DEFAULT_MAX_STR_DIGITS in Hbig. lia. }
  cbn [lstrip]. f_equal. lia.
Qed.

(** [int(str(n)) == n] *)
Lemma int_str (n : Z) :
  Z.log2 (Z.abs n) < 4300 -> int (str n) = Ok n.
Proof.
  intros Hlog. unfold str.
  destruct (Z.ltb_spec n 0) as [Hneg|Hpos].
  - pose proof (int_str_digits (Z.abs n) ltac:(lia) Hlog) as Hint.
    set (fuel := S (Z.to_nat (Z.log2 (Z.abs n)))) in *.
    destruct (str_digits_head (Z.to_nat (Z.log2 (Z.abs n))) (Z.abs n)
                EmptyString ltac:(lia))
      as (d & s & Hd & Hhead).
    fold fuel in Hhead. rewrite append_nil_r in Hhead.
    destruct (digit_char_plain d Hd) as (Hspace & Hplus & Hminus & Hunder).
    unfold int in *. cbn [String.append lstrip].
    change (is_space "-") with false. cbv beta iota.
    change (Ascii.eqb "-" "+") with false.
    change (Ascii.eqb "-" "-") with true. cbv beta iota.
    rewrite Hhead in *. cbn [lstrip] in Hint.
    rewrite Hspace, Hplus, Hminus in Hint. rewrite Hunder in *.
    destruct (long_from_string_base (String (Datetime.digit_char d) s)
                false 0 0) as [[[value ndigits] rest]|err];
      [|discriminate].
    destruct (ndigits =? 0); [discriminate|].
    destruct (_PY_LONG_DEFAULT_MAX_STR_DIGITS <? ndigits); [discriminate|].
    destruct (lstrip rest); [|discriminate].
    injection Hint as Hvalue. f_equal. destruct value; lia.
  - cbn [String.append]. rewrite <- (Z.abs_eq n) at 3 by lia.
    apply int_str_digits; [lia|exact Hlog].
Qed.

Lemma split_str (n : Z) : split "_" (str n) = [str n].
Proof.
  unfold str.
  pose proof (split_str_digits (S (Z.to_nat (Z.log2 (Z.abs n)))) (Z.abs n)
                EmptyString EmptyString [] ltac:(lia) eq_refl) as Hsplit.
  rewrite append_nil_r in Hsplit.
  destruct (n <? 0).
  - cbn [String.append split]. change (Ascii.eqb "-" "_") with false.
    cbv beta iota. now rewrite Hsplit.
  - cbn [String.append]. exact Hsplit.
Qed.

Lemma long_from_string_base_raises (s : string) :
  forall (b : bool) (acc cnt : Z) (err : exn),
    long_from_string_base s b acc cnt = Raise err -> err = ValueError.
Proof.
  induction s as [|c s IH]; intros b acc cnt err; cbn [long_from_string_base].
  - destruct b; congruence.
  - destruct (is_digit c); [apply IH|].
    destruct (Ascii.eqb c "_").
    + destruct b; [congruence|apply IH].
    + destruct b; congruence.
Qed.

(** [int] raises nothing but [ValueError]. *)
Lemma int_raises_value_error (s : string) (err : exn) :
  int s = Raise err -> err = ValueError.
Proof.
  unfold int.
  destruct (lstrip s) as [|c rest]; [congruence|].
  assert (Hbody :
            forall sign body,
              match body with
              | String c0 _ =>
                  if Ascii.eqb c0 "_" then Raise ValueError
                  else
                    match long_from_string_base body false 0 0 with
                    | Ok (value, ndigits, rest0) =>
                        if ndigits =? 0 then Raise ValueError
                        else if _PY_LONG_DEFAULT_MAX_STR_DIGITS <? ndigits
                        then Raise ValueError
                        else
                          match lstrip rest0 with
                          | EmptyString => Ok (sign * value)
                          | String _ _ => Raise ValueError
                          end
                    | Raise err0 => Raise err0
                    end
              | EmptyString => Raise ValueError
              end = Raise err -> err = ValueError).
  { intros sign body. destruct body as [|c0 body']; [congruence|].
    destruct (Ascii.eqb c0 "_"); [congruence|].
    destruct (long_from_string_base (String c0 body') false 0 0)
      as [[[value ndigits] rest0]|err0] eqn:Hscan.
    - destruct (ndigits =? 0); [congruence|].
      destruct (_PY_LONG_DEFAULT_MAX_STR_DIGITS <? ndigits); [congruence|].
      destruct (lstrip rest0); congruence.
    - intros H. injection H as <-.
      now apply long_from_string_base_raises in Hscan. }
  destruct (Ascii.eqb c "+"); [exact (Hbody 1 rest)|].
  destruct (Ascii.eqb c "-");
    [exact (Hbody (-1) rest)|exact (Hbody 1 (String c rest))].
Qed.

Lemma split_nonempty (sep : ascii) (s : string) :
  exists piece pieces, split sep s = piece :: pieces.
Proof.
  induction s as [|c s (piece & pieces & IH)]; cbn [split].
  - eauto.
  - destruct (Ascii.eqb c sep); [eauto|]. rewrite IH. eauto.
Qed.

Lemma prefix_true (p s : string) :
  String.prefix p s = true -> exists rest, s = p +:+ rest.
Proof.
  revert s. induction p as [|c p IH]; intros s.
  - intros _. exists s. reflexivity.
  - destruct s as [|c' s]; cbn [String.prefix]; [discriminate|].
    destruct (ascii_dec c c') as [Heq|_]; [subst c'|discriminate].
    intros H. destruct (IH s H) as [rest ->]. exists rest. reflexivity.
Qed.

End Numbers.

(* ===================================================================== *)
(** * The inline buttons                                                  *)
(* ===================================================================== *)

Section Buttons.

Lemma row_id_log2 (n : Z) : - 2 ^ 63 <= n < 2 ^ 63 -> Z.log2 (Z.abs n) < 4300.
Proof.
  intros Hn.
  assert (Hle : Z.log2 (Z.abs n) <= Z.log2 (2 ^ 63))
    by (apply Z.log2_le_mono; lia).
  rewrite Z.log2_pow2 in Hle by lia. lia.
Qed.

(** The pieces of a text that starts with one of the three prefixes. *)
Lemma split_after_prefix (rest : string) :
  Python.split "_" ("register_" +:+ rest) = "register" :: Python.split "_" rest
  /\ Python.split "_" ("stats_" +:+ rest) = "stats" :: Python.split "_" rest
  /\ Python.split "_" ("delete_" +:+ rest) = "delete" :: Python.split "_" rest.
Proof. repeat split. Qed.

(** The three kinds of data exclude each other. *)
Lemma prefix_stats (data : string) :
  String.prefix "stats_" data = true ->
  String.prefix "register_" data = false.
Proof.
  intros H. apply prefix_true in H. destruct H as [rest ->]. reflexivity.
Qed.

Lemma prefix_delete (data : string) :
  String.prefix "delete_" data = true ->
  String.prefix "register_" data = false
  /\ String.prefix "stats_" data = false.
Proof.
  intros H. apply prefix_true in H. destruct H as [rest ->]. now split.
Qed.

(** After one of the three prefixes there is always a second piece, so
    that [data.split("_")[1]] exists and only [int] can raise. *)
Lemma callback_meeting_id_raises (data : string) (err : exn) :
  String.prefix "register_" data = true
  \/ String.prefix "stats_" data = true
  \/ String.prefix "delete_" data = true ->
  callback_meeting_id data = Raise err -> err = ValueError.
Proof.
  intros Hprefix. unfold callback_meeting_id.
  assert (Hsplit :
            exists name piece pieces,
              Python.split "_" data = name :: piece :: pieces).
  { destruct Hprefix as [H|[H|H]]; apply prefix_true in H;
      destruct H as [rest ->];
      destruct (split_after_prefix rest) as (H1 & H2 & H3);
      destruct (split_nonempty "_" rest) as (piece & pieces & Hrest);
      rewrite ?H1, ?H2, ?H3, Hrest; eauto. }
  destruct Hsplit as (name & piece & pieces & ->).
  cbn [Python.getitem nth_error]. apply int_raises_value_error.
Qed.

Lemma callback_meeting_id_data (n : Z) :
  - 2 ^ 63 <= n < 2 ^ 63 ->
  callback_meeting_id (register_data n) = Ok n
  /\ callback_meeting_id (stats_data n) = Ok n
  /\ callback_meeting_id (delete_data n) = Ok n.
Proof.
  intros Hn. apply row_id_log2 in Hn.
  unfold callback_meeting_id, register_data, stats_data, delete_data.
  destruct (split_after_prefix (Python.str n)) as (-> & -> & ->).
  rewrite split_str. cbn [Python.getitem nth_error].
  repeat split; now apply int_str.
Qed.

End Buttons.

(** X19: the data of a button leads back to its meeting.  For every row
    id [n] (a 64-bit integer), the data [register_<n>], [stats_<n>] and
    [delete_<n>] that the lists attach to a meeting are recognised by
    their own branch of [handle_callback_query] and by no earlier one,
    and [int(data.split("_")[1])] is [n] again. *)
Theorem button_data_round_trip (n : Z) :
  - 2 ^ 63 <= n < 2 ^ 63 ->
  (String.prefix "register_" (register_data n) = true
   /\ callback_meeting_id (register_data n) = Ok n)
  /\ (String.prefix "register_" (stats_data n) = false
      /\ String.prefix "stats_" (stats_data n) = true
      /\ callback_meeting_id (stats_data n) = Ok n)
  /\ (String.prefix "register_" (delete_data n) = false
      /\ String.prefix "stats_" (delete_data n) = false
      /\ String.prefix "delete_" (delete_data n) = true
      /\ callback_meeting_id (delete_data n) = Ok n).
Proof.
  intros Hn.
  destruct (callback_meeting_id_data n Hn) as (Hregister & Hstats & Hdelete).
  unfold register_data, stats_data, delete_data in *.
  repeat split; try assumption; try apply prefix_append; reflexivity.
Qed.

Lemma button_data_round_trip_witness :
  callback_meeting_id (register_data 9223372036854775807)
  = Ok 9223372036854775807
  /\ callback_meeting_id (delete_data 42) = Ok 42.
Proof.
  split.
  - destruct (button_data_round_trip 9223372036854775807 ltac:(lia))
      as ((_ & Hid) & _).
    exact Hid.
  - destruct (button_data_round_trip 42 ltac:(lia))
      as (_ & _ & _ & _ & _ & Hid).
    exact Hid.
Defined.

(** X20: the button that replaces [Register] after a registration does
    nothing.  Its data is [registered_<id>], which none of the three
    branches of [handle_callback_query] recognises: pressing it is
    answered and changes nothing, for every id, user and state. *)
Theorem registered_button_is_inert
    (stats_text : meeting_row -> list registration_row -> result string)
    (bot : GirlTalkBot) (e : env) (read_fault : option exn)
    (meeting_id user_id : Z) (username : option string) (st : state) :
  handle_callback_query stats_text bot e read_fault
    (mk_callback (registered_data meeting_id) user_id username) st
  = (Ok tt, [Answered], st).
Proof. reflexivity. Qed.

Section Presses.

Variable stats_text : meeting_row -> list registration_row -> result string.
Variables (bot : GirlTalkBot) (e : env) (read_fault : option exn).

(** A press on [register_...]. *)
Lemma handle_callback_query_register_run
    (data : string) (user_id : Z) (username : option string)
    (meeting_id : Z) (st : state) :
  String.prefix "register_" data = true ->
  callback_meeting_id data = Ok meeting_id ->
  handle_callback_query stats_text bot e read_fault
    (mk_callback data user_id username) st
  = match
      register_user_for_meeting e meeting_id user_id
        (str_or username "Unknown") st
    with
    | (Ok true, st1) =>
        match
          select read_fault meeting_id
            (get_registration_count (db st1) meeting_id)
        with
        | Ok registration_count =>
            (Ok tt,
             [Answered;
              RegisteredMarkup registration_count
                [registered_data meeting_id; stats_data meeting_id];
              YouAreRegistered registration_count],
             st1)
        | Raise err => (Raise err, [Answered], st1)
        end
    | (Ok false, st1) => (Ok tt, [Answered; AlreadyRegistered], st1)
    | (Raise err, st1) => (Raise err, [Answered], st1)
    end.
Proof.
  intros Hprefix Hid. unfold handle_callback_query.
  cbn [query_data query_user_id query_user_username].
  rewrite Hprefix, Hid.
  destruct (register_user_for_meeting e meeting_id user_id
              (str_or username "Unknown") st) as [[[|]|err] st1];
    reflexivity.
Qed.

(** A press on [delete_...]. *)
Lemma handle_callback_query_delete_run
    (data : string) (user_id : Z) (username : option string)
    (meeting_id : Z) (st : state) :
  String.prefix "delete_" data = true ->
  callback_meeting_id data = Ok meeting_id ->
  handle_callback_query stats_text bot e read_fault
    (mk_callback data user_id username) st
  = match
      select read_fault meeting_id (get_meeting_by_id (db st) meeting_id)
    with
    | Raise err => (Raise err, [Answered], st)
    | Ok (Some meeting) =>
        if m_creator_id meeting =? user_id then
          let st1 := after_remote_delete bot (m_event_id meeting) st in
          match store_fault e with
          | Some _ => (Ok tt, [Answered; DeleteFailed], st1)
          | None =>
              (Ok tt, [Answered; MeetingDeleted],
               set_db (delete_meeting_row meeting_id
                         (delete_registrations meeting_id (db st))) st1)
          end
        else (Ok tt, [Answered; NotYourMeeting], st)
    | Ok None => (Ok tt, [Answered; NotYourMeeting], st)
    end.
Proof.
  intros Hprefix Hid. unfold handle_callback_query.
  cbn [query_data query_user_id query_user_username].
  destruct (prefix_delete data Hprefix) as [-> ->].
  rewrite Hprefix, Hid. unfold select.
  destruct read_fault; [reflexivity|].
  destruct (fits_int64 meeting_id); [|reflexivity].
  destruct (get_meeting_by_id (db st) meeting_id) as [meeting|] eqn:Hget;
    [|reflexivity].
  destruct (m_creator_id meeting =? user_id) eqn:Hcreator; [|reflexivity].
  rewrite delete_meeting_run, Hget, Z.eqb_refl. cbn [negb]. cbv zeta.
  destruct (store_fault e); reflexivity.
Qed.

End Presses.

(** X21: the [Register] button.  With the store available, the user not
    yet registered and the count readable afterwards, the press
    registers the user, shows the count of registrations as one more
    than before, in the message and on the button, and replaces the
    button's data by [registered_<id>].  When the user is registered
    already, and also when the write to the store fails, the only
    message is that the user is already registered and nothing changes.
    When the write went through but the store cannot be read for the
    count, the press ends with the store's exception, nothing but the
    answer having been sent, and the user is registered all the same.
    The id is a 64-bit integer wherever the write goes through. *)
Theorem handle_callback_query_register
    (stats_text : meeting_row -> list registration_row -> result string)
    (bot : GirlTalkBot) (e : env) (read_fault : option exn) (data : string)
    (user_id : Z) (username : option string) (meeting_id : Z) (st : state) :
  String.prefix "register_" data = true ->
  callback_meeting_id data = Ok meeting_id ->
  (store_fault e = None ->
   is_registered (db st) meeting_id user_id = false ->
   read_fault = None ->
   fits_int64 meeting_id = true ->
   exists st',
     handle_callback_query stats_text bot e read_fault
       (mk_callback data user_id username) st
     = (Ok tt,
        [Answered;
         RegisteredMarkup (get_registration_count (db st) meeting_id + 1)
           [registered_data meeting_id; stats_data meeting_id];
         YouAreRegistered (get_registration_count (db st) meeting_id + 1)],
        st')
     /\ is_registered (db st') meeting_id user_id = true)
  /\ (store_fault e <> None
      \/ is_registered (db st) meeting_id user_id = true ->
      handle_callback_query stats_text bot e read_fault
        (mk_callback data user_id username) st
      = (Ok tt, [Answered; AlreadyRegistered], st))
  /\ (forall err,
        store_fault e = None ->
        is_registered (db st) meeting_id user_id = false ->
        fits_int64 meeting_id = true ->
        read_fault = Some err ->
        exists st',
          handle_callback_query stats_text bot e read_fault
            (mk_callback data user_id username) st
          = (Raise err, [Answered], st')
          /\ is_registered (db st') meeting_id user_id = true).
Proof.
  intros Hprefix Hid.
  rewrite (handle_callback_query_register_run stats_text bot e read_fault
             data user_id username meeting_id st Hprefix Hid).
  rewrite register_user_for_meeting_run.
  split; [|split].
  - intros Hstore Hnew Hread Hfits. rewrite Hstore, Hnew. cbn [db set_db].
    unfold select. rewrite Hread, Hfits.
    pose proof (count_after_insert (db st)
                  (mk_registration
                     (next_rowid (map r_id (registrations (db st))))
                     meeting_id user_id (str_or username "Unknown")
                     (store_timestamp e))) as Hcount.
    cbn [r_meeting_id] in Hcount. rewrite Hcount.
    eexists. split; [reflexivity|].
    cbn [db set_db].
    apply (is_registered_after_insert (db st)
             (mk_registration
                (next_rowid (map r_id (registrations (db st))))
                meeting_id user_id (str_or username "Unknown")
                (store_timestamp e))).
  - intros [Hfault|Hdup].
    + destruct (store_fault e); [reflexivity|contradiction].
    + rewrite Hdup. now destruct (store_fault e).
  - intros err Hstore Hnew _ Hread. rewrite Hstore, Hnew. cbn [db set_db].
    unfold select. rewrite Hread.
    eexists. split; [reflexivity|].
    cbn [db set_db].
    apply (is_registered_after_insert (db st)
             (mk_registration
                (next_rowid (map r_id (registrations (db st))))
                meeting_id user_id (str_or username "Unknown")
                (store_timestamp e))).
Qed.

Lemma handle_callback_query_register_witness :
  exists st',
    handle_callback_query (fun _ _ => Raise ValueError) working_calendar calm
      None (mk_callback "register_2" 8 None) (in_database sample_database)
    = (Ok tt,
       [Answered; RegisteredMarkup 1 ["registered_2"; "stats_2"];
        YouAreRegistered 1],
       st')
    /\ is_registered (db st') 2 8 = true.
Proof.
  destruct (handle_callback_query_register (fun _ _ => Raise ValueError)
              working_calendar calm None "register_2" 8 None 2
              (in_database sample_database) eq_refl eq_refl)
    as [Hnew _].
  apply Hnew; reflexivity.
Defined.

(** X22: the [Delete] button, the store being readable and the id a
    64-bit integer.  A press by anyone but the creator, or for a meeting
    that does not exist, is refused and changes nothing; the creator's
    press deletes the meeting and its registrations when the write to
    the store goes through, and reports an error, the store unchanged,
    when it does not. *)
Theorem handle_callback_query_delete
    (stats_text : meeting_row -> list registration_row -> result string)
    (bot : GirlTalkBot) (e : env) (read_fault : option exn) (data : string)
    (user_id : Z) (username : option string) (meeting_id : Z) (st : state) :
  String.prefix "delete_" data = true ->
  callback_meeting_id data = Ok meeting_id ->
  read_fault = None ->
  fits_int64 meeting_id = true ->
  (get_meeting_by_id (db st) meeting_id = None
   \/ (exists meeting,
         get_meeting_by_id (db st) meeting_id = Some meeting
         /\ m_creator_id meeting <> user_id) ->
   handle_callback_query stats_text bot e read_fault
     (mk_callback data user_id username) st
   = (Ok tt, [Answered; NotYourMeeting], st))
  /\ (forall meeting,
        get_meeting_by_id (db st) meeting_id = Some meeting ->
        m_creator_id meeting = user_id ->
        (store_fault e = None ->
         exists st',
           handle_callback_query stats_text bot e read_fault
             (mk_callback data user_id username) st
           = (Ok tt, [Answered; MeetingDeleted], st')
           /\ get_meeting_by_id (db st') meeting_id = None
           /\ get_meeting_registrations (db st') meeting_id = [])
        /\ (store_fault e <> None ->
            exists st',
              handle_callback_query stats_text bot e read_fault
                (mk_callback data user_id username) st
              = (Ok tt, [Answered; DeleteFailed], st')
              /\ db st' = db st)).
Proof.
  intros Hprefix Hid Hread Hfits.
  rewrite (handle_callback_query_delete_run stats_text bot e read_fault data
             user_id username meeting_id st Hprefix Hid).
  unfold select. rewrite Hread, Hfits.
  split.
  - intros [Hnone|(meeting & Hget & Hother)].
    + now rewrite Hnone.
    + rewrite Hget. destruct (Z.eqb_spec (m_creator_id meeting) user_id);
        [contradiction|reflexivity].
  - intros meeting Hget Hcreator. rewrite Hget, Hcreator, Z.eqb_refl.
    cbv zeta. split.
    + intros ->. eexists. split; [reflexivity|]. cbn [db set_db]. split.
      * unfold get_meeting_by_id, delete_meeting_row. cbn [meetings].
        apply find_filter_none.
      * unfold get_meeting_registrations, delete_meeting_row,
          delete_registrations. cbn [registrations].
        now rewrite filter_none.
    + intros Hfault. destruct (store_fault e); [|contradiction].
      eexists. split; [reflexivity|]. apply db_after_remote_delete.
Qed.

Lemma handle_callback_query_delete_witness :
  handle_callback_query (fun _ _ => Raise ValueError) working_calendar calm
    None (mk_callback "delete_1" 8 (Some "bea")) (in_database sample_database)
  = (Ok tt, [Answered; NotYourMeeting], in_database sample_database).
Proof.
  destruct (handle_callback_query_delete (fun _ _ => Raise ValueError)
              working_calendar calm None "delete_1" 8 (Some "bea") 1
              (in_database sample_database) eq_refl eq_refl eq_refl eq_refl)
    as [Hrefused _].
  apply Hrefused. right. exists book_club. split; [reflexivity|].
  discriminate.
Defined.

(** X23: the [Stats] button only reads.  A press on [stats_<id>] leaves
    the whole state as it was, whatever the store answers and whatever
    becomes of the statistics text; when the store can be read, the id
    is a 64-bit integer and no meeting is stored under it, the answer is
    that the meeting was not found. *)
Theorem handle_callback_query_stats
    (stats_text : meeting_row -> list registration_row -> result string)
    (bot : GirlTalkBot) (e : env) (read_fault : option exn) (data : string)
    (user_id : Z) (username : option string) (meeting_id : Z) (st : state) :
  String.prefix "stats_" data = true ->
  callback_meeting_id data = Ok meeting_id ->
  snd (handle_callback_query stats_text bot e read_fault
         (mk_callback data user_id username) st) = st
  /\ (read_fault = None ->
      fits_int64 meeting_id = true ->
      get_meeting_by_id (db st) meeting_id = None ->
      handle_callback_query stats_text bot e read_fault
        (mk_callback data user_id username) st
      = (Ok tt, [Answered; MeetingNotFound], st)).
Proof.
  intros Hprefix Hid. unfold handle_callback_query, show_meeting_stats.
  cbn [query_data query_user_id query_user_username].
  rewrite (prefix_stats data Hprefix), Hprefix, Hid. unfold select.
  split.
  - destruct read_fault; [reflexivity|].
    destruct (fits_int64 meeting_id); [|reflexivity].
    destruct (get_meeting_by_id (db st) meeting_id) as [meeting|];
      [|reflexivity].
    now destruct (stats_text meeting _).
  - now intros -> -> ->.
Qed.

Lemma handle_callback_query_stats_witness :
  handle_callback_query (fun m _ => Ok (m_title m)) working_calendar calm
    None (mk_callback "stats_99" 8 None) (in_database sample_database)
  = (Ok tt, [Answered; MeetingNotFound], in_database sample_database).
Proof.
  destruct (handle_callback_query_stats (fun m _ => Ok (m_title m))
              working_calendar calm None "stats_99" 8 None 99
              (in_database sample_database) eq_refl eq_refl)
    as (_ & Hnone).
  apply Hnone; reflexivity.
Defined.

(** X24: a press that cannot find its meeting changes nothing.  For
    ASCII data with one of the three prefixes, [data.split("_")[1]]
    exists, and when [int] refuses it the press ends with [ValueError];
    for a [stats_] or [delete_] button whose id is a number, when the
    store cannot be read, or when the id is no 64-bit integer
    ([OverflowError]), the press ends with what the lookup raises.  In
    each case only the answer to the press was sent and the state is as
    before. *)
Theorem handle_callback_query_failed_lookup
    (stats_text : meeting_row -> list registration_row -> result string)
    (bot : GirlTalkBot) (e : env) (read_fault : option exn) (data : string)
    (user_id : Z) (username : option string) (st : state) :
  Python.isascii data = true ->
  String.prefix "register_" data = true
  \/ String.prefix "stats_" data = true
  \/ String.prefix "delete_" data = true ->
  (forall err,
     callback_meeting_id data = Raise err ->
     err = ValueError
     /\ handle_callback_query stats_text bot e read_fault
          (mk_callback data user_id username) st
        = (Raise ValueError, [Answered], st))
  /\ (forall meeting_id err,
        String.prefix "register_" data = false ->
        callback_meeting_id data = Ok meeting_id ->
        (read_fault = Some err /\ fits_int64 meeting_id = true)
        \/ (read_fault = None /\ fits_int64 meeting_id = false
            /\ err = OverflowError) ->
        handle_callback_query stats_text bot e read_fault
          (mk_callback data user_id username) st
        = (Raise err, [Answered], st)).
Proof.
  intros _ Hprefix. split.
  - intros err Hid.
    pose proof (callback_meeting_id_raises data err Hprefix Hid) as ->.
    split; [reflexivity|].
    unfold handle_callback_query.
    cbn [query_data query_user_id query_user_username]. rewrite Hid.
    destruct (String.prefix "register_" data) eqn:Hregister; [reflexivity|].
    destruct (String.prefix "stats_" data) eqn:Hstats; [reflexivity|].
    destruct (String.prefix "delete_" data) eqn:Hdelete; [reflexivity|].
    destruct Hprefix as [H|[H|H]]; congruence.
  - intros meeting_id err Hregister Hid Hfailed.
    assert (Hany : forall (A : Type) (answer : A),
               select read_fault meeting_id answer = Raise err).
    { intros A answer. unfold select.
      destruct Hfailed as [[-> _]|(-> & -> & ->)]; reflexivity. }
    unfold handle_callback_query, show_meeting_stats.
    cbn [query_data query_user_id query_user_username].
    rewrite Hregister, Hid, !Hany.
    destruct (String.prefix "stats_" data) eqn:Hstats; [reflexivity|].
    destruct (String.prefix "delete_" data) eqn:Hdelete; [reflexivity|].
    destruct Hprefix as [H|[H|H]]; congruence.
Qed.

Lemma handle_callback_query_failed_lookup_witness :
  handle_callback_query (fun m _ => Ok (m_title m)) working_calendar calm
    None (mk_callback "register_soon" 8 None) (in_database sample_database)
  = (Raise ValueError, [Answered], in_database sample_database)
  /\ handle_callback_query (fun m _ => Ok (m_title m)) working_calendar calm
       None (mk_callback "delete_99999999999999999999" 8 None)
       (in_database sample_database)
     = (Raise OverflowError, [Answered], in_database sample_database).
Proof.
  split.
  - destruct (handle_callback_query_failed_lookup
                (fun m _ => Ok (m_title m)) working_calendar calm None
                "register_soon" 8 None (in_database sample_database)
                eq_refl (or_introl eq_refl)) as [Hint _].
    destruct (Hint ValueError eq_refl) as [_ Hrun]. exact Hrun.
  - destruct (handle_callback_query_failed_lookup
                (fun m _ => Ok (m_title m)) working_calendar calm None
                "delete_99999999999999999999" 8 None
                (in_database sample_database)
                eq_refl (or_intror (or_intror eq_refl))) as [_ Hread].
    apply (Hread 99999999999999999999 OverflowError eq_refl eq_refl).
    right. repeat split.
Defined.

(* ===================================================================== *)
(** * Without a calendar                                                  *)
(* ===================================================================== *)

Lemma find_app_none (rows : list meeting_row) (row : meeting_row) (i : Z) :
  find (fun m => m_id m =? i) rows = None ->
  find (fun m => m_id m =? i) (rows ++ [row])
  = if m_id row =? i then Some row else None.
Proof.
  induction rows as [|m rows IH]; simpl; [reflexivity|].
  destruct (m_id m =? i); [discriminate|exact IH].
Qed.

Section LocalOnly.

Variables (bot : GirlTalkBot) (e : env).
Hypothesis Hlocal : enabled_service bot = None.

Lemma create_without_calendar
    (title description : string) (start_time : Datetime.datetime)
    (creator_id : Z) (creator_username : string) (st : state) :
  exists success st',
    create_calendar_event bot e title description start_time creator_id
                          creator_username st
    = (Ok (success, None), st')
    /\ calls st' = calls st
    /\ forall meeting_id row,
         get_meeting_by_id (db st) meeting_id = None ->
         get_meeting_by_id (db st') meeting_id = Some row ->
         m_event_id row = LOCAL_PREFIX +:+ clock_timestamp e
         /\ m_calendar_link row = None.
Proof.
  destruct (Datetime.add start_time (Datetime.hours 1))
    as [end_time|err] eqn:Hadd.
  - rewrite (create_calendar_event_run bot e title description start_time
               creator_id creator_username end_time st Hadd).
    cbv zeta. unfold written_meeting, remote_attempt, after_attempt.
    rewrite Hlocal. cbn [fst snd].
    destruct (store_fault e).
    + do 2 eexists. split; [reflexivity|]. split; [reflexivity|].
      intros meeting_id row Hnone Hsome. congruence.
    + do 2 eexists. split; [reflexivity|]. split; [reflexivity|].
      intros meeting_id row Hnone. unfold get_meeting_by_id in *.
      cbn [db set_db meetings]. rewrite (find_app_none _ _ _ Hnone).
      cbn [m_id].
      destruct (new_meeting_id (db st) =? meeting_id); [|discriminate].
      intros Hsome. injection Hsome as <-. split; reflexivity.
  - rewrite (create_calendar_event_overflow bot e title description start_time
               creator_id creator_username err st Hadd).
    do 2 eexists. split; [reflexivity|]. split; [reflexivity|].
    intros meeting_id row Hnone Hsome. congruence.
Qed.

Lemma delete_without_calendar (meeting_id creator_id : Z) (st : state) :
  calls (snd (delete_meeting bot e meeting_id creator_id st)) = calls st.
Proof.
  rewrite delete_meeting_run.
  destruct (get_meeting_by_id (db st) meeting_id) as [meeting|];
    [|reflexivity].
  destruct (negb (m_creator_id meeting =? creator_id)); [reflexivity|].
  cbv zeta. unfold after_remote_delete. rewrite Hlocal.
  destruct (store_fault e); reflexivity.
Qed.

End LocalOnly.

Lemma setup_google_calendar_none
    (on : bool) (calendar_id : string) (found : calendar_setup) :
  on = false
  \/ key_file_exists found = false
  \/ (exists err, from_service_account_file found = Raise err)
  \/ (exists err, build found = Raise err) ->
  enabled_service (setup_google_calendar on calendar_id found) = None.
Proof.
  unfold enabled_service, setup_google_calendar.
  cbn [GOOGLE_CALENDAR_ON calendar_service].
  intros [->|[Hfile|[[err Hcreds]|[err Hbuild]]]]; [reflexivity| | |].
  - rewrite Hfile. now destruct on.
  - rewrite Hcreds. destruct on; [|reflexivity].
    now destruct (key_file_exists found).
  - rewrite Hbuild. destruct on; [|reflexivity].
    destruct (key_file_exists found); [|reflexivity].
    now destruct (from_service_account_file found).
Qed.

(** X25: a calendar that could not be set up is never asked.  When the
    switch is off, the key file is missing, or loading the credentials
    or building the service raises, [setup_google_calendar] leaves the
    bot without a service; such a bot creates meetings under a local
    event id and without a link, and neither [create_calendar_event]
    nor [delete_meeting] makes a request to the calendar. *)
Theorem setup_google_calendar_failure_is_local_only
    (on : bool) (calendar_id : string) (found : calendar_setup) (e : env)
    (title description : string) (start_time : Datetime.datetime)
    (creator_id : Z) (creator_username : string) (meeting_id : Z)
    (st : state) :
  on = false
  \/ key_file_exists found = false
  \/ (exists err, from_service_account_file found = Raise err)
  \/ (exists err, build found = Raise err) ->
  let bot := setup_google_calendar on calendar_id found in
  (GOOGLE_CALENDAR_ON bot = false \/ calendar_service bot = None)
  /\ (exists success st',
        create_calendar_event bot e title description start_time creator_id
                              creator_username st
        = (Ok (success, None), st')
        /\ calls st' = calls st
        /\ forall new_id row,
             get_meeting_by_id (db st) new_id = None ->
             get_meeting_by_id (db st') new_id = Some row ->
             m_event_id row = LOCAL_PREFIX +:+ clock_timestamp e
             /\ m_calendar_link row = None)
  /\ calls (snd (delete_meeting bot e meeting_id creator_id st)) = calls st.
Proof.
  intros Hfailed. cbv zeta.
  pose proof (setup_google_calendar_none on calendar_id found Hfailed)
    as Hnone.
  split; [|split].
  - unfold enabled_service in Hnone.
    destruct (GOOGLE_CALENDAR_ON _); [now right|now left].
  - now apply create_without_calendar.
  - now apply delete_without_calendar.
Qed.

Lemma setup_google_calendar_failure_is_local_only_witness :
  exists success st',
    create_calendar_event
      (setup_google_calendar true "primary"
         (mk_calendar_setup true (Raise OtherError) (Ok working_service)))
      calm "Walk" "Park" new_year_2030 7 "ann" empty_state
    = (Ok (success, None), st')
    /\ calls st' = [].
Proof.
  destruct (setup_google_calendar_failure_is_local_only true "primary"
              (mk_calendar_setup true (Raise OtherError) (Ok working_service))
              calm "Walk" "Park" new_year_2030 7 "ann" 1 empty_state
              (or_intror (or_intror (or_introl
                 (ex_intro _ OtherError eq_refl)))))
    as (_ & (success & st' & Hrun & Hcalls & _) & _).
  exists success, st'. split; assumption.
Defined.

(** X26: with the switch on, the key file in place and both library
    calls returning, [setup_google_calendar] keeps the service that
    [build] returned, and the bot uses it: a creation asks that service,
    under [CALENDAR_ID], for an event with the title as summary, the
    description followed by the creator's name, and the ISO texts of the
    start and of the start plus one hour. *)
Theorem setup_google_calendar_success_is_used
    (calendar_id : string) (found : calendar_setup) (service : CalendarService)
    (e : env) (title description : string)
    (start_time end_time : Datetime.datetime)
    (creator_id : Z) (creator_username : string) (st : state) :
  key_file_exists found = true ->
  from_service_account_file found = Ok tt ->
  build found = Ok service ->
  Datetime.add start_time (Datetime.hours 1) = Ok end_time ->
  let bot := setup_google_calendar true calendar_id found in
  calendar_service bot = Some service
  /\ calls (snd (create_calendar_event bot e title description start_time
                   creator_id creator_username st))
     = (calls st
        ++ [InsertCall calendar_id
              (mk_calendar_event title
                 (description +:+ newline +:+ newline +:+ "Created by: @"
                  +:+ creator_username)
                 (Datetime.isoformat start_time)
                 (Datetime.isoformat end_time))])%list.
Proof.
  intros Hfile Hcreds Hbuild Hadd. cbv zeta.
  assert (Hsvc :
            calendar_service (setup_google_calendar true calendar_id found)
            = Some service).
  { unfold setup_google_calendar. cbn [calendar_service negb].
    now rewrite Hfile, Hcreds, Hbuild. }
  split; [exact Hsvc|].
  rewrite (create_calendar_event_run _ e title description start_time
             creator_id creator_username end_time st Hadd).
  cbv zeta. unfold after_attempt, enabled_service. rewrite Hsvc.
  change (GOOGLE_CALENDAR_ON (setup_google_calendar true calendar_id found))
    with true.
  change (CALENDAR_ID (setup_google_calendar true calendar_id found))
    with calendar_id.
  cbv iota.
  destruct (store_fault e); reflexivity.
Qed.

Lemma setup_google_calendar_success_is_used_witness :
  calendar_service
    (setup_google_calendar true "primary"
       (mk_calendar_setup true (Ok tt) (Ok broken_service)))
  = Some broken_service.
Proof.
  destruct (setup_google_calendar_success_is_used "primary"
              (mk_calendar_setup true (Ok tt) (Ok broken_service))
              broken_service calm "Walk" "Park" new_year_2030
              (Datetime.mk_datetime 2030 1 1 11 0 0 0) 7 "ann" empty_state
              eq_refl eq_refl eq_refl eq_refl) as [Hsvc _].
  exact Hsvc.
Defined.
